(** * Reserve-aware rebalancing of the Mantle vault agent

    A shallow embedding of [vault_agent/fomo_integration.py] (policy data,
    protocol monitor, integrated agent), of the strategy layer of
    [vault_agent/APY_agent.py] (strategy adapters, [StrategyManager],
    [get_balance], the [execute_rebalance] tool) and of the allocation
    endpoint of [vault_agent/fastapi_server.py], followed by the properties
    of the specification that are stated about them.

    Python's [float] is kept abstract behind the interface [Num], which has
    two instances: IEEE 754 binary64 (what CPython computes with) and exact
    rationals.  [await] is sequential composition: every coroutine awaited
    here is awaited at once by its caller. *)

From Stdlib Require Import ZArith QArith Qabs Bool List String Floats Lia.
From Stdlib Require Import Permutation Sorted Lqa.
Import ListNotations.

Set Implicit Arguments.

(** ** Exceptions

    [raise] and [try: ... except Exception as e: ...].  An exception carries
    its message, an [HTTPException] also its status code; how [str] renders
    an [HTTPException] varies with the web framework's version, and the
    detail is taken here.  [BaseException]s that are no [Exception]
    (interrupts, task cancellation) are not modelled. *)

Inductive exn : Type :=
| Exception (msg : string)
| HTTPException (status_code : Z) (detail : string).

(** [str(e)] *)
Definition str (e : exn) : string :=
  match e with
  | Exception msg => msg
  | HTTPException _ detail => detail
  end.

Definition ZeroDivisionError : exn := Exception "division by zero".
Definition OverflowError : exn := Exception "integer division result too large for a float".
Definition ValueError : exn := Exception "arg is an empty sequence".
Definition IndexError : exn := Exception "list index out of range".

Inductive res (A : Type) : Type :=
| Ret (a : A)
| Raise (e : exn).

Arguments Ret {A} a.
Arguments Raise {A} e.

Definition bind {A B} (c : res A) (k : A -> res B) : res B :=
  match c with
  | Ret a => k a
  | Raise e => Raise e
  end.

Definition try_except {A} (body : res A) (handler : exn -> res A) : res A :=
  match body with
  | Ret a => Ret a
  | Raise e => handler e
  end.

Definition raises {A} (c : res A) : bool :=
  match c with
  | Ret _ => false
  | Raise _ => true
  end.

Declare Scope res_scope.
Delimit Scope res_scope with res.
Notation "x <- c ;; k" := (bind c (fun x => k))
  (at level 61, c at next level, right associativity) : res_scope.

Fixpoint mapM {A B} (f : A -> res B) (l : list A) : res (list B) :=
  match l with
  | [] => Ret []
  | a :: l' => (b <- f a ;; bs <- mapM f l' ;; Ret (b :: bs))%res
  end.

(** A dict is the list of its items in insertion order; [lookup k d] is
    [d[k]] guarded by [k in d], and [mem s l] is [s in l] on a list. *)
Fixpoint lookup {V} (k : string) (d : list (string * V)) : option V :=
  match d with
  | [] => None
  | (k', v) :: d' => if String.eqb k k' then Some v else lookup k d'
  end.

Definition mem (s : string) (l : list string) : bool :=
  existsb (String.eqb s) l.

(** ** Python numbers

    The interface of the float arithmetic the source relies on.  An [int]
    constant that meets a float ([0], [100]) is written as a
    literal of the interface: Python compares and combines it with a
    float as the float of the same value. *)

Class Num (N : Type) : Type := {
  (** a decimal literal of the source text, such as [0.2] *)
  lit : Q -> N;
  (** [a / b] on two [int]s *)
  itruediv : Z -> Z -> res N;
  add : N -> N -> N;
  sub : N -> N -> N;
  mul : N -> N -> N;
  (** [a / b] on a non-zero divisor; see [truediv] *)
  div : N -> N -> N;
  ltb : N -> N -> bool;
  leb : N -> N -> bool;
  eqb : N -> N -> bool;
  abs : N -> N;
  (** false on a NaN, which no comparison orders *)
  is_num : N -> bool
}.

Declare Scope py_scope.
Delimit Scope py_scope with py.
Infix "+" := add : py_scope.
Infix "-" := sub : py_scope.
Infix "*" := mul : py_scope.
Infix "<?" := ltb : py_scope.
Infix "<=?" := leb : py_scope.
Infix "=?" := eqb : py_scope.
Notation "a >? b" := (ltb b a) (only parsing) : py_scope.

(** The laws of the comparisons that the proofs below rely on; both
    instances satisfy them. *)
Class NumLaws (N : Type) {num : Num N} : Prop := {
  ltb_leb : forall a b : N, ltb a b = true -> leb a b = true;
  ltb_neq : forall a b : N, ltb a b = true -> eqb b a = false;
  leb_nltb : forall a b : N, leb a b = true -> ltb b a = false;
  nltb_leb : forall a b : N,
    is_num a = true -> is_num b = true -> ltb a b = false -> leb b a = true
}.

Arguments NumLaws N {num}.

Section PyBuiltins.
Context {N : Type} `{Num N}.
Local Open Scope py_scope.

(** [a / b] on floats raises on a zero divisor. *)
Definition truediv (a b : N) : res N :=
  if b =? lit 0 then Raise ZeroDivisionError else Ret (div a b).

(** [max(a, b)] and [min(a, b)]: the first argument is kept unless the
    second is strictly beyond it. *)
Definition py_max2 (a b : N) : N := if b >? a then b else a.
Definition py_min2 (a b : N) : N := if b <? a then b else a.

(** [max(iterable)] and [min(iterable)]; empty iterables raise. *)
Definition py_max (l : list N) : res N :=
  match l with
  | [] => Raise ValueError
  | x :: l' => Ret (fold_left py_max2 l' x)
  end.

Definition py_min (l : list N) : res N :=
  match l with
  | [] => Raise ValueError
  | x :: l' => Ret (fold_left py_min2 l' x)
  end.

(** [sum(iterable)]: additions from the left, starting at [0] (CPython
    before 3.12; later versions also carry a compensation term, which
    moves a float result by a rounding error at most). *)
Definition py_sum (l : list N) : N := fold_left add l (lit 0).

(** [sorted(l, key=...)], as CPython's list sort does it for fewer than
    64 items (listobject.c of CPython 3.11), comparing keys with [<]
    only: [count_run] takes the longest run the list starts with, one
    that never descends or one that strictly descends, a descending run
    is reversed, and [binarysort] puts each remaining item into the run
    at the place a binary search finds.  On keys that [<] orders any
    stable sort gives the same list. *)
Fixpoint run_ascending {A} (key : A -> N) (prev : A) (l : list A)
  : list A * list A :=
  match l with
  | [] => ([], [])
  | x :: l' =>
      if key x <? key prev then ([], l)
      else let (run, rest) := run_ascending key x l' in (x :: run, rest)
  end.

Fixpoint run_descending {A} (key : A -> N) (prev : A) (l : list A)
  : list A * list A :=
  match l with
  | [] => ([], [])
  | x :: l' =>
      if key x <? key prev
      then let (run, rest) := run_descending key x l' in (x :: run, rest)
      else ([], l)
  end.

(** The run, in ascending order, and the items after it. *)
Definition count_run {A} (key : A -> N) (l : list A) : list A * list A :=
  match l with
  | [] => ([], [])
  | [a] => ([a], [])
  | a :: b :: l' =>
      if key b <? key a
      then let (run, rest) := run_descending key b l' in
           (rev (a :: b :: run), rest)
      else let (run, rest) := run_ascending key b l' in
           (a :: b :: run, rest)
  end.

(** The binary search of [binarysort] between the places [l] and [r]. *)
Fixpoint bisect {A} (fuel : nat) (key : A -> N) (run : list A) (pivot : A)
    (l r : nat) : nat :=
  match fuel with
  | O => l
  | S fuel' =>
      if (l <? r)%nat then
        let p := (l + Nat.div2 (r - l))%nat in
        match nth_error run p with
        | Some y =>
            if key pivot <? key y then bisect fuel' key run pivot l p
            else bisect fuel' key run pivot (S p) r
        | None => l
        end
      else l
  end.

Definition binary_insert {A} (key : A -> N) (run : list A) (pivot : A) : list A :=
  let place := bisect (List.length run) key run pivot 0 (List.length run) in
  firstn place run ++ pivot :: skipn place run.

Definition sorted {A} (key : A -> N) (l : list A) : list A :=
  let (run, rest) := count_run key l in
  fold_left (binary_insert key) rest run.
End PyBuiltins.

(** *** Exact rationals

    Arithmetic without rounding, for the properties that are stated about
    amounts as numbers. *)

Definition Q_itruediv (a b : Z) : res Q :=
  if (b =? 0)%Z then Raise ZeroDivisionError
  else Ret (inject_Z a / inject_Z b)%Q.

#[export] Instance exact : Num Q := {|
  lit := fun q => q;
  itruediv := Q_itruediv;
  add := Qplus;
  sub := Qminus;
  mul := Qmult;
  div := Qdiv;
  ltb := fun a b => negb (Qle_bool b a);
  leb := Qle_bool;
  eqb := Qeq_bool;
  abs := Qabs;
  is_num := fun _ => true
|}.

(** *** Binary64

    Primitive floats are IEEE 754 binary64 with rounding to nearest even,
    as CPython's [float].  A literal is the double nearest to its decimal:
    for the literals of the source the numerator and the power of ten are
    doubles themselves, so the one division rounds once.  [a / b] on two
    [int]s is the correctly rounded quotient of the integers. *)

Definition b64_of_Z (z : Z) : float :=
  SF2Prim (binary_normalize prec emax z 0 false).

Definition b64_lit (q : Q) : float :=
  PrimFloat.div (b64_of_Z (Qnum q)) (b64_of_Z (Zpos (Qden q))).

Definition int_sf (z : Z) : spec_float :=
  match z with
  | Z0 => S754_zero false
  | Zpos p => S754_finite false p 0
  | Zneg p => S754_finite true p 0
  end.

Definition b64_itruediv (a b : Z) : res float :=
  if (b =? 0)%Z then Raise ZeroDivisionError
  else
    let r := SF2Prim (SFdiv prec emax (int_sf a) (int_sf b)) in
    if PrimFloat.is_infinity r then Raise OverflowError else Ret r.

#[export] Instance binary64 : Num float := {|
  lit := b64_lit;
  itruediv := b64_itruediv;
  add := PrimFloat.add;
  sub := PrimFloat.sub;
  mul := PrimFloat.mul;
  div := PrimFloat.div;
  ltb := PrimFloat.ltb;
  leb := PrimFloat.leb;
  eqb := PrimFloat.eqb;
  abs := PrimFloat.abs;
  is_num := fun x => negb (PrimFloat.is_nan x)
|}.

(** ** Effects

    Capital moves through the strategy adapters' [deposit] and [withdraw].
    Each such call is recorded, in order, in a trace; code that may call an
    adapter threads the trace and may raise. *)

Inductive Adapter : Type :=
| INITLooping
| CircuitProtocol
| MNTStaking.

Inductive Event (N : Type) : Type :=
| EvDeposit (strategy : Adapter) (amount : N)
| EvWithdraw (strategy : Adapter) (amount : N).

Arguments EvDeposit {N} strategy amount.
Arguments EvWithdraw {N} strategy amount.

Definition M (N A : Type) : Type := list (Event N) -> res A * list (Event N).

Definition ret {N A} (a : A) : M N A := fun tr => (Ret a, tr).

Definition lift {N A} (c : res A) : M N A := fun tr => (c, tr).

Definition emit {N} (ev : Event N) : M N unit := fun tr => (Ret tt, tr ++ [ev]).

Definition bindM {N A B} (c : M N A) (k : A -> M N B) : M N B :=
  fun tr =>
    match c tr with
    | (Ret a, tr') => k a tr'
    | (Raise e, tr') => (Raise e, tr')
    end.

Definition try_exceptM {N A} (body : M N A) (handler : exn -> M N A) : M N A :=
  fun tr =>
    match body tr with
    | (Ret a, tr') => (Ret a, tr')
    | (Raise e, tr') => handler e tr'
    end.

Declare Scope eff_scope.
Delimit Scope eff_scope with eff.
Notation "x <- c ;; k" := (bindM c (fun x => k))
  (at level 61, c at next level, right associativity) : eff_scope.
Notation "c ;;; k" := (bindM c (fun _ => k))
  (at level 61, right associativity) : eff_scope.

(** What the program reads from outside: the yield feeds, the chain, the
    clock, and whether a simulated transaction completes. *)
Record PolicyData : Type := {
  pd_seller : string;
  pd_buyer : string;
  pd_token : string;
  pd_token_symbol : string;
  pd_amount : Z;
  pd_payout_token : string;
  pd_payout_amount : Z;
  pd_duration : Z;
  pd_upside_share_bps : Z;
  pd_entry_price : Z;
  pd_start_timestamp : Z;
  pd_expiry_timestamp : Z;
  pd_state : nat
}.

Record World (N : Type) : Type := {
  _fetch_init_supply_apy : res N;
  _fetch_init_borrow_apy : res N;
  _fetch_mnt_rewards_apy : res N;
  _fetch_circuit_apy : res N;
  _fetch_mnt_staking_apy : res N;
  _fetch_network_fees_apy : res N;
  (** the awaited body of a [deposit] or [withdraw] *)
  settle : Event N -> res unit;
  (** [contract.functions.balanceOf(address).call()], for the contract at
      the address given first *)
  balanceOf : string -> string -> res Z;
  (** [functions.getOpenPolicyIds().call()] *)
  getOpenPolicyIds : res (list Z);
  (** [functions.getPolicy(policy_id).call()] *)
  getPolicy : Z -> res PolicyData;
  (** [int(datetime.now().timestamp())] *)
  now : Z
}.

(** ** vault_agent/APY_agent.py *)

Record MantleConfig (N : Type) : Type := {
  MOCK_WETH : string;
  MOCK_USDC : string;
  MOCK_MNT : string;
  POLICY_STORAGE : string;
  POLICY_MANAGER : string;
  FOMO_INSURANCE : string;
  DELTA_T_HOURS : Z;
  MIN_REALLOCATION_THRESHOLD : N;
  MAX_SLIPPAGE : N;
  SAFETY_BUFFER : N
}.

(** A strategy's answer to [deposit] and [withdraw]: the source's dict with
    key ["success"]. *)
Inductive TxDetail (N : Type) : Type :=
| Leverage (leverage : N)
| VaultType (vault_type : string)
| StakingPeriod (staking_period : string)
| NoDetail.

Arguments Leverage {N} leverage.
Arguments VaultType {N} vault_type.
Arguments StakingPeriod {N} staking_period.
Arguments NoDetail {N}.

Inductive TxResult (N : Type) : Type :=
| TxSuccess (strategy : string) (amount : N) (detail : TxDetail N) (tx_hash : string)
| TxFailure (error : string).

Arguments TxSuccess {N} strategy amount detail tx_hash.
Arguments TxFailure {N} error.

Definition success {N} (r : TxResult N) : bool :=
  match r with
  | TxSuccess _ _ _ _ => true
  | TxFailure _ => false
  end.

(** [f"0x{'1' * 64}"] *)
Fixpoint times (c : string) (n : nat) : string :=
  match n with
  | O => EmptyString
  | S n' => (c ++ times c n')%string
  end.

Definition tx_hash_of (digit : string) : string := ("0x" ++ times digit 64)%string.

Section Config.
Context {N : Type} `{Num N}.

Definition config : MantleConfig N := {|
  MOCK_WETH := "0xEBcBae3E66F30C5Cb6585ea9C31E09bBE8591a61";
  MOCK_USDC := "0x5E618eBBFD1e69B7909d14e607acadccac626B4E";
  MOCK_MNT := "0xD55030D27553c974133Fd71c096c1fF400DC6e25";
  POLICY_STORAGE := "0x8575B0C8567aeEe60cbD260A1b946eb94Dbe8c7F";
  POLICY_MANAGER := "0x0737364BbEB5Da199CA3fb43409f7325E2E94521";
  FOMO_INSURANCE := "0xcDE6374279E133F82cf6e051a665e5740c1C4612";
  DELTA_T_HOURS := 6;
  MIN_REALLOCATION_THRESHOLD := lit 0.5;
  MAX_SLIPPAGE := lit 0.02;
  SAFETY_BUFFER := lit 0.1
|}.

(** The body shared by every adapter's [deposit] and [withdraw]: the call
    is made, the transaction is awaited inside [try], and any exception
    becomes a failure result. *)
Definition transact (w : World N) (ev : Event N) (ok : TxResult N)
  : M N (TxResult N) :=
  (emit ev ;;;
   lift (try_except
           (bind (settle w ev) (fun _ => Ret ok))
           (fun e => Ret (TxFailure (str e)))))%eff.
End Config.

Module MantleWeb3Manager.
Section Methods.
Context {N : Type} `{Num N}.

(** [self.contracts]: the token contracts, each at its address. *)
Definition contracts : list (string * string) :=
  [("USDC", MOCK_USDC config);
   ("WETH", MOCK_WETH config);
   ("MNT", MOCK_MNT config)]%string.

Definition get_balance (w : World N) (token address : string) : res N :=
  match lookup token contracts with
  | Some contract =>
      (balance_wei <- balanceOf w contract address ;;
       itruediv balance_wei
         (if mem token ["WETH"; "MNT"]%string then 10 ^ 18 else 10 ^ 6)%Z)%res
  | None => Ret (lit 0)
  end.
End Methods.
End MantleWeb3Manager.

Module INITLoopingStrategy.
Section Methods.
Context {N : Type} `{Num N}.
Local Open Scope py_scope.

Definition leverage_ratio : N := lit 3.

Definition get_current_apy (w : World N) : res N :=
  try_except
    (base_supply_apy <- _fetch_init_supply_apy w ;;
     borrow_apy <- _fetch_init_borrow_apy w ;;
     mnt_rewards_apy <- _fetch_mnt_rewards_apy w ;;
     let leveraged_apy :=
       (base_supply_apy * leverage_ratio)
       - (borrow_apy * (leverage_ratio - lit 1)) + mnt_rewards_apy in
     Ret (py_max2 (lit 0) leveraged_apy))%res
    (fun e => Ret (lit 8.5)).

Definition deposit (w : World N) (amount : N) : M N (TxResult N) :=
  transact w (EvDeposit INITLooping amount)
    (TxSuccess "init_looping" amount (Leverage leverage_ratio) (tx_hash_of "1")).

Definition withdraw (w : World N) (amount : N) : M N (TxResult N) :=
  transact w (EvWithdraw INITLooping amount)
    (TxSuccess "init_looping" amount NoDetail (tx_hash_of "2")).
End Methods.
End INITLoopingStrategy.

Module CircuitProtocolStrategy.
Section Methods.
Context {N : Type} `{Num N}.
Local Open Scope py_scope.

Definition get_current_apy (w : World N) : res N :=
  try_except
    (base_apy <- _fetch_circuit_apy w ;;
     let compounding_boost := lit 1.15 in
     Ret (base_apy * compounding_boost))%res
    (fun e => Ret (lit 6.8)).

Definition deposit (w : World N) (amount : N) : M N (TxResult N) :=
  transact w (EvDeposit CircuitProtocol amount)
    (TxSuccess "circuit_vault" amount (VaultType "auto_compounding") (tx_hash_of "3")).

Definition withdraw (w : World N) (amount : N) : M N (TxResult N) :=
  transact w (EvWithdraw CircuitProtocol amount)
    (TxSuccess "circuit_vault" amount NoDetail (tx_hash_of "4")).
End Methods.
End CircuitProtocolStrategy.

Module MNTStakingStrategy.
Section Methods.
Context {N : Type} `{Num N}.
Local Open Scope py_scope.

Definition get_current_apy (w : World N) : res N :=
  try_except
    (base_staking_apy <- _fetch_mnt_staking_apy w ;;
     network_fees_apy <- _fetch_network_fees_apy w ;;
     Ret (base_staking_apy + network_fees_apy))%res
    (fun e => Ret (lit 4.5)).

Definition deposit (w : World N) (amount : N) : M N (TxResult N) :=
  transact w (EvDeposit MNTStaking amount)
    (TxSuccess "mnt_staking" amount (StakingPeriod "flexible") (tx_hash_of "5")).

Definition withdraw (w : World N) (amount : N) : M N (TxResult N) :=
  transact w (EvWithdraw MNTStaking amount)
    (TxSuccess "mnt_staking" amount NoDetail (tx_hash_of "6")).
End Methods.
End MNTStakingStrategy.

Module StrategyManager.
Section Methods.
Context {N : Type} `{Num N}.

(** [self.strategies]: a dict, in insertion order. *)
Definition strategies : list (string * Adapter) :=
  [("init_looping", INITLooping);
   ("circuit_vault", CircuitProtocol);
   ("mnt_staking", MNTStaking)]%string.

(** Method dispatch on the adapter found in the dict. *)
Definition get_current_apy (w : World N) (s : Adapter) : res N :=
  match s with
  | INITLooping => INITLoopingStrategy.get_current_apy w
  | CircuitProtocol => CircuitProtocolStrategy.get_current_apy w
  | MNTStaking => MNTStakingStrategy.get_current_apy w
  end.

Definition deposit (w : World N) (s : Adapter) (amount : N) : M N (TxResult N) :=
  match s with
  | INITLooping => INITLoopingStrategy.deposit w amount
  | CircuitProtocol => CircuitProtocolStrategy.deposit w amount
  | MNTStaking => MNTStakingStrategy.deposit w amount
  end.

Definition withdraw (w : World N) (s : Adapter) (amount : N) : M N (TxResult N) :=
  match s with
  | INITLooping => INITLoopingStrategy.withdraw w amount
  | CircuitProtocol => CircuitProtocolStrategy.withdraw w amount
  | MNTStaking => MNTStakingStrategy.withdraw w amount
  end.

Definition get_strategy_apy (w : World N) (strategy_name : string) : res N :=
  match lookup strategy_name strategies with
  | Some s => get_current_apy w s
  | None => Ret (lit 0)
  end.

Definition deploy_to_strategy (w : World N) (strategy_name : string) (amount : N)
  : M N (TxResult N) :=
  match lookup strategy_name strategies with
  | Some s => deposit w s amount
  | None => ret (TxFailure ("Unknown strategy: " ++ strategy_name))
  end.

Definition withdraw_from_strategy (w : World N) (strategy_name : string) (amount : N)
  : M N (TxResult N) :=
  match lookup strategy_name strategies with
  | Some s => withdraw w s amount
  | None => ret (TxFailure ("Unknown strategy: " ++ strategy_name))
  end.
End Methods.
End StrategyManager.

(** The [execute_rebalance] tool.  Its answer is a string in the source:
    an error line, or the summary of what was executed. *)
Inductive RebalanceReply (N : Type) : Type :=
| NotSummingTo100
| RebalanceExecuted
    (total_rebalanced : N)
    (new_allocations : list (string * N))
    (execution_results : list (string * (N * N * TxResult N)))
| ErrorExecutingRebalance (e : string).

Arguments NotSummingTo100 {N}.
Arguments RebalanceExecuted {N} total_rebalanced new_allocations execution_results.
Arguments ErrorExecutingRebalance {N} e.

Section Tools.
Context {N : Type} `{Num N}.
Local Open Scope py_scope.

(** The loop over [target_allocations.items()], threading
    [rebalance_results].  The divisor of [target_amount] is the literal
    [100]. *)
Fixpoint deploy_targets (w : World N) (current_balance : N)
    (items : list (string * N))
    (rebalance_results : list (string * (N * N * TxResult N)))
  : M N (list (string * (N * N * TxResult N))) :=
  match items with
  | [] => ret rebalance_results
  | (strategy, allocation_pct) :: items' =>
      let target_amount := div (current_balance * allocation_pct) (lit 100) in
      if target_amount >? lit 0 then
        (result <- StrategyManager.deploy_to_strategy w strategy target_amount ;;
         deploy_targets w current_balance items'
           (rebalance_results ++ [(strategy, (target_amount, allocation_pct, result))]))%eff
      else deploy_targets w current_balance items' rebalance_results
  end.

Definition execute_rebalance (w : World N) (target_allocations : list (string * N))
  : M N (RebalanceReply N) :=
  try_exceptM
    (current_balance <-
       lift (MantleWeb3Manager.get_balance w "USDC" (FOMO_INSURANCE config)) ;;
     let total_allocation := py_sum (map snd target_allocations) in
     if abs (total_allocation - lit 100) >? lit 0.1 then ret NotSummingTo100
     else
       (rebalance_results <- deploy_targets w current_balance target_allocations [] ;;
        ret (RebalanceExecuted current_balance target_allocations rebalance_results)))%eff
    (fun e => ret (ErrorExecutingRebalance (str e))).
End Tools.

(** ** vault_agent/fomo_integration.py *)

Record PolicyInfo (N : Type) : Type := {
  policy_id : Z;
  seller : string;
  buyer : option string;
  token : string;
  token_symbol : string;
  amount : N;
  payout_token : string;
  payout_amount : N;
  duration : Z;
  upside_share_bps : Z;
  entry_price : N;
  start_timestamp : option Z;
  expiry_timestamp : option Z;
  state : string
}.

Record ProtocolSnapshot (N : Type) : Type := {
  total_policies : nat;
  active_policies : list (PolicyInfo N);
  open_policies : list (PolicyInfo N);
  total_reserves_required : N;
  available_liquidity : N;
  pending_settlements : list (PolicyInfo N);
  timestamp : Z
}.

Section PolicyProperties.
Context {N : Type} `{Num N}.

Definition is_active (self : PolicyInfo N) : bool :=
  String.eqb (state self) "Active".

(** [if self.expiry_timestamp:] holds for a timestamp that is neither
    [None] nor [0]. *)
Definition time_to_expiry (w : World N) (self : PolicyInfo N) : option Z :=
  match expiry_timestamp self with
  | Some e => if (e =? 0)%Z then None else Some (Z.max 0 (e - now w))
  | None => None
  end.

Definition required_reserve (self : PolicyInfo N) : N :=
  if is_active self then payout_amount self else lit 0.
End PolicyProperties.

Module FOMOInsuranceMonitor.
Section Methods.
Context {N : Type} `{Num N}.

Definition _get_open_policy_ids (w : World N) : res (list Z) :=
  try_except (getOpenPolicyIds w) (fun e => Ret []).

Definition zero_address : string := "0x0000000000000000000000000000000000000000".

Definition states : list string := ["Open"; "Active"; "Settled"; "Cancelled"]%string.

Definition _get_policy_info (w : World N) (policy_id : Z) : res (option (PolicyInfo N)) :=
  try_except
    (policy_data <- getPolicy w policy_id ;;
     amount <- itruediv (pd_amount policy_data) (10 ^ 18) ;;
     payout_amount <- itruediv (pd_payout_amount policy_data) (10 ^ 6) ;;
     entry_price <- itruediv (pd_entry_price policy_data) (10 ^ 8) ;;
     state <- match nth_error states (pd_state policy_data) with
              | Some s => Ret s
              | None => Raise IndexError
              end ;;
     Ret (Some {|
       policy_id := policy_id;
       seller := pd_seller policy_data;
       buyer := if String.eqb (pd_buyer policy_data) zero_address
                then None else Some (pd_buyer policy_data);
       token := pd_token policy_data;
       token_symbol := pd_token_symbol policy_data;
       amount := amount;
       payout_token := pd_payout_token policy_data;
       payout_amount := payout_amount;
       duration := pd_duration policy_data;
       upside_share_bps := pd_upside_share_bps policy_data;
       entry_price := entry_price;
       start_timestamp := if (0 <? pd_start_timestamp policy_data)%Z
                          then Some (pd_start_timestamp policy_data) else None;
       expiry_timestamp := if (0 <? pd_expiry_timestamp policy_data)%Z
                           then Some (pd_expiry_timestamp policy_data) else None;
       state := state
     |}))%res
    (fun e => Ret None).

Definition _get_available_liquidity (w : World N) : res N :=
  try_except
    (balance_wei <- balanceOf w (MOCK_USDC config) (FOMO_INSURANCE config) ;;
     itruediv balance_wei (10 ^ 6))%res
    (fun e => Ret (lit 0)).

(** The loop that fills [open_policies]: a policy is kept when
    [_get_policy_info] returned one. *)
Fixpoint collect_open_policies (w : World N) (open_policy_ids : list Z)
    (open_policies : list (PolicyInfo N)) : res (list (PolicyInfo N)) :=
  match open_policy_ids with
  | [] => Ret open_policies
  | policy_id :: ids =>
      (policy <- _get_policy_info w policy_id ;;
       match policy with
       | Some p => collect_open_policies w ids (open_policies ++ [p])
       | None => collect_open_policies w ids open_policies
       end)%res
  end.

(** The snapshot of the [except] branch. *)
Definition fallback_snapshot (w : World N) : ProtocolSnapshot N := {|
  total_policies := 0;
  active_policies := [];
  open_policies := [];
  total_reserves_required := lit 0;
  available_liquidity := lit 0;
  pending_settlements := [];
  timestamp := now w
|}.

Definition get_protocol_snapshot (w : World N) : res (ProtocolSnapshot N) :=
  try_except
    (open_policy_ids <- _get_open_policy_ids w ;;
     open_policies <- collect_open_policies w open_policy_ids [] ;;
     let active_policies : list (PolicyInfo N) := [] in
     let total_reserves_required := py_sum (map required_reserve active_policies) in
     available_liquidity <- _get_available_liquidity w ;;
     Ret {|
       total_policies := List.length open_policies + List.length active_policies;
       active_policies := active_policies;
       open_policies := open_policies;
       total_reserves_required := total_reserves_required;
       available_liquidity := available_liquidity;
       pending_settlements := [];
       timestamp := now w
     |})%res
    (fun e => Ret (fallback_snapshot w)).
End Methods.
End FOMOInsuranceMonitor.

(** The entries of [reasons]; the source formats them as text. *)
Inductive Reason (N : Type) : Type :=
| InsufficientReserves
| ApySpreadDetected (apy_spread : N)
| PoliciesExpiringSoon (count : nat).

Arguments InsufficientReserves {N}.
Arguments ApySpreadDetected {N} apy_spread.
Arguments PoliciesExpiringSoon {N} count.

(** The dict returned by [_calculate_integrated_allocation]. *)
Record AllocationPlan (N : Type) : Type := {
  should_rebalance : bool;
  reasons : list (Reason N);
  total_funds : N;
  required_reserves : N;
  safety_buffer : N;
  deployable_funds : N;
  current_reserve_ratio : N;
  strategy_apys : list (string * N);
  optimal_allocation : list (string * N);
  upcoming_expirations : nat
}.

(** [self] of the integrated agent: the fields the allocation reads. *)
Record Agent (N : Type) : Type := {
  agent_config : MantleConfig N;
  reserve_ratio : N
}.

(** A [for] loop whose body may [break], threading the variables it
    assigns. *)
Inductive ctl : Type := Continue | Break.

Fixpoint py_for {N A S} (body : A -> S -> M N (ctl * S)) (l : list A) (s : S)
  : M N S :=
  match l with
  | [] => ret s
  | a :: l' =>
      bindM (body a s) (fun cs =>
        match fst cs with
        | Break => ret (snd cs)
        | Continue => py_for body l' (snd cs)
        end)
  end.

Module IntegratedMantleVaultAgent.
Section Methods.
Context {N : Type} `{Num N}.
Local Open Scope py_scope.

(** [__init__]: the shared [config] and a reserve target of 15%. *)
Definition init : Agent N := {|
  agent_config := config;
  reserve_ratio := lit 0.15
|}.

Definition strategy_names : list string :=
  ["init_looping"; "circuit_vault"; "mnt_staking"]%string.

(** [[(name, await get_strategy_apy(name)) for name in ...]], which also
    is the item list of the dict [strategy_apys]. *)
Definition read_strategy_apys (w : World N) : res (list (string * N)) :=
  mapM (fun strategy_name =>
          (apy <- StrategyManager.get_strategy_apy w strategy_name ;;
           Ret (strategy_name, apy))%res)
       strategy_names.

(** [p.time_to_expiry and p.time_to_expiry < 3600]: a time to expiry of
    [None] or of [0] is falsy. *)
Definition expiring_soon (w : World N) (p : PolicyInfo N) : bool :=
  match time_to_expiry w p with
  | None => false
  | Some t => if (t =? 0)%Z then false else (t <? 3600)%Z
  end.

Definition risk_multiplier (active_policy_count : nat) : N :=
  if (10 <? active_policy_count)%nat then lit 0.8
  else if (active_policy_count <? 3)%nat then lit 1.2
  else lit 1.0.

Definition base_allocation (active_policy_count : nat) : list (string * N) :=
  [("init_looping", lit 0.45 * risk_multiplier active_policy_count);
   ("circuit_vault", lit 0.35);
   ("mnt_staking", lit 0.20)]%string.

(** [{k: (v / total_allocation) * 100 for k, v in base_allocation.items()}] *)
Definition normalize (base_allocation : list (string * N)) : res (list (string * N)) :=
  let total_allocation := py_sum (map snd base_allocation) in
  mapM (fun kv =>
          (q <- truediv (snd kv) total_allocation ;;
           Ret (fst kv, q * lit 100))%res)
       base_allocation.

Definition plan_allocation (deployable_funds : N) (active_policy_count : nat)
  : res (list (string * N)) :=
  if deployable_funds >? lit 0 then normalize (base_allocation active_policy_count)
  else Ret [("init_looping", lit 0); ("circuit_vault", lit 0);
            ("mnt_staking", lit 0)]%string.

Definition _calculate_integrated_allocation
    (self : Agent N) (w : World N) (snapshot : ProtocolSnapshot N)
  : res (AllocationPlan N) :=
  let total_funds := available_liquidity snapshot in
  let required_reserves := total_reserves_required snapshot in
  let safety_buffer := required_reserves * lit 0.2 in
  let total_reserves_needed := required_reserves + safety_buffer in
  let deployable_funds := py_max2 (lit 0) (total_funds - total_reserves_needed) in
  (current_reserve_ratio <-
     (if total_funds >? lit 0 then truediv total_reserves_needed total_funds
      else Ret (lit 0)) ;;
   strategy_apys <- read_strategy_apys w ;;
   let should_rebalance := false in
   let reasons : list (Reason N) := [] in
   let '(should_rebalance, reasons) :=
     if current_reserve_ratio <? reserve_ratio self
     then (true, reasons ++ [InsufficientReserves])
     else (should_rebalance, reasons) in
   hi <- py_max (map snd strategy_apys) ;;
   lo <- py_min (map snd strategy_apys) ;;
   let apy_spread := hi - lo in
   let '(should_rebalance, reasons) :=
     if apy_spread >? MIN_REALLOCATION_THRESHOLD (agent_config self)
     then (true, reasons ++ [ApySpreadDetected apy_spread])
     else (should_rebalance, reasons) in
   let upcoming_expirations := filter (expiring_soon w) (active_policies snapshot) in
   let '(should_rebalance, reasons) :=
     match upcoming_expirations with
     | _ :: _ => (true, reasons ++ [PoliciesExpiringSoon (List.length upcoming_expirations)])
     | [] => (should_rebalance, reasons)
     end in
   optimal_allocation <-
     plan_allocation deployable_funds (List.length (active_policies snapshot)) ;;
   Ret {|
     should_rebalance := should_rebalance;
     reasons := reasons;
     total_funds := total_funds;
     required_reserves := required_reserves;
     safety_buffer := safety_buffer;
     deployable_funds := deployable_funds;
     current_reserve_ratio := current_reserve_ratio;
     strategy_apys := strategy_apys;
     optimal_allocation := optimal_allocation;
     upcoming_expirations := List.length upcoming_expirations
   |})%res.

(** The body of the loop over [strategies_by_apy]; the loop variable it
    assigns is [remaining_shortfall]. *)
Definition topup_body (w : World N) (shortfall : N)
    (item : string * N) (remaining_shortfall : N) : M N (ctl * N) :=
  let strategy_name := fst item in
  if remaining_shortfall <=? lit 0 then ret (Break, remaining_shortfall)
  else
    let withdraw_amount := py_min2 remaining_shortfall (shortfall * lit 0.5) in
    (result <- StrategyManager.withdraw_from_strategy w strategy_name withdraw_amount ;;
     if success result
     then ret (Continue, remaining_shortfall - withdraw_amount)
     else ret (Continue, remaining_shortfall))%eff.

(** Returns the [remaining_shortfall] the source ends with (the source
    itself returns nothing): [None] when there was no shortfall. *)
Definition _ensure_adequate_reserves (w : World N) (required_amount : N)
  : M N (option N) :=
  (current_balance <-
     lift (MantleWeb3Manager.get_balance w "USDC" (FOMO_INSURANCE config)) ;;
   if current_balance <? required_amount then
     let shortfall := required_amount - current_balance in
     (apys <- lift (read_strategy_apys w) ;;
      let strategies_by_apy := sorted snd apys in
      let remaining_shortfall := shortfall in
      remaining_shortfall <-
        py_for (topup_body w shortfall) strategies_by_apy remaining_shortfall ;;
      ret (Some remaining_shortfall))
   else ret None)%eff.
End Methods.
End IntegratedMantleVaultAgent.

(** ** vault_agent/fastapi_server.py *)

Section Server.
Context {N : Type} `{Num N}.
Local Open Scope py_scope.

(** [set_custom_allocation]: [agent] tells whether the global agent is
    set, [broadcast] is the outcome of [manager.broadcast].  The figure
    the source puts into the 400 detail is left out of the message. *)
Definition set_custom_allocation (agent : bool) (broadcast : res unit)
    (allocations : list (string * N)) : res (string * list (string * N)) :=
  try_except
    (_ <- (if agent then Ret tt
           else Raise (HTTPException 503 "Agent not initialized")) ;;
     let total_allocation := py_sum (map snd allocations) in
     _ <- (if abs (total_allocation - lit 100) >? lit 0.1
           then Raise (HTTPException 400 "Allocations must sum to 100%")
           else Ret tt) ;;
     let result := ("Custom allocation set"%string, allocations) in
     _ <- broadcast ;;
     Ret result)%res
    (fun e => Raise (HTTPException 500 (str e))).
End Server.

(** ** The specification's side *)

Section Specification.
Context {N : Type} `{Num N}.
Local Open Scope py_scope.

(** A figure [x] that reads [v] once rounded to one decimal. *)
Definition rounds_to_1dp (x v : N) : bool :=
  (v - lit 0.05 <=? x) && (x <? v + lit 0.05).

(** Two figures that agree within [tol]. *)
Definition within (tol x v : N) : bool := abs (x - v) <=? tol.

(** The three trigger conditions of the rebalance decision, as the
    specification lists them. *)
Definition reserve_ratio_below_target (self : Agent N) (ratio : N) : bool :=
  ratio <? reserve_ratio self.

Definition apy_spread_above_threshold (self : Agent N) (apy_spread : N) : bool :=
  apy_spread >? MIN_REALLOCATION_THRESHOLD (agent_config self).

Definition expiry_window : Z := 3600.

Definition expires_within_window (w : World N) (p : PolicyInfo N) : bool :=
  match time_to_expiry w p with
  | Some t => (t <? expiry_window)%Z
  | None => false
  end.

(** Items in ascending order of their key. *)
Definition ascending {A} (key : A -> N) (a b : A) : Prop :=
  (key a <=? key b) = true.

(** An item that is not followed by one with a smaller key.  On keys
    that are numbers this is [ascending]; it also speaks of NaN keys,
    which no comparison orders. *)
Definition in_order {A} (key : A -> N) (a b : A) : Prop :=
  (key b <? key a) = false.

(** The reserve top-up phase as the specification words it.  The
    strategies come in the order they are visited; [remaining] is the
    remaining shortfall before the visit, and the relation gives the
    withdrawals requested from there on and the shortfall left at the
    end.  The remaining shortfall counts as positive until the source's
    test [remaining_shortfall <= 0] holds.  The amount requested is the
    smaller of the remaining shortfall and half the shortfall: half the
    shortfall when it is below what remains, and what remains
    otherwise. *)
Inductive topup (w : World N) (shortfall : N)
  : list (string * N) -> N -> list (Event N) -> N -> Prop :=
| topup_exhausted : forall remaining,
    topup w shortfall [] remaining [] remaining
| topup_covered : forall item rest remaining,
    (remaining <=? lit 0) = true ->
    topup w shortfall (item :: rest) remaining [] remaining
| topup_success : forall name apy rest remaining s tr left,
    (remaining <=? lit 0) = false ->
    lookup name StrategyManager.strategies = Some s ->
    let withdraw_amount :=
      if shortfall * lit 0.5 <? remaining then shortfall * lit 0.5
      else remaining in
    settle w (EvWithdraw s withdraw_amount) = Ret tt ->
    topup w shortfall rest (remaining - withdraw_amount) tr left ->
    topup w shortfall ((name, apy) :: rest) remaining
      (EvWithdraw s withdraw_amount :: tr) left
| topup_failure : forall name apy rest remaining s e tr left,
    (remaining <=? lit 0) = false ->
    lookup name StrategyManager.strategies = Some s ->
    let withdraw_amount :=
      if shortfall * lit 0.5 <? remaining then shortfall * lit 0.5
      else remaining in
    settle w (EvWithdraw s withdraw_amount) = Raise e ->
    topup w shortfall rest remaining tr left ->
    topup w shortfall ((name, apy) :: rest) remaining
      (EvWithdraw s withdraw_amount :: tr) left.

(** An item of the APY list whose name is a key of the strategy dict. *)
Definition registered (item : string * N) : Prop :=
  exists s, lookup (fst item) StrategyManager.strategies = Some s.

(** The amounts of the withdrawals of a trace that succeeded. *)
Definition withdrawn (w : World N) (tr : list (Event N)) : list N :=
  flat_map (fun ev =>
              match ev with
              | EvWithdraw _ amount =>
                  if raises (settle w ev) then [] else [amount]
              | EvDeposit _ _ => []
              end) tr.

(** A positive shortfall that halves exactly in the arithmetic at hand:
    its half is positive and below it, taking the half away leaves the
    half, and the two halves make the shortfall. *)
Definition halves_exactly (shortfall : N) : bool :=
  let half := shortfall * lit 0.5 in
  (lit 0 <? half) && (half <? shortfall)
  && (shortfall - half =? half) && (half + half =? shortfall).

(** The deposits [execute_rebalance] is to request for the items of a
    target allocation, given the balance read. *)
Definition deposits_due (current_balance : N) (items : list (string * N))
  : list (Event N) :=
  flat_map (fun item =>
              let target_amount := div (current_balance * snd item) (lit 100) in
              if target_amount >? lit 0 then
                match lookup (fst item) StrategyManager.strategies with
                | Some s => [EvDeposit s target_amount]
                | None => []
                end
              else []) items.

(** A reply of [execute_rebalance] that reports an error. *)
Definition is_error (r : RebalanceReply N) : bool :=
  match r with
  | NotSummingTo100 => true
  | ErrorExecutingRebalance _ => true
  | RebalanceExecuted _ _ _ => false
  end.
End Specification.


(** The allocation of a plan that has nothing to deploy. *)
Definition zero_allocation {N : Type} `{Num N} : list (string * N) :=
  [("init_looping"%string, lit 0); ("circuit_vault"%string, lit 0);
   ("mnt_staking"%string, lit 0)].

(** ** Scenarios *)

Section Scenarios.
Context {N : Type} `{Num N}.

(** A world whose yield feeds are all down, so that every strategy
    reports its fallback APY (8.5, 6.8 and 4.5), whose transactions all
    complete, and where the protocol holds [balance_wei] of USDC. *)
Definition feeds_down (balance_wei : Z) (clock : Z) : World N := {|
  _fetch_init_supply_apy := Raise (Exception "timeout");
  _fetch_init_borrow_apy := Raise (Exception "timeout");
  _fetch_mnt_rewards_apy := Raise (Exception "timeout");
  _fetch_circuit_apy := Raise (Exception "timeout");
  _fetch_mnt_staking_apy := Raise (Exception "timeout");
  _fetch_network_fees_apy := Raise (Exception "timeout");
  settle := fun _ => Ret tt;
  balanceOf := fun _ _ => Ret balance_wei;
  getOpenPolicyIds := Raise (Exception "timeout");
  getPolicy := fun _ => Raise (Exception "timeout");
  now := clock
|}.

(** A world in which every read from outside fails. *)
Definition chain_down (clock : Z) : World N := {|
  _fetch_init_supply_apy := Raise (Exception "timeout");
  _fetch_init_borrow_apy := Raise (Exception "timeout");
  _fetch_mnt_rewards_apy := Raise (Exception "timeout");
  _fetch_circuit_apy := Raise (Exception "timeout");
  _fetch_mnt_staking_apy := Raise (Exception "timeout");
  _fetch_network_fees_apy := Raise (Exception "timeout");
  settle := fun _ => Raise (Exception "timeout");
  balanceOf := fun _ _ => Raise (Exception "timeout");
  getOpenPolicyIds := Raise (Exception "timeout");
  getPolicy := fun _ => Raise (Exception "timeout");
  now := clock
|}.

(** A world whose feeds answer: the circuit vault yields least
    (2 * 1.15), the INIT loop 4.5 (1.5 * 3) and MNT staking most (8 + 0.5);
    transactions complete and the protocol holds [balance_wei] of USDC. *)
Definition live_yields (balance_wei : Z) : World N := {|
  _fetch_init_supply_apy := Ret (lit 1.5);
  _fetch_init_borrow_apy := Ret (lit 0);
  _fetch_mnt_rewards_apy := Ret (lit 0);
  _fetch_circuit_apy := Ret (lit 2);
  _fetch_mnt_staking_apy := Ret (lit 8);
  _fetch_network_fees_apy := Ret (lit 0.5);
  settle := fun _ => Ret tt;
  balanceOf := fun _ _ => Ret balance_wei;
  getOpenPolicyIds := Ret [];
  getPolicy := fun _ => Raise (Exception "timeout");
  now := 0
|}.

(** A world whose three strategies all yield about 6%. *)
Definition level_yields (clock : Z) : World N := {|
  _fetch_init_supply_apy := Ret (lit 2);
  _fetch_init_borrow_apy := Ret (lit 0);
  _fetch_mnt_rewards_apy := Ret (lit 0);
  _fetch_circuit_apy := Ret (lit 5.2);
  _fetch_mnt_staking_apy := Ret (lit 6);
  _fetch_network_fees_apy := Ret (lit 0);
  settle := fun _ => Ret tt;
  balanceOf := fun _ _ => Ret 0%Z;
  getOpenPolicyIds := Ret [];
  getPolicy := fun _ => Raise (Exception "timeout");
  now := clock
|}.

Definition policy (payout : N) (expiry : option Z) : PolicyInfo N := {|
  policy_id := 1;
  seller := "0xA11CE";
  buyer := Some "0xB0B"%string;
  token := MOCK_WETH config;
  token_symbol := "WETH";
  amount := lit 1;
  payout_token := MOCK_USDC config;
  payout_amount := payout;
  duration := 86400;
  upside_share_bps := 500;
  entry_price := lit 2400;
  start_timestamp := Some 1%Z;
  expiry_timestamp := expiry;
  state := "Active"
|}.

Definition snapshot_of (active : list (PolicyInfo N)) (liquidity : N)
  : ProtocolSnapshot N := {|
  total_policies := List.length active;
  active_policies := active;
  open_policies := [];
  total_reserves_required := py_sum (map required_reserve active);
  available_liquidity := liquidity;
  pending_settlements := [];
  timestamp := 0
|}.

(** Twelve active policies, none near its expiry. *)
Definition busy_snapshot (liquidity : N) : ProtocolSnapshot N :=
  snapshot_of (repeat (policy (lit 1000) None) 12) liquidity.
End Scenarios.

(** ** vault_agent/APY_agent.py: strategy data and the allocation tools *)

(** [l[start:]]: a negative start counts from the end, and the start is
    clamped to the list. *)
Definition slice_from {A} (start : Z) (l : list A) : list A :=
  let n := Z.of_nat (List.length l) in
  let first := if (start <? 0)%Z then Z.max 0 (start + n) else Z.min start n in
  skipn (Z.to_nat first) l.

(** [len(l)] where it meets a float. *)
Definition len {N : Type} `{Num N} {A} (l : list A) : N :=
  lit (inject_Z (Z.of_nat (List.length l))).

Module StrategyData.
Record t (N : Type) : Type := {
  name : string;
  address : string;
  current_apy : N;
  historical_apy : list N;
  tvl : N;
  allocation : N;
  risk_score : N;
  last_updated : Z
}.

Section Methods.
Context {N : Type} `{Num N}.

(** [sum(...)] of an empty slice is the [int] 0, and so is its [len]:
    the quotient raises as the float one does. *)
Definition get_average_apy (self : t N) (window_hours : Z) : res N :=
  match historical_apy self with
  | [] => Ret (current_apy self)
  | _ :: _ =>
      let window := slice_from (- window_hours) (historical_apy self) in
      truediv (py_sum window) (len window)
  end.
End Methods.
End StrategyData.

(** [round(x, 1)] *)
Class NumRound (N : Type) {num : Num N} : Type := {
  round1 : N -> N
}.

Arguments NumRound N {num}.

(** The integer nearest to [q], ties to the even one. *)
Definition round_half_even (q : Q) : Z :=
  let n := Qnum q in
  let d := Zpos (Qden q) in
  let k := (n / d)%Z in
  let r := (n mod d)%Z in
  match (2 * r ?= d)%Z with
  | Lt => k
  | Gt => (k + 1)%Z
  | Eq => if Z.even k then k else (k + 1)%Z
  end.

(** The value of a finite double. *)
Definition sf_value (s : bool) (m : positive) (e : Z) : Q :=
  let sm := if s then Zneg m else Zpos m in
  match e with
  | Z0 => inject_Z sm
  | Zpos p => inject_Z (sm * 2 ^ Zpos p)
  | Zneg p => Qmake sm (2 ^ p)
  end.

(** CPython rounds the exact value of the double to one decimal, ties to
    even, and returns the double nearest to that decimal; a zero result
    keeps the sign, and infinities and NaNs are returned as they are. *)
Definition b64_round1 (x : float) : float :=
  match Prim2SF x with
  | S754_finite s m e =>
      let k := round_half_even (sf_value s m e * 10) in
      if (k =? 0)%Z then SF2Prim (S754_zero s)
      else SF2Prim (SFdiv prec emax (int_sf k) (int_sf 10))
  | _ => x
  end.

#[export] Instance binary64_round : NumRound float := {|
  round1 := b64_round1
|}.

(** The answer of the [calculate_optimal_allocation] tool: the dict it
    prints, or the error line of its [except] branch. *)
Inductive AllocationAdvice (N : Type) : Type :=
| OptimalAllocation
    (risk_tolerance : string)
    (strategy_metrics : list (string * (N * N * N)))
    (allocation : list (string * N))
    (expected_blended_apy : N)
| ErrorCalculatingAllocation (e : string).

Arguments OptimalAllocation {N} risk_tolerance strategy_metrics allocation
  expected_blended_apy.
Arguments ErrorCalculatingAllocation {N} e.

(** The dict [manual_rebalance] returns. *)
Inductive ManualRebalance (N : Type) : Type :=
| ManualSuccess
    (allocation_analysis : AllocationAdvice N)
    (rebalance_result : RebalanceReply N)
    (timestamp : Z)
| ManualFailure (error : string).

Arguments ManualSuccess {N} allocation_analysis rebalance_result timestamp.
Arguments ManualFailure {N} error.

Definition KeyError (k : string) : exn := Exception k.

Section AllocationTools.
Context {N : Type} `{NumRound N}.
Local Open Scope py_scope.

(** [d[k]] *)
Definition getitem {V} (d : list (string * V)) (k : string) : res V :=
  match lookup k d with
  | Some v => Ret v
  | None => Raise (KeyError k)
  end.

(** [d.get(k, default)] *)
Definition get_default {V} (d : list (string * V)) (k : string) (default : V) : V :=
  match lookup k d with
  | Some v => v
  | None => default
  end.

Definition risk_scores : list (string * N) :=
  [("init_looping", lit 0.7); ("circuit_vault", lit 0.4);
   ("mnt_staking", lit 0.2)]%string.

Definition moderate : list (string * N) :=
  [("init_looping", lit 0.4); ("circuit_vault", lit 0.4);
   ("mnt_staking", lit 0.2)]%string.

Definition risk_multipliers : list (string * list (string * N)) :=
  [("conservative",
    [("init_looping", lit 0.2); ("circuit_vault", lit 0.5); ("mnt_staking", lit 0.3)]);
   ("moderate", moderate);
   ("aggressive",
    [("init_looping", lit 0.6); ("circuit_vault", lit 0.3); ("mnt_staking", lit 0.1)])]%string.

(** The first loop: an entry of [strategies] for each strategy name. *)
Definition strategy_metrics_of (w : World N) (strategy_name : string)
  : res (string * (N * N * N)) :=
  (apy <- StrategyManager.get_strategy_apy w strategy_name ;;
   risk <- getitem risk_scores strategy_name ;;
   sharpe_ratio <- truediv apy (lit 1 + risk) ;;
   Ret (strategy_name, (apy, risk, sharpe_ratio)))%res.

Definition calculate_optimal_allocation (w : World N) (risk_tolerance : string)
  : res (AllocationAdvice N) :=
  try_except
    (strategies <- mapM (strategy_metrics_of w)
                     IntegratedMantleVaultAgent.strategy_names ;;
     base_pcts <- getitem risk_multipliers "moderate" ;;
     let base_allocation := get_default risk_multipliers risk_tolerance base_pcts in
     let apy_weights := map (fun item => (fst item, fst (fst (snd item)))) strategies in
     let total_apy := py_sum (map snd apy_weights) in
     optimal_allocation <-
       mapM (fun item =>
               (weight <- getitem apy_weights (fst item) ;;
                share <- truediv weight total_apy ;;
                let apy_bonus := share * lit 0.3 in
                let final_allocation := (snd item * lit 0.7) + apy_bonus in
                Ret (fst item, round1 (final_allocation * lit 100)))%res)
            base_allocation ;;
     let total := py_sum (map snd optimal_allocation) in
     optimal_allocation <-
       mapM (fun item =>
               (share <- truediv (snd item) total ;;
                Ret (fst item, round1 (share * lit 100)))%res)
            optimal_allocation ;;
     blended <-
       mapM (fun item =>
               (metrics <- getitem strategies (fst item) ;;
                Ret (fst (fst metrics) * div (snd item) (lit 100)))%res)
            optimal_allocation ;;
     Ret (OptimalAllocation risk_tolerance strategies optimal_allocation
            (py_sum blended)))%res
    (fun e => Ret (ErrorCalculatingAllocation (str e))).

(** The allocation [manual_rebalance] and the workflow's [execute_strategy]
    pass to [execute_rebalance]. *)
Definition optimal_allocations : list (string * N) :=
  [("init_looping", lit 45.0); ("circuit_vault", lit 35.0);
   ("mnt_staking", lit 20.0)]%string.

(** Invoking a tool is calling it. *)
Definition manual_rebalance (w : World N) (risk_tolerance : string)
  : M N (ManualRebalance N) :=
  try_exceptM
    (allocation_result <- lift (calculate_optimal_allocation w risk_tolerance) ;;
     rebalance_result <- execute_rebalance w optimal_allocations ;;
     ret (ManualSuccess allocation_result rebalance_result (now w)))%eff
    (fun e => ret (ManualFailure (str e))).
End AllocationTools.

(** ** vault_agent/fomo_integration.py: executing a plan, events, the loop *)

(** What the integrated agent keeps between calls: [self.running],
    [self.last_protocol_snapshot] and [self.vault_state.last_rebalance]. *)
Record AgentState (N : Type) : Type := {
  running : bool;
  last_protocol_snapshot : option (ProtocolSnapshot N);
  last_rebalance : Z
}.

(** Further methods of the integrated agent. *)
Module IntegratedAgent.
Section Methods.
Context {N : Type} `{Num N}.
Local Open Scope py_scope.
Import IntegratedMantleVaultAgent.

(** The state [__init__] leaves: the base class sets [running] to
    [False] and stamps the vault state with the time of construction. *)
Definition init_state (w : World N) : AgentState N := {|
  running := false;
  last_protocol_snapshot := None;
  last_rebalance := now w
|}.

Definition stop_monitoring (st : AgentState N) : AgentState N := {|
  running := false;
  last_protocol_snapshot := last_protocol_snapshot st;
  last_rebalance := last_rebalance st
|}.

(** The loop over [strategy['optimal_allocation'].items()]; the divisor
    of [amount] is the literal [100]. *)
Fixpoint deploy_allocation (w : World N) (deployable_funds : N)
    (items : list (string * N)) : M N unit :=
  match items with
  | [] => ret tt
  | (strategy_name, allocation_pct) :: items' =>
      if allocation_pct >? lit 0 then
        let amount := div (deployable_funds * allocation_pct) (lit 100) in
        (result <- StrategyManager.deploy_to_strategy w strategy_name amount ;;
         deploy_allocation w deployable_funds items')%eff
      else deploy_allocation w deployable_funds items'
  end.

(** Returns the value of [vault_state.last_rebalance] it leaves. *)
Definition _execute_integrated_rebalance (w : World N) (strategy : AllocationPlan N)
    (last_rebalance : Z) : M N Z :=
  try_exceptM
    (_ <- _ensure_adequate_reserves w
            (required_reserves strategy + safety_buffer strategy) ;;
     _ <- (if deployable_funds strategy >? lit 0
           then deploy_allocation w (deployable_funds strategy)
                  (optimal_allocation strategy)
           else ret tt) ;;
     ret (now w))%eff
    (fun e => ret last_rebalance).

Definition _on_policy_created (last_rebalance : Z) : M N Z := ret last_rebalance.

Definition _on_policy_purchased (self : Agent N) (w : World N) (policy_id : Z)
    (last_rebalance : Z) : M N Z :=
  (policy <- lift (FOMOInsuranceMonitor._get_policy_info w policy_id) ;;
   match policy with
   | Some _ =>
       (snapshot <- lift (FOMOInsuranceMonitor.get_protocol_snapshot w) ;;
        allocation_strategy <- lift (_calculate_integrated_allocation self w snapshot) ;;
        if current_reserve_ratio allocation_strategy <? reserve_ratio self
        then _execute_integrated_rebalance w allocation_strategy last_rebalance
        else ret last_rebalance)
   | None => ret last_rebalance
   end)%eff.

Definition _on_policy_settled (self : Agent N) (w : World N) (last_rebalance : Z)
  : M N Z :=
  (snapshot <- lift (FOMOInsuranceMonitor.get_protocol_snapshot w) ;;
   allocation_strategy <- lift (_calculate_integrated_allocation self w snapshot) ;;
   if deployable_funds allocation_strategy >? lit 1000
   then _execute_integrated_rebalance w allocation_strategy last_rebalance
   else ret last_rebalance)%eff.

Definition handle_policy_event (self : Agent N) (w : World N)
    (event_type : string) (policy_id : Z) (last_rebalance : Z) : M N Z :=
  if String.eqb event_type "PolicyCreated" then _on_policy_created last_rebalance
  else if String.eqb event_type "PolicyPurchased"
       then _on_policy_purchased self w policy_id last_rebalance
  else if String.eqb event_type "PolicySettled"
       then _on_policy_settled self w last_rebalance
  else ret last_rebalance.

(** One pass through the body of [while self.running]: the state it
    leaves and the seconds it sleeps.  The snapshot is stored before
    anything after it can raise; an exception anywhere in the [try] leads
    to the sleep of 60 seconds. *)
Definition monitoring_cycle (self : Agent N) (w : World N) (st : AgentState N)
  : M N (AgentState N * Z) :=
  fun tr =>
    match FOMOInsuranceMonitor.get_protocol_snapshot w with
    | Raise _ => (Ret (st, 60%Z), tr)
    | Ret protocol_snapshot =>
        let st := {| running := running st;
                     last_protocol_snapshot := Some protocol_snapshot;
                     last_rebalance := last_rebalance st |} in
        match _calculate_integrated_allocation self w protocol_snapshot with
        | Raise _ => (Ret (st, 60%Z), tr)
        | Ret allocation_strategy =>
            let period := (DELTA_T_HOURS (agent_config self) * 3600)%Z in
            if should_rebalance allocation_strategy then
              match _execute_integrated_rebalance w allocation_strategy
                      (last_rebalance st) tr with
              | (Ret stamp, tr') =>
                  (Ret ({| running := running st;
                           last_protocol_snapshot := last_protocol_snapshot st;
                           last_rebalance := stamp |}, period), tr')
              | (Raise _, tr') => (Ret (st, 60%Z), tr')
              end
            else (Ret (st, period), tr)
        end
    end.

(** [enhanced_monitoring_loop], for at most [fuel] cycles: [None] when the
    loop is still running after them.  [outside c] is the world cycle [c]
    sees; [stops c] tells that [stop_monitoring] is called while cycle [c]
    is suspended.  The result carries the sleeps made. *)
Fixpoint enhanced_monitoring_loop (fuel : nat) (self : Agent N)
    (outside : nat -> World N) (stops : nat -> bool) (cycle : nat)
    (st : AgentState N) (sleeps : list Z)
  : M N (option (AgentState N * list Z)) :=
  if running st then
    match fuel with
    | O => ret None
    | S fuel' =>
        (r <- monitoring_cycle self (outside cycle) st ;;
         let st' := if stops cycle then stop_monitoring (fst r) else fst r in
         enhanced_monitoring_loop fuel' self outside stops (S cycle) st'
           (sleeps ++ [snd r]))%eff
    end
  else ret (Some (st, sleeps)).

(** [run_continuous] of run_agent.py: a fresh agent, then the loop. *)
Definition run_continuous (fuel : nat) (self : Agent N) (outside : nat -> World N)
    (stops : nat -> bool) : M N (option (AgentState N * list Z)) :=
  enhanced_monitoring_loop fuel self outside stops 0 (init_state (outside O)) [].
End Methods.
End IntegratedAgent.

(** ** vault_agent/fastapi_server.py: connections and the status endpoint *)

Module ConnectionManager.

(** A WebSocket is known by its identity. *)
Definition WebSocket : Type := nat.

(** What the sockets do: [accept()] and [send_text(message)] return or
    raise. *)
Record Sockets : Type := {
  accept : WebSocket -> res unit;
  send_text : WebSocket -> string -> res unit
}.

(** The [ValueError] of [list.remove]. *)
Definition ValueError_remove : exn := Exception "list.remove(x): x not in list".

(** [l.remove(x)]: the first occurrence goes; [ValueError] without one. *)
Fixpoint remove (x : WebSocket) (l : list WebSocket) : res (list WebSocket) :=
  match l with
  | [] => Raise ValueError_remove
  | y :: l' =>
      if Nat.eqb x y then Ret l'
      else bind (remove x l') (fun r => Ret (y :: r))
  end.

Definition connect (net : Sockets) (active_connections : list WebSocket)
    (websocket : WebSocket) : res (list WebSocket) :=
  bind (accept net websocket) (fun _ => Ret (active_connections ++ [websocket])).

Definition disconnect (active_connections : list WebSocket) (websocket : WebSocket)
  : res (list WebSocket) :=
  remove websocket active_connections.

(** The [for] loop of [broadcast] from position [i] of the list it
    iterates and mutates: the list iterator reads the item at its
    position and steps, whatever happened to the list.  The result is the
    list left and the sockets that got the message; [None] when [fuel]
    ran out. *)
Fixpoint broadcast_from (fuel : nat) (net : Sockets) (message : string)
    (i : nat) (active_connections : list WebSocket) (sent : list WebSocket)
  : option (res (list WebSocket * list WebSocket)) :=
  match nth_error active_connections i with
  | None => Some (Ret (active_connections, sent))
  | Some connection =>
      match fuel with
      | O => None
      | S fuel' =>
          match send_text net connection message with
          | Ret _ =>
              broadcast_from fuel' net message (S i) active_connections
                (sent ++ [connection])
          | Raise _ =>
              match remove connection active_connections with
              | Ret l => broadcast_from fuel' net message (S i) l sent
              | Raise e => Some (Raise e)
              end
          end
      end
  end.

Definition broadcast (net : Sockets) (message : string)
    (active_connections : list WebSocket)
  : option (res (list WebSocket * list WebSocket)) :=
  broadcast_from (List.length active_connections) net message 0
    active_connections [].
End ConnectionManager.

(** The dict of [get_fomo_status]. *)
Record FomoStatus (N : Type) : Type := {
  fs_total_policies : nat;
  fs_active_policies : nat;
  fs_open_policies : nat;
  fs_total_reserves_required : N;
  fs_available_liquidity : N;
  fs_reserve_ratio : N;
  fs_pending_settlements : nat;
  fs_last_updated : Z
}.

Section Status.
Context {N : Type} `{Num N}.
Local Open Scope py_scope.

(** [agent] is the global agent's snapshot when the agent is set: [None]
    without an agent, [Some None] before the first snapshot. *)
Definition get_fomo_status (agent : option (option (ProtocolSnapshot N))) (clock : Z)
  : res (FomoStatus N) :=
  try_except
    (last <- match agent with
             | Some last => Ret last
             | None => Raise (HTTPException 503 "Agent not initialized")
             end ;;
     match last with
     | Some snapshot =>
         (reserve_ratio <-
            (if available_liquidity snapshot >? lit 0
             then truediv (total_reserves_required snapshot)
                    (available_liquidity snapshot)
             else Ret (lit 0)) ;;
          Ret {|
            fs_total_policies := total_policies snapshot;
            fs_active_policies := List.length (active_policies snapshot);
            fs_open_policies := List.length (open_policies snapshot);
            fs_total_reserves_required := total_reserves_required snapshot;
            fs_available_liquidity := available_liquidity snapshot;
            fs_reserve_ratio := reserve_ratio;
            fs_pending_settlements := List.length (pending_settlements snapshot);
            fs_last_updated := timestamp snapshot
          |})
     | None =>
         Ret {|
           fs_total_policies := 5;
           fs_active_policies := 3;
           fs_open_policies := 2;
           fs_total_reserves_required := lit 45000;
           fs_available_liquidity := lit 125000;
           fs_reserve_ratio := lit 0.36;
           fs_pending_settlements := 1;
           fs_last_updated := clock
         |}
     end)%res
    (fun e => Raise (HTTPException 500 (str e))).
End Status.

(** ** Vocabulary of the further properties *)

Section Vocabulary.
Context {N : Type} `{Num N}.
Local Open Scope py_scope.

Definition is_withdraw (ev : Event N) : Prop :=
  match ev with
  | EvWithdraw _ _ => True
  | EvDeposit _ _ => False
  end.

Definition is_deposit (ev : Event N) : Prop :=
  match ev with
  | EvDeposit _ _ => True
  | EvWithdraw _ _ => False
  end.

(** The deposits the second phase of a rebalance is to request for the
    items of an allocation: one for every registered strategy with a
    positive percentage. *)
Definition allocation_deposits (deployable_funds : N) (items : list (string * N))
  : list (Event N) :=
  flat_map (fun item =>
              if snd item >? lit 0 then
                match lookup (fst item) StrategyManager.strategies with
                | Some s => [EvDeposit s (div (deployable_funds * snd item) (lit 100))]
                | None => []
                end
              else []) items.

(** A policy id whose policy [_get_policy_info] can build. *)
Definition readable (w : World N) (policy_id : Z) : bool :=
  match FOMOInsuranceMonitor._get_policy_info w policy_id with
  | Ret (Some _) => true
  | _ => false
  end.

(** A world whose withdrawals all complete, or all fail. *)
Definition withdrawals_complete (w : World N) : Prop :=
  forall s amount, settle w (EvWithdraw s amount) = Ret tt.

Definition withdrawals_fail (w : World N) : Prop :=
  forall s amount, raises (settle w (EvWithdraw s amount)) = true.
End Vocabulary.

(** ** Further scenarios *)

Section Connections.
Import ConnectionManager.

(** A socket whose [send_text(message)] returns. *)
Definition live (net : Sockets) (message : string) (c : WebSocket) : Prop :=
  raises (send_text net c message) = false.

(** What one pass over a list of distinct connections leaves and serves:
    a connection whose send raises is dropped and the one after it is
    passed over, kept and not served. *)
Fixpoint served (net : Sockets) (message : string) (l : list WebSocket)
  : list WebSocket * list WebSocket :=
  match l with
  | [] => ([], [])
  | c :: rest =>
      if raises (send_text net c message) then
        match rest with
        | [] => ([], [])
        | n :: rest' =>
            let r := served net message rest' in (n :: fst r, snd r)
        end
      else
        let r := served net message rest in (c :: fst r, c :: snd r)
  end.

(** Sockets 1 and 3 are closed; the others accept and send. *)
Definition two_closed : Sockets := {|
  accept := fun _ => Ret tt;
  send_text := fun c _ =>
    if (Nat.eqb c 1 || Nat.eqb c 3)%bool then Raise (Exception "closed") else Ret tt
|}.
End Connections.

Section FurtherScenarios.
Context {N : Type} `{Num N}.

(** A world whose feeds are down and whose transactions all fail, while
    the protocol's balance of [balance_wei] USDC can be read. *)
Definition withdrawals_down (balance_wei : Z) : World N := {|
  _fetch_init_supply_apy := Raise (Exception "timeout");
  _fetch_init_borrow_apy := Raise (Exception "timeout");
  _fetch_mnt_rewards_apy := Raise (Exception "timeout");
  _fetch_circuit_apy := Raise (Exception "timeout");
  _fetch_mnt_staking_apy := Raise (Exception "timeout");
  _fetch_network_fees_apy := Raise (Exception "timeout");
  settle := fun _ => Raise (Exception "reverted");
  balanceOf := fun _ _ => Ret balance_wei;
  getOpenPolicyIds := Raise (Exception "timeout");
  getPolicy := fun _ => Raise (Exception "timeout");
  now := 0
|}.

(** What the chain holds for a policy of 1 WETH paying 2000 USDC that has
    no buyer yet, with [state_index] for its state. *)
Definition policy_data (state_index : nat) : PolicyData := {|
  pd_seller := "0xA11CE";
  pd_buyer := FOMOInsuranceMonitor.zero_address;
  pd_token := MOCK_WETH (@config N _);
  pd_token_symbol := "WETH";
  pd_amount := 10 ^ 18;
  pd_payout_token := MOCK_USDC (@config N _);
  pd_payout_amount := 2000 * 10 ^ 6;
  pd_duration := 86400;
  pd_upside_share_bps := 500;
  pd_entry_price := 2400 * 10 ^ 8;
  pd_start_timestamp := 0;
  pd_expiry_timestamp := 0;
  pd_state := state_index
|}.

(** A world whose feeds are down and whose transactions complete, where
    the protocol holds [balance_wei] of USDC and the chain lists the
    policies 1 and 2: policy 1 is open, policy 2 has the state index 7. *)
Definition two_listed_policies (balance_wei : Z) : World N := {|
  _fetch_init_supply_apy := Raise (Exception "timeout");
  _fetch_init_borrow_apy := Raise (Exception "timeout");
  _fetch_mnt_rewards_apy := Raise (Exception "timeout");
  _fetch_circuit_apy := Raise (Exception "timeout");
  _fetch_mnt_staking_apy := Raise (Exception "timeout");
  _fetch_network_fees_apy := Raise (Exception "timeout");
  settle := fun _ => Ret tt;
  balanceOf := fun _ _ => Ret balance_wei;
  getOpenPolicyIds := Ret [1; 2]%Z;
  getPolicy := fun id =>
    if (id =? 1)%Z then Ret (policy_data 0)
    else if (id =? 2)%Z then Ret (policy_data 7)
    else Raise (Exception "no such policy");
  now := 0
|}.

End FurtherScenarios.

(** * Properties *)

(** ** The comparison laws hold in both instances *)

Lemma SFcompare_antisym (a b : spec_float) :
  SFcompare b a = option_map CompOpp (SFcompare a b).
Proof.
  destruct a as [sa|sa| |sa ma ea], b as [sb|sb| |sb mb eb]; simpl;
    try reflexivity;
    try (destruct sa; reflexivity); try (destruct sb; reflexivity);
    try (destruct sa, sb; reflexivity).
  f_equal.
  rewrite (Z.compare_antisym ea eb).
  destruct sa, sb; simpl; try reflexivity;
    destruct (ea ?= eb)%Z; simpl; try reflexivity.
  - f_equal. now rewrite Pos.compare_cont_antisym.
  - now rewrite Pos.compare_cont_antisym.
Qed.

#[export] Instance binary64_laws : NumLaws float.
Proof.
  split; simpl; intros a b.
  - rewrite ltb_spec, leb_spec. unfold SFltb, SFleb.
    now destruct (SFcompare _ _) as [[]|].
  - rewrite ltb_spec, eqb_spec. unfold SFltb, SFeqb.
    rewrite (SFcompare_antisym (Prim2SF a) (Prim2SF b)).
    now destruct (SFcompare _ _) as [[]|].
  - rewrite ltb_spec, leb_spec. unfold SFltb, SFleb.
    rewrite (SFcompare_antisym (Prim2SF a) (Prim2SF b)).
    now destruct (SFcompare _ _) as [[]|].
  - unfold PrimFloat.is_nan. rewrite !negb_involutive, !eqb_spec, ltb_spec, leb_spec.
    unfold SFeqb, SFltb, SFleb. intros Ha Hb.
    rewrite (SFcompare_antisym (Prim2SF a) (Prim2SF b)).
    assert (Hdef : SFcompare (Prim2SF a) (Prim2SF b) <> None).
    { destruct (Prim2SF a), (Prim2SF b); simpl in *; discriminate. }
    destruct (SFcompare (Prim2SF a) (Prim2SF b)) as [[]|]; simpl; congruence.
Qed.

#[export] Instance exact_laws : NumLaws Q.
Proof.
  split; simpl; intros a b.
  - rewrite negb_true_iff. intros Hba.
    apply Qle_bool_iff, Qlt_le_weak, Qnot_le_lt.
    intros Hle. apply Qle_bool_iff in Hle. congruence.
  - rewrite negb_true_iff. intros Hba.
    destruct (Qeq_bool b a) eqn:Heq; [|reflexivity].
    apply Qeq_bool_iff in Heq.
    assert (Hle : Qle_bool b a = true) by (apply Qle_bool_iff; rewrite Heq; apply Qle_refl).
    congruence.
  - intros Hab. rewrite negb_false_iff. exact Hab.
  - intros _ _. now rewrite negb_false_iff.
Qed.

(** ** Reads never raise *)

Section Reads.
Context {N : Type} `{NumLaws N}.
Local Open Scope py_scope.

Lemma try_except_returns {A} (body : res A) (fallback : A) :
  exists a, try_except body (fun _ => Ret fallback) = Ret a.
Proof. destruct body; simpl; eauto. Qed.

Lemma try_except_fallback {A} (body : res A) (fallback : A) :
  raises body = true -> try_except body (fun _ => Ret fallback) = Ret fallback.
Proof. destruct body; simpl; [discriminate | reflexivity]. Qed.

Lemma get_current_apy_returns (w : World N) (s : Adapter) :
  exists apy, StrategyManager.get_current_apy w s = Ret apy.
Proof. destruct s; apply try_except_returns. Qed.

Lemma get_strategy_apy_returns (w : World N) (name : string) :
  exists apy, StrategyManager.get_strategy_apy w name = Ret apy.
Proof.
  unfold StrategyManager.get_strategy_apy.
  destruct (lookup name StrategyManager.strategies).
  - apply get_current_apy_returns.
  - eauto.
Qed.

Lemma read_strategy_apys_returns (w : World N) :
  exists a b c,
    IntegratedMantleVaultAgent.read_strategy_apys w
    = Ret [("init_looping"%string, a); ("circuit_vault"%string, b);
           ("mnt_staking"%string, c)].
Proof.
  unfold IntegratedMantleVaultAgent.read_strategy_apys,
    IntegratedMantleVaultAgent.strategy_names. simpl.
  destruct (get_strategy_apy_returns w "init_looping") as [a ->].
  destruct (get_strategy_apy_returns w "circuit_vault") as [b ->].
  destruct (get_strategy_apy_returns w "mnt_staking") as [c ->].
  simpl. eauto.
Qed.

Lemma guarded_ratio_returns (total_reserves_needed total_funds : N) :
  (if total_funds >? lit 0 then truediv total_reserves_needed total_funds
   else Ret (lit 0))
  = Ret (if total_funds >? lit 0 then div total_reserves_needed total_funds
         else lit 0).
Proof.
  destruct (total_funds >? lit 0) eqn:Hpos; [|reflexivity].
  unfold truediv. now rewrite (ltb_neq _ _ Hpos).
Qed.
End Reads.

(** ** The allocation, field by field *)

Section Allocation.
Context {N : Type} `{NumLaws N}.
Local Open Scope py_scope.
Import IntegratedMantleVaultAgent.

(** The plan [_calculate_integrated_allocation] returns once the planner
    has returned [alloc]. *)
Lemma calculate_returns (self : Agent N) (w : World N)
    (snapshot : ProtocolSnapshot N) (alloc : list (string * N)) :
  let total_funds := available_liquidity snapshot in
  let required_reserves := total_reserves_required snapshot in
  let safety_buffer := required_reserves * lit 0.2 in
  let total_reserves_needed := required_reserves + safety_buffer in
  let deployable_funds := py_max2 (lit 0) (total_funds - total_reserves_needed) in
  let ratio :=
    if total_funds >? lit 0 then div total_reserves_needed total_funds else lit 0 in
  let expiring := filter (expiring_soon w) (active_policies snapshot) in
  plan_allocation deployable_funds (List.length (active_policies snapshot)) = Ret alloc ->
  exists apys hi lo,
    read_strategy_apys w = Ret apys /\
    py_max (map snd apys) = Ret hi /\
    py_min (map snd apys) = Ret lo /\
    _calculate_integrated_allocation self w snapshot
    = Ret {|
        should_rebalance :=
          (ratio <? reserve_ratio self)
          || (hi - lo >? MIN_REALLOCATION_THRESHOLD (agent_config self))
          || negb (Nat.eqb (List.length expiring) 0);
        reasons :=
          (if ratio <? reserve_ratio self then [InsufficientReserves] else [])
          ++ (if hi - lo >? MIN_REALLOCATION_THRESHOLD (agent_config self)
              then [ApySpreadDetected (hi - lo)] else [])
          ++ (if Nat.eqb (List.length expiring) 0 then []
              else [PoliciesExpiringSoon (List.length expiring)]);
        total_funds := total_funds;
        required_reserves := required_reserves;
        safety_buffer := safety_buffer;
        deployable_funds := deployable_funds;
        current_reserve_ratio := ratio;
        strategy_apys := apys;
        optimal_allocation := alloc;
        upcoming_expirations := List.length expiring
      |}.
Proof.
  intros total_funds required_reserves safety_buffer total_reserves_needed
    deployable_funds ratio expiring Halloc.
  destruct (read_strategy_apys_returns w) as (a & b & c & Hapys).
  eexists _, _, _. split; [exact Hapys|]. split; [reflexivity|]. split; [reflexivity|].
  unfold _calculate_integrated_allocation.
  fold total_funds required_reserves safety_buffer total_reserves_needed
    deployable_funds.
  rewrite guarded_ratio_returns. fold ratio.
  rewrite Hapys. cbn [bind].
  fold deployable_funds in Halloc.
  cbn [py_max py_min map snd bind].
  fold expiring.
  destruct (ratio <? reserve_ratio self);
    destruct (_ >? MIN_REALLOCATION_THRESHOLD (agent_config self));
    destruct expiring; cbn [List.length Nat.eqb negb orb app];
    rewrite Halloc; reflexivity.
Qed.
End Allocation.

(** ** Reserve figures (binary64) *)

Section ReserveFigures.
Local Open Scope py_scope.
Import IntegratedMantleVaultAgent.

(** In binary64 the planner always returns the three percentages. *)
Lemma plan_allocation_returns (deployable_funds : float) (n : nat) :
  exists x y z,
    plan_allocation deployable_funds n
    = Ret [("init_looping"%string, x); ("circuit_vault"%string, y);
           ("mnt_staking"%string, z)].
Proof.
  unfold plan_allocation.
  destruct (deployable_funds >? lit 0).
  - unfold base_allocation, risk_multiplier.
    destruct (10 <? n)%nat; [|destruct (n <? 3)%nat];
      vm_compute; eauto.
  - eauto.
Qed.

(** C1.  For every snapshot the allocation calculation returns a plan
    with [required_reserves = total_reserves_required],
    [safety_buffer = required_reserves * 0.2],
    [deployable_funds = max(0, available_liquidity - (required_reserves +
    safety_buffer))], that is the difference when it is above 0 and 0
    otherwise, so never below 0, and [current_reserve_ratio] the quotient
    of the reserves needed by the available liquidity when that is
    positive and [0] otherwise; with 100000 available and a required
    reserve of 20000 the figures are 20000, 4000, 76000 and 0.24, and
    with 20000 available against the same reserve nothing is
    deployable. *)
Theorem reserve_figures :
  (forall (self : Agent float) (w : World float) (snapshot : ProtocolSnapshot float),
      exists plan,
        _calculate_integrated_allocation self w snapshot = Ret plan /\
        required_reserves plan = total_reserves_required snapshot /\
        safety_buffer plan = required_reserves plan * lit 0.2 /\
        (let surplus :=
           available_liquidity snapshot
           - (required_reserves plan + safety_buffer plan) in
         ((surplus >? lit 0) = true -> deployable_funds plan = surplus) /\
         ((surplus >? lit 0) = false -> deployable_funds plan = lit 0) /\
         (lit 0 <=? deployable_funds plan) = true) /\
        current_reserve_ratio plan
        = if available_liquidity snapshot >? lit 0
          then div (required_reserves plan + safety_buffer plan)
                 (available_liquidity snapshot)
          else lit 0) /\
  (forall (self : Agent float) (w : World float) total active opened pending time,
      exists plan,
        _calculate_integrated_allocation self w
          {| total_policies := total;
             active_policies := active;
             open_policies := opened;
             total_reserves_required := lit 20000;
             available_liquidity := lit 100000;
             pending_settlements := pending;
             timestamp := time |} = Ret plan /\
        required_reserves plan = lit 20000 /\
        safety_buffer plan = lit 4000 /\
        deployable_funds plan = lit 76000 /\
        current_reserve_ratio plan = lit 0.24) /\
  (forall (self : Agent float) (w : World float) total active opened pending time,
      exists plan,
        _calculate_integrated_allocation self w
          {| total_policies := total;
             active_policies := active;
             open_policies := opened;
             total_reserves_required := lit 20000;
             available_liquidity := lit 20000;
             pending_settlements := pending;
             timestamp := time |} = Ret plan /\
        required_reserves plan = lit 20000 /\
        safety_buffer plan = lit 4000 /\
        deployable_funds plan = lit 0 /\
        current_reserve_ratio plan = lit 1.2).
Proof.
  split; [|split].
  - intros self w snapshot.
    destruct (plan_allocation_returns
                (py_max2 (lit 0)
                   (available_liquidity snapshot
                    - (total_reserves_required snapshot
                       + total_reserves_required snapshot * lit 0.2)))
                (List.length (active_policies snapshot))) as (x & y & z & Halloc).
    destruct (calculate_returns self w snapshot Halloc)
      as (apys & hi & lo & _ & _ & _ & ->).
    eexists. split; [reflexivity|]. cbn [required_reserves safety_buffer
      deployable_funds current_reserve_ratio].
    split; [reflexivity|]. split; [reflexivity|]. split; [|reflexivity].
    cbn zeta. unfold py_max2.
    set (surplus := available_liquidity snapshot
                    - (total_reserves_required snapshot
                       + total_reserves_required snapshot * lit 0.2)).
    destruct (surplus >? lit 0) eqn:Hsurplus.
    + split; [reflexivity|]. split; [discriminate|]. now apply ltb_leb.
    + split; [discriminate|]. split; [reflexivity|]. vm_compute. reflexivity.
  - intros self w total active opened pending time.
    set (snapshot := Build_ProtocolSnapshot _ _ _ _ _ _ _).
    destruct (plan_allocation_returns
                (py_max2 (lit 0)
                   (available_liquidity snapshot
                    - (total_reserves_required snapshot
                       + total_reserves_required snapshot * lit 0.2)))
                (List.length (active_policies snapshot))) as (x & y & z & Halloc).
    destruct (calculate_returns self w snapshot Halloc)
      as (apys & hi & lo & _ & _ & _ & ->).
    eexists. split; [reflexivity|].
    cbn [required_reserves safety_buffer deployable_funds current_reserve_ratio
         snapshot available_liquidity total_reserves_required].
    repeat split; vm_compute; reflexivity.
  - intros self w total active opened pending time.
    set (snapshot := Build_ProtocolSnapshot _ _ _ _ _ _ _).
    destruct (plan_allocation_returns
                (py_max2 (lit 0)
                   (available_liquidity snapshot
                    - (total_reserves_required snapshot
                       + total_reserves_required snapshot * lit 0.2)))
                (List.length (active_policies snapshot))) as (x & y & z & Halloc).
    destruct (calculate_returns self w snapshot Halloc)
      as (apys & hi & lo & _ & _ & _ & ->).
    eexists. split; [reflexivity|].
    cbn [required_reserves safety_buffer deployable_funds current_reserve_ratio
         snapshot available_liquidity total_reserves_required].
    repeat split; vm_compute; reflexivity.
Qed.
End ReserveFigures.

(** ** The rebalance decision *)

Section Decision.
Local Open Scope py_scope.
Import IntegratedMantleVaultAgent.

(** What the source decides, for either arithmetic: [should_rebalance]
    holds exactly when one of its three tests does, and [reasons] has one
    entry for each test that holds, in the order of the tests.  The third
    test is the source's: some active policy satisfies [expiring_soon]. *)
Lemma decision_of_the_source {N : Type} `{NumLaws N}
    (self : Agent N) (w : World N) (snapshot : ProtocolSnapshot N)
    (plan : AllocationPlan N) :
  _calculate_integrated_allocation self w snapshot = Ret plan ->
  exists apy_spread,
    let c1 := reserve_ratio_below_target self (current_reserve_ratio plan) in
    let c2 := apy_spread_above_threshold self apy_spread in
    let c3 := existsb (expiring_soon w) (active_policies snapshot) in
    should_rebalance plan = c1 || c2 || c3 /\
    reasons plan
    = (if c1 then [InsufficientReserves] else [])
      ++ (if c2 then [ApySpreadDetected apy_spread] else [])
      ++ (if c3 then [PoliciesExpiringSoon
                        (List.length (filter (expiring_soon w)
                                        (active_policies snapshot)))]
          else []).
Proof.
  intros Hplan.
  assert (Hc3 : forall l : list (PolicyInfo N),
             Nat.eqb (List.length (filter (expiring_soon w) l)) 0
             = negb (existsb (expiring_soon w) l)).
  { induction l as [|p l IH]; simpl; [reflexivity|].
    destruct (expiring_soon w p); simpl; [reflexivity | exact IH]. }
  destruct (plan_allocation
              (py_max2 (lit 0)
                 (available_liquidity snapshot
                  - (total_reserves_required snapshot
                     + total_reserves_required snapshot * lit 0.2)))
              (List.length (active_policies snapshot))) as [alloc|e] eqn:Halloc.
  - destruct (calculate_returns self w snapshot Halloc)
      as (apys & hi & lo & _ & _ & _ & Hcalc).
    rewrite Hcalc in Hplan. injection Hplan as <-.
    exists (hi - lo). cbn [should_rebalance reasons current_reserve_ratio].
    unfold reserve_ratio_below_target, apy_spread_above_threshold.
    rewrite Hc3, negb_involutive.
    destruct (existsb _ _); auto.
  - exfalso. revert Hplan. unfold _calculate_integrated_allocation.
    rewrite guarded_ratio_returns.
    destruct (read_strategy_apys_returns w) as (a & b & c & ->).
    cbn [bind py_max py_min map snd].
    destruct (_ <? reserve_ratio self);
      destruct (_ >? MIN_REALLOCATION_THRESHOLD (agent_config self));
      destruct (filter _ _); rewrite Halloc; discriminate.
Qed.

(** C2.  An active policy whose time to expiry is 0 lies within the
    expiry window, yet the allocation calculation does not count it: with
    adequate reserves and level yields the plan says not to rebalance and
    gives no reason. *)
Theorem expired_policy_not_counted :
  let w : World float := level_yields 1000 in
  let p : PolicyInfo float := policy (lit 20000) (Some 500%Z) in
  let snapshot := snapshot_of [p] (lit 100000) in
  time_to_expiry w p = Some 0%Z /\
  expires_within_window w p = true /\
  exists plan,
    _calculate_integrated_allocation init w snapshot = Ret plan /\
    reserve_ratio_below_target init (current_reserve_ratio plan) = false /\
    should_rebalance plan = false /\
    reasons plan = [] /\
    upcoming_expirations plan = 0%nat.
Proof.
  cbv zeta. split; [reflexivity|]. split; [reflexivity|].
  eexists. split; [vm_compute; reflexivity|].
  repeat split; vm_compute; reflexivity.
Qed.
End Decision.

(** ** The allocation planner (binary64) *)

Section Planner.
Local Open Scope py_scope.
Import IntegratedMantleVaultAgent.

Lemma normalized_sum (n : nat) :
  exists alloc : list (string * float),
    normalize (base_allocation n) = Ret alloc /\
    within (lit 1e-6) (py_sum (map snd alloc)) (lit 100) = true.
Proof.
  unfold base_allocation, risk_multiplier.
  destruct (10 <? n)%nat; [|destruct (n <? 3)%nat];
    eexists; (split; [vm_compute; reflexivity|]); vm_compute; reflexivity.
Qed.

(** C3.  The plan's [optimal_allocation] sums to 100 within 1e-6
    whenever [deployable_funds > 0], and is 0 for each of the three
    strategies whenever [deployable_funds <= 0]. *)
Theorem allocation_percentages
    (self : Agent float) (w : World float) (snapshot : ProtocolSnapshot float) :
  exists plan,
    _calculate_integrated_allocation self w snapshot = Ret plan /\
    ((deployable_funds plan >? lit 0) = true ->
     within (lit 1e-6) (py_sum (map snd (optimal_allocation plan))) (lit 100) = true) /\
    ((deployable_funds plan <=? lit 0) = true ->
     optimal_allocation plan = zero_allocation).
Proof.
  destruct (plan_allocation_returns
              (py_max2 (lit 0)
                 (available_liquidity snapshot
                  - (total_reserves_required snapshot
                     + total_reserves_required snapshot * lit 0.2)))
              (List.length (active_policies snapshot))) as (x & y & z & Halloc).
  destruct (calculate_returns self w snapshot Halloc)
    as (apys & hi & lo & _ & _ & _ & ->).
  eexists. split; [reflexivity|].
  cbn [deployable_funds optimal_allocation].
  revert Halloc. unfold plan_allocation.
  destruct (py_max2 _ _ >? lit 0) eqn:Hpos; intros Halloc.
  - split.
    + intros _.
      destruct (normalized_sum (List.length (active_policies snapshot)))
        as (alloc & Hnorm & Hsum).
      rewrite Hnorm in Halloc. injection Halloc as <-. exact Hsum.
    + intros Hle. apply leb_nltb in Hle. simpl in *. congruence.
  - split.
    + discriminate.
    + intros _. now injection Halloc as <- <- <-.
Qed.

(** With 100000 available and nothing reserved, the funds are deployable
    and the percentages sum to 100. *)
Lemma allocation_percentages_deployable :
  exists plan : AllocationPlan float,
    _calculate_integrated_allocation init (feeds_down 0 0)
      (snapshot_of [] (lit 100000)) = Ret plan /\
    (deployable_funds plan >? lit 0) = true /\
    within (lit 1e-6) (py_sum (map snd (optimal_allocation plan))) (lit 100) = true.
Proof.
  destruct (allocation_percentages init (feeds_down 0 0)
              (snapshot_of [] (lit 100000))) as (plan & Hplan & Hpos & _).
  exists plan.
  assert (Hdep : (deployable_funds plan >? lit 0) = true).
  { revert Hplan. vm_compute. intros [= <-]. reflexivity. }
  auto.
Defined.
(** C4.  The risk multiplier is 0.8 above ten active policies, 1.2 below
    three and 1.0 otherwise, and scales the first base weight (0.45) only;
    with twelve active policies the base weights are 0.45 * 0.8 (0.36 to
    fifteen decimals), 0.35 and 0.20, and the plan's percentages read 39.6,
    38.5 and 22.0 at one decimal. *)
Theorem risk_adjusted_weights :
  (forall n : nat,
      ((10 < n)%nat -> risk_multiplier n = lit 0.8 :> float) /\
      ((n < 3)%nat -> risk_multiplier n = lit 1.2 :> float) /\
      ((3 <= n <= 10)%nat -> risk_multiplier n = lit 1.0 :> float) /\
      base_allocation n
      = [("init_looping"%string, lit 0.45 * risk_multiplier n);
         ("circuit_vault"%string, lit 0.35);
         ("mnt_staking"%string, lit 0.20 : float)]) /\
  (exists w1 : float,
      base_allocation 12
      = [("init_looping"%string, w1); ("circuit_vault"%string, lit 0.35);
         ("mnt_staking"%string, lit 0.20)] /\
      w1 = lit 0.45 * lit 0.8 /\
      within (lit 1e-15) w1 (lit 0.36) = true) /\
  (forall (self : Agent float) (w : World float) (snapshot : ProtocolSnapshot float),
      List.length (active_policies snapshot) = 12%nat ->
      exists plan,
        _calculate_integrated_allocation self w snapshot = Ret plan /\
        ((deployable_funds plan >? lit 0) = true ->
         exists x y z,
           optimal_allocation plan
           = [("init_looping"%string, x); ("circuit_vault"%string, y);
              ("mnt_staking"%string, z)] /\
           rounds_to_1dp x (lit 39.6) = true /\
           rounds_to_1dp y (lit 38.5) = true /\
           rounds_to_1dp z (lit 22.0) = true)).
Proof.
  split; [|split].
  - intros n. unfold base_allocation, risk_multiplier.
    repeat split.
    + intros Hn. apply Nat.ltb_lt in Hn. now rewrite Hn.
    + intros Hn. destruct (10 <? n)%nat eqn:Hhigh.
      * apply Nat.ltb_lt in Hhigh. lia.
      * apply Nat.ltb_lt in Hn. now rewrite Hn.
    + intros [Hlo Hhi].
      destruct (10 <? n)%nat eqn:Hhigh; [apply Nat.ltb_lt in Hhigh; lia|].
      destruct (n <? 3)%nat eqn:Hlow; [apply Nat.ltb_lt in Hlow; lia|].
      reflexivity.
  - eexists. split; [reflexivity|]. split; vm_compute; reflexivity.
  - intros self w snapshot Hlen.
    destruct (plan_allocation_returns
                (py_max2 (lit 0)
                   (available_liquidity snapshot
                    - (total_reserves_required snapshot
                       + total_reserves_required snapshot * lit 0.2)))
                (List.length (active_policies snapshot))) as (x & y & z & Halloc).
    destruct (calculate_returns self w snapshot Halloc)
      as (apys & hi & lo & _ & _ & _ & ->).
    eexists. split; [reflexivity|].
    cbn [deployable_funds optimal_allocation].
    intros Hpos. exists x, y, z. split; [reflexivity|].
    revert Halloc. unfold plan_allocation. rewrite Hpos, Hlen.
    vm_compute. intros [= <- <- <-]. auto.
Qed.

(** Twelve active policies of 1000 each against a liquidity of 1000000. *)
Lemma risk_adjusted_weights_busy :
  exists (plan : AllocationPlan float) x y z,
    _calculate_integrated_allocation init (feeds_down 0 0)
      (busy_snapshot (lit 1000000)) = Ret plan /\
    optimal_allocation plan
    = [("init_looping"%string, x); ("circuit_vault"%string, y);
       ("mnt_staking"%string, z)] /\
    rounds_to_1dp x (lit 39.6) = true /\
    rounds_to_1dp y (lit 38.5) = true /\
    rounds_to_1dp z (lit 22.0) = true.
Proof.
  destruct risk_adjusted_weights as (_ & _ & Hplan).
  destruct (Hplan init (feeds_down 0 0) (busy_snapshot (lit 1000000)) eq_refl)
    as (plan & Hcalc & Hpos).
  assert (Hdep : (deployable_funds plan >? lit 0) = true).
  { revert Hcalc. vm_compute. intros [= <-]. reflexivity. }
  destruct (Hpos Hdep) as (x & y & z & Halloc & Hx & Hy & Hz).
  exists plan, x, y, z. auto.
Defined.
End Planner.

(** ** Negative liquidity (binary64) *)

Section NegativeLiquidity.
Local Open Scope py_scope.
Import IntegratedMantleVaultAgent.

(** With 5000 owed by the vault the calculation still returns a plan. *)
Lemma negative_liquidity_returns :
  let snapshot : ProtocolSnapshot float := snapshot_of [] (lit (-5000)) in
  (available_liquidity snapshot <? lit 0) = true /\
  raises (_calculate_integrated_allocation init (feeds_down 0 0) snapshot) = false.
Proof. split; vm_compute; reflexivity. Qed.

(** C7, amended.  For every snapshot with [available_liquidity < 0] the
    allocation calculation raises nothing: it returns a plan whose
    [current_reserve_ratio] is 0 and whose other reserve figures follow the
    usual formulas. *)
Theorem negative_liquidity_is_degenerate
    (self : Agent float) (w : World float) (snapshot : ProtocolSnapshot float) :
  (available_liquidity snapshot <? lit 0) = true ->
  exists plan,
    _calculate_integrated_allocation self w snapshot = Ret plan /\
    current_reserve_ratio plan = lit 0 /\
    required_reserves plan = total_reserves_required snapshot /\
    safety_buffer plan = required_reserves plan * lit 0.2 /\
    deployable_funds plan
    = py_max2 (lit 0)
        (available_liquidity snapshot
         - (required_reserves plan + safety_buffer plan)).
Proof.
  intros Hneg.
  destruct (plan_allocation_returns
              (py_max2 (lit 0)
                 (available_liquidity snapshot
                  - (total_reserves_required snapshot
                     + total_reserves_required snapshot * lit 0.2)))
              (List.length (active_policies snapshot))) as (x & y & z & Halloc).
  destruct (calculate_returns self w snapshot Halloc)
    as (apys & hi & lo & _ & _ & _ & ->).
  eexists. split; [reflexivity|].
  cbn [required_reserves safety_buffer deployable_funds current_reserve_ratio].
  repeat split.
  apply ltb_leb, leb_nltb in Hneg. now rewrite Hneg.
Qed.

(** A liquidity of -5000 gives a reserve ratio of 0. *)
Lemma negative_liquidity_is_degenerate_witness :
  exists plan : AllocationPlan float,
    _calculate_integrated_allocation init (feeds_down 0 0)
      (snapshot_of [] (lit (-5000))) = Ret plan /\
    current_reserve_ratio plan = lit 0.
Proof.
  destruct (negative_liquidity_is_degenerate init (feeds_down 0 0)
              (snapshot_of [] (lit (-5000))))
    as (plan & Hplan & Hratio & _).
  - vm_compute. reflexivity.
  - exists plan. auto.
Defined.
End NegativeLiquidity.

(** ** Adapter calls and the trace *)

Section Calls.
Context {N : Type} `{Num N}.
Local Open Scope py_scope.

Lemma transact_run (w : World N) (ev : Event N) (ok : TxResult N) tr :
  transact w ev ok tr
  = (Ret (match settle w ev with
          | Ret _ => ok
          | Raise e => TxFailure (str e)
          end), tr ++ [ev]).
Proof.
  unfold transact, bindM, emit, lift. now destruct (settle w ev).
Qed.

Lemma deposit_run (w : World N) (s : Adapter) (amount : N) tr :
  exists result,
    StrategyManager.deposit w s amount tr = (Ret result, tr ++ [EvDeposit s amount]).
Proof. destruct s; simpl; unfold INITLoopingStrategy.deposit,
  CircuitProtocolStrategy.deposit, MNTStakingStrategy.deposit;
  rewrite transact_run; eauto. Qed.

Lemma withdraw_run (w : World N) (s : Adapter) (amount : N) tr :
  exists result,
    StrategyManager.withdraw w s amount tr
    = (Ret result, tr ++ [EvWithdraw s amount]) /\
    success result = negb (raises (settle w (EvWithdraw s amount))).
Proof. destruct s; simpl; unfold INITLoopingStrategy.withdraw,
  CircuitProtocolStrategy.withdraw, MNTStakingStrategy.withdraw;
  rewrite transact_run; destruct (settle w _); simpl; eauto. Qed.

Lemma deploy_targets_run (w : World N) (current_balance : N) items :
  forall results tr,
    exists results',
      deploy_targets w current_balance items results tr
      = (Ret results', tr ++ deposits_due current_balance items).
Proof.
  induction items as [|[strategy allocation_pct] items IH]; intros results tr.
  - simpl. unfold ret. rewrite app_nil_r. eauto.
  - cbn [deploy_targets deposits_due flat_map fst snd].
    destruct (_ >? lit 0).
    + unfold bindM, StrategyManager.deploy_to_strategy.
      destruct (lookup strategy StrategyManager.strategies) as [s|].
      * destruct (deposit_run w s (div (current_balance * allocation_pct) (lit 100)) tr)
          as [result ->].
        destruct (IH (results ++ [(strategy,
                    (div (current_balance * allocation_pct) (lit 100),
                     allocation_pct, result))])
                    (tr ++ [EvDeposit s (div (current_balance * allocation_pct) (lit 100))]))
          as [results' ->].
        rewrite <- app_assoc. eauto.
      * unfold ret. apply IH.
    + apply IH.
Qed.

(** C8, amended.  A target allocation whose percentages sum to more than
    0.1 away from 100 is answered with an error and no adapter is called;
    a target allocation within 0.1 of 100 is executed once the balance has
    been read: a deposit is requested, in order, for every entry of a
    registered strategy whose target amount is positive. *)
Theorem rebalance_tolerance
    (w : World N) (target_allocations : list (string * N)) (tr : list (Event N)) :
  let total_allocation := py_sum (map snd target_allocations) in
  ((abs (total_allocation - lit 100) >? lit 0.1) = true ->
   exists reply,
     execute_rebalance w target_allocations tr = (Ret reply, tr) /\
     is_error reply = true) /\
  ((abs (total_allocation - lit 100) >? lit 0.1) = false ->
   forall current_balance,
     MantleWeb3Manager.get_balance w "USDC" (FOMO_INSURANCE config)
     = Ret current_balance ->
     exists results,
       execute_rebalance w target_allocations tr
       = (Ret (RebalanceExecuted current_balance target_allocations results),
          tr ++ deposits_due current_balance target_allocations)).
Proof.
  intros total_allocation. unfold execute_rebalance, try_exceptM, bindM, lift.
  fold total_allocation. split.
  - intros Hout.
    destruct (MantleWeb3Manager.get_balance w "USDC" (FOMO_INSURANCE config)).
    + rewrite Hout. unfold ret. eexists. split; reflexivity.
    + unfold ret. eexists. split; reflexivity.
  - intros Hin current_balance ->. rewrite Hin.
    destruct (deploy_targets_run w current_balance target_allocations [] tr)
      as [results ->].
    unfold ret. eauto.
Qed.

(** The allocation endpoint turns the same test into an HTTP error; it
    never reaches an adapter, whatever the allocation. *)
Lemma set_custom_allocation_rejects (broadcast : res unit)
    (allocations : list (string * N)) :
  (abs (py_sum (map snd allocations) - lit 100) >? lit 0.1) = true ->
  set_custom_allocation true broadcast allocations
  = Raise (HTTPException 500 "Allocations must sum to 100%").
Proof.
  intros Hout. unfold set_custom_allocation. simpl. now rewrite Hout.
Qed.
End Calls.

Section Tolerance.
Local Open Scope py_scope.

(** Percentages of 50.05 and 50 do not sum to 100, and both deposits are
    requested from a balance of 1000 USDC. *)
Lemma off_by_a_twentieth_is_executed :
  let w : World float := feeds_down (10 ^ 9) 0 in
  let target_allocations : list (string * float) :=
    [("init_looping"%string, lit 50.05); ("circuit_vault"%string, lit 50)] in
  (py_sum (map snd target_allocations) =? lit 100) = false /\
  exists reply,
    execute_rebalance w target_allocations []
    = (Ret reply,
       [EvDeposit INITLooping (div (lit 1000 * lit 50.05) (lit 100));
        EvDeposit CircuitProtocol (lit 500)]) /\
    is_error reply = false.
Proof.
  cbv zeta. split; [vm_compute; reflexivity|].
  eexists. split; vm_compute; reflexivity.
Qed.

(** All on one strategy: 60% is refused, 100% deposits the balance of
    1000 USDC. *)
Lemma rebalance_tolerance_witness :
  let w : World float := feeds_down (10 ^ 9) 0 in
  (exists reply,
      execute_rebalance w [("init_looping"%string, lit 60 : float)] []
      = (Ret reply, []) /\ is_error reply = true) /\
  (exists results,
      execute_rebalance w [("init_looping"%string, lit 100 : float)] []
      = (Ret (RebalanceExecuted (lit 1000)
                [("init_looping"%string, lit 100)] results),
         [EvDeposit INITLooping (lit 1000)])).
Proof.
  cbv zeta. split.
  - apply (rebalance_tolerance (feeds_down (10 ^ 9) 0)
             [("init_looping"%string, lit 60 : float)] []).
    vm_compute. reflexivity.
  - destruct (rebalance_tolerance (feeds_down (10 ^ 9) 0)
                [("init_looping"%string, lit 100 : float)] []) as [_ Hin].
    destruct (Hin eq_refl (lit 1000)) as [results Hrun].
    + vm_compute. reflexivity.
    + exists results. rewrite Hrun. vm_compute. reflexivity.
Defined.
End Tolerance.

(** ** The fetch boundary *)

Section FetchBoundary.
Context {N : Type} `{Num N}.
Local Open Scope py_scope.
Import FOMOInsuranceMonitor.

Lemma collect_open_policies_returns (w : World N) (ids : list Z) :
  forall acc, exists policies, collect_open_policies w ids acc = Ret policies.
Proof.
  induction ids as [|policy_id ids IH]; intros acc; simpl; [eauto|].
  destruct (try_except_returns
              (policy_data <- getPolicy w policy_id ;;
               amount <- itruediv (pd_amount policy_data) (10 ^ 18) ;;
               payout_amount <- itruediv (pd_payout_amount policy_data) (10 ^ 6) ;;
               entry_price <- itruediv (pd_entry_price policy_data) (10 ^ 8) ;;
               state <- match nth_error states (pd_state policy_data) with
                        | Some s => Ret s
                        | None => Raise IndexError
                        end ;;
               Ret (Some {|
                 policy_id := policy_id;
                 seller := pd_seller policy_data;
                 buyer := if String.eqb (pd_buyer policy_data) zero_address
                          then None else Some (pd_buyer policy_data);
                 token := pd_token policy_data;
                 token_symbol := pd_token_symbol policy_data;
                 amount := amount;
                 payout_token := pd_payout_token policy_data;
                 payout_amount := payout_amount;
                 duration := pd_duration policy_data;
                 upside_share_bps := pd_upside_share_bps policy_data;
                 entry_price := entry_price;
                 start_timestamp := if (0 <? pd_start_timestamp policy_data)%Z
                                    then Some (pd_start_timestamp policy_data) else None;
                 expiry_timestamp := if (0 <? pd_expiry_timestamp policy_data)%Z
                                     then Some (pd_expiry_timestamp policy_data) else None;
                 state := state
               |}))%res None) as [policy Hpolicy].
  unfold _get_policy_info. rewrite Hpolicy. simpl.
  destruct policy; apply IH.
Qed.

(** C9.  No failure of a chain read or of a yield feed reaches the caller:
    [get_protocol_snapshot] returns a snapshot whatever the reads do, with
    no open policy when the policy list cannot be read, a liquidity of 0
    when the balance cannot be read, and the fallback snapshot when both
    fail; and each strategy's [get_current_apy] returns an APY whatever its
    feeds do, its fallback constant (8.5, 6.8, 4.5) as soon as one of them
    fails. *)
Theorem fetch_failures_are_recovered (w : World N) :
  (exists snapshot,
      get_protocol_snapshot w = Ret snapshot /\
      (raises (getOpenPolicyIds w) = true -> open_policies snapshot = []) /\
      (raises (balanceOf w (MOCK_USDC config) (FOMO_INSURANCE config)) = true ->
       available_liquidity snapshot = lit 0) /\
      (raises (getOpenPolicyIds w) = true ->
       raises (balanceOf w (MOCK_USDC config) (FOMO_INSURANCE config)) = true ->
       snapshot = fallback_snapshot w)) /\
  (exists apy,
      INITLoopingStrategy.get_current_apy w = Ret apy /\
      (raises (_fetch_init_supply_apy w) || raises (_fetch_init_borrow_apy w)
       || raises (_fetch_mnt_rewards_apy w) = true -> apy = lit 8.5)) /\
  (exists apy,
      CircuitProtocolStrategy.get_current_apy w = Ret apy /\
      (raises (_fetch_circuit_apy w) = true -> apy = lit 6.8)) /\
  (exists apy,
      MNTStakingStrategy.get_current_apy w = Ret apy /\
      (raises (_fetch_mnt_staking_apy w) || raises (_fetch_network_fees_apy w) = true ->
       apy = lit 4.5)).
Proof.
  repeat split.
  - unfold get_protocol_snapshot, _get_open_policy_ids, _get_available_liquidity.
    destruct (getOpenPolicyIds w) as [ids|e]; cbn [try_except bind raises].
    + destruct (collect_open_policies_returns w ids []) as [policies ->].
      cbn [bind].
      destruct (balanceOf w (MOCK_USDC config) (FOMO_INSURANCE config))
        as [balance_wei|e]; cbn [try_except bind raises].
      * destruct (itruediv balance_wei (10 ^ 6)); cbn [try_except bind];
          eexists; (split; [reflexivity|]); repeat split; discriminate.
      * eexists. split; [reflexivity|]. repeat split; discriminate.
    + destruct (balanceOf w (MOCK_USDC config) (FOMO_INSURANCE config))
        as [balance_wei|e']; cbn [try_except bind raises collect_open_policies].
      * destruct (itruediv balance_wei (10 ^ 6)); cbn [try_except bind];
          eexists; (split; [reflexivity|]); repeat split; discriminate.
      * eexists. split; [reflexivity|]. repeat split.
  - unfold INITLoopingStrategy.get_current_apy.
    destruct (_fetch_init_supply_apy w), (_fetch_init_borrow_apy w),
      (_fetch_mnt_rewards_apy w); cbn [try_except bind raises orb];
      eexists; (split; [reflexivity|]); (discriminate || reflexivity).
  - unfold CircuitProtocolStrategy.get_current_apy.
    destruct (_fetch_circuit_apy w); cbn [try_except bind raises];
      eexists; (split; [reflexivity|]); (discriminate || reflexivity).
  - unfold MNTStakingStrategy.get_current_apy.
    destruct (_fetch_mnt_staking_apy w), (_fetch_network_fees_apy w);
      cbn [try_except bind raises orb];
      eexists; (split; [reflexivity|]); (discriminate || reflexivity).
Qed.
End FetchBoundary.

(** With every read failing, the fallback snapshot and the fallback APY
    of 8.5 come back. *)
Lemma fetch_failures_are_recovered_witness :
  FOMOInsuranceMonitor.get_protocol_snapshot (chain_down 0 : World float)
  = Ret (FOMOInsuranceMonitor.fallback_snapshot (chain_down 0)) /\
  INITLoopingStrategy.get_current_apy (chain_down 0 : World float) = Ret (lit 8.5).
Proof.
  destruct (fetch_failures_are_recovered (chain_down 0 : World float))
    as ((snapshot & Hsnap & _ & _ & Hfallback) & (apy & Hapy & Hconst) & _).
  rewrite Hsnap, Hapy. split.
  - f_equal. apply Hfallback; reflexivity.
  - f_equal. apply Hconst. reflexivity.
Defined.

(** ** Unknown strategies *)

Section UnknownStrategy.
Context {N : Type} `{Num N}.

Lemma lookup_unknown (name : string) :
  ~ In name IntegratedMantleVaultAgent.strategy_names ->
  lookup name StrategyManager.strategies = None.
Proof.
  unfold IntegratedMantleVaultAgent.strategy_names. simpl. intros Hnot.
  destruct (String.eqb_spec name "init_looping") as [->|_]; [tauto|].
  destruct (String.eqb_spec name "circuit_vault") as [->|_]; [tauto|].
  destruct (String.eqb_spec name "mnt_staking") as [->|_]; [tauto|].
  reflexivity.
Qed.

(** C10.  For a name that is none of the three registered strategies,
    [deploy_to_strategy] and [withdraw_from_strategy] return a failure
    result that carries an error, raise nothing and call no adapter, and
    [get_strategy_apy] returns 0.0. *)
Theorem unknown_strategy_is_refused
    (w : World N) (name : string) (amount : N) (tr : list (Event N)) :
  ~ In name IntegratedMantleVaultAgent.strategy_names ->
  let refusal : TxResult N := TxFailure ("Unknown strategy: " ++ name) in
  success refusal = false /\
  StrategyManager.deploy_to_strategy w name amount tr = (Ret refusal, tr) /\
  StrategyManager.withdraw_from_strategy w name amount tr = (Ret refusal, tr) /\
  StrategyManager.get_strategy_apy w name = Ret (lit 0).
Proof.
  intros Hnot refusal.
  unfold StrategyManager.deploy_to_strategy, StrategyManager.withdraw_from_strategy,
    StrategyManager.get_strategy_apy.
  rewrite (lookup_unknown Hnot). auto.
Qed.
End UnknownStrategy.

(** A strategy that is not registered. *)
Lemma unknown_strategy_is_refused_witness :
  StrategyManager.deploy_to_strategy (feeds_down 0 0 : World float)
    "aave_lending"%string (lit 250) []
  = (Ret (TxFailure "Unknown strategy: aave_lending"%string), []) /\
  StrategyManager.get_strategy_apy (feeds_down 0 0 : World float) "aave_lending"%string
  = Ret (lit 0).
Proof.
  destruct (unknown_strategy_is_refused (name := "aave_lending"%string)
              (feeds_down 0 0 : World float) (lit 250) [])
    as (_ & Hdeploy & _ & Hapy).
  - simpl. intros [H|[H|[H|[]]]]; discriminate H.
  - split; assumption.
Defined.


(** ** Sorting by APY *)

Section Sorting.
Context {N : Type} `{NumLaws N} {A : Type} (key : A -> N).
Local Open Scope py_scope.

Lemma run_ascending_split (l : list A) :
  forall prev run rest,
    run_ascending key prev l = (run, rest) ->
    l = run ++ rest /\ Sorted (in_order key) (prev :: run).
Proof.
  induction l as [|x l IH]; intros prev run rest; cbn [run_ascending].
  - intros [= <- <-]. split; [reflexivity | repeat constructor].
  - destruct (key x <? key prev) eqn:Hdown.
    + intros [= <- <-]. split; [reflexivity | repeat constructor].
    + destruct (run_ascending key x l) as [run' rest'] eqn:Hrun.
      intros [= <- <-]. destruct (IH x run' rest' Hrun) as [-> Hsorted].
      split; [reflexivity|].
      constructor; [exact Hsorted|]. constructor. exact Hdown.
Qed.

Lemma run_descending_split (l : list A) :
  forall prev run rest,
    run_descending key prev l = (run, rest) ->
    l = run ++ rest /\
    Sorted (fun a b => (key b <? key a) = true) (prev :: run).
Proof.
  induction l as [|x l IH]; intros prev run rest; cbn [run_descending].
  - intros [= <- <-]. split; [reflexivity | repeat constructor].
  - destruct (key x <? key prev) eqn:Hdown.
    + destruct (run_descending key x l) as [run' rest'] eqn:Hrun.
      intros [= <- <-]. destruct (IH x run' rest' Hrun) as [-> Hsorted].
      split; [reflexivity|].
      constructor; [exact Hsorted|]. constructor. exact Hdown.
    + intros [= <- <-]. split; [reflexivity | repeat constructor].
Qed.

(** An item put between two parts of a list in order. *)
Lemma Sorted_insert (R : A -> A -> Prop) (l1 l2 : list A) (x : A) :
  Sorted R (l1 ++ l2) ->
  (forall l1' y, l1 = l1' ++ [y] -> R y x) ->
  HdRel R x l2 ->
  Sorted R (l1 ++ x :: l2).
Proof.
  induction l1 as [|a l1 IH]; cbn [app]; intros Hsorted Hlast Hhd.
  - constructor; assumption.
  - inversion Hsorted as [|? ? Hrest Ha]; subst.
    constructor.
    + apply IH; [exact Hrest| |exact Hhd].
      intros l1' y ->. apply (Hlast (a :: l1') y). reflexivity.
    + destruct l1 as [|b l1]; cbn [app] in *.
      * constructor. apply (Hlast [] a). reflexivity.
      * inversion Ha; subst. now constructor.
Qed.

(** A strictly descending run, reversed, is in order. *)
Lemma descending_rev (l : list A) :
  Sorted (fun a b => (key b <? key a) = true) l ->
  Sorted (in_order key) (rev l).
Proof.
  induction 1 as [|a l Hsorted IH Hhd]; cbn [rev]; [constructor|].
  rewrite <- (app_nil_r (rev l ++ [a])), <- app_assoc. cbn [app].
  apply Sorted_insert.
  - now rewrite app_nil_r.
  - intros l1' y Hy. destruct l as [|b l]; [destruct l1'; discriminate|].
    cbn [rev] in Hy. apply app_inj_tail in Hy as [_ <-].
    inversion Hhd as [|? ? Hba]; subst.
    unfold in_order. now apply leb_nltb, ltb_leb.
  - constructor.
Qed.

Lemma count_run_split (l : list A) :
  forall run rest,
    count_run key l = (run, rest) ->
    Permutation (run ++ rest) l /\ Sorted (in_order key) run.
Proof.
  intros run rest. destruct l as [|a [|b l]]; cbn [count_run].
  - intros [= <- <-]. split; [reflexivity | constructor].
  - intros [= <- <-]. split; [reflexivity | repeat constructor].
  - destruct (key b <? key a) eqn:Hdown.
    + destruct (run_descending key b l) as [run' rest'] eqn:Hrun.
      intros [= <- <-].
      destruct (@run_descending_split l b run' rest' Hrun) as [-> Hsorted].
      split.
      * change (Permutation (rev (a :: b :: run') ++ rest')
                  ((a :: b :: run') ++ rest')).
        apply Permutation_app_tail. symmetry. apply Permutation_rev.
      * apply (@descending_rev (a :: b :: run')).
        constructor; [exact Hsorted|]. constructor. exact Hdown.
    + destruct (run_ascending key b l) as [run' rest'] eqn:Hrun.
      intros [= <- <-].
      destruct (@run_ascending_split l b run' rest' Hrun) as [-> Hsorted].
      split; [reflexivity|].
      constructor; [exact Hsorted|]. constructor. exact Hdown.
Qed.

(** The place the binary search ends at: the item before it is not
    above the pivot and the item at it is. *)
Lemma bisect_place (run : list A) (pivot : A) (fuel : nat) :
  forall l r,
    (l <= r <= List.length run)%nat ->
    (r - l <= fuel)%nat ->
    (forall x, (0 < l)%nat -> nth_error run (l - 1) = Some x ->
               (key pivot <? key x) = false) ->
    (forall y, nth_error run r = Some y -> (key pivot <? key y) = true) ->
    let place := bisect fuel key run pivot l r in
    (place <= List.length run)%nat /\
    (forall x, (0 < place)%nat -> nth_error run (place - 1) = Some x ->
               (key pivot <? key x) = false) /\
    (forall y, nth_error run place = Some y -> (key pivot <? key y) = true).
Proof.
  induction fuel as [|fuel IH]; intros l r Hlr Hfuel Hleft Hright; cbn [bisect].
  - assert (l = r) as -> by lia. cbn zeta. split; [lia|]. split; assumption.
  - destruct (Nat.ltb_spec l r) as [Hlt|Hge].
    + assert (Hmid : (Nat.div2 (r - l) < r - l)%nat)
        by (apply Nat.lt_div2; lia).
      set (d := Nat.div2 (r - l)) in *. clearbody d.
      set (p := (l + d)%nat) in *.
      assert (Hrange : (l <= p < r)%nat) by (unfold p; lia).
      assert (Hnear : (p - l <= fuel /\ r - S p <= fuel)%nat) by (unfold p; lia).
      clearbody p.
      destruct (nth_error run p) as [y|] eqn:Hp.
      * destruct (key pivot <? key y) eqn:Htest.
        -- apply IH; [lia | lia | exact Hleft |].
           intros y' Hy'. congruence.
        -- apply IH; [lia | lia | | exact Hright].
           intros x _ Hx. replace (S p - 1)%nat with p in Hx by lia. congruence.
      * apply nth_error_None in Hp. lia.
    + assert (l = r) as -> by lia. cbn zeta. split; [lia|]. split; assumption.
Qed.

Lemma binary_insert_permutation (run : list A) (pivot : A) :
  Permutation (binary_insert key run pivot) (pivot :: run).
Proof.
  unfold binary_insert.
  set (place := bisect _ _ _ _ _ _).
  rewrite <- (firstn_skipn place run) at 3.
  symmetry. apply Permutation_middle.
Qed.

Lemma binary_insert_in_order (run : list A) (pivot : A) :
  Sorted (in_order key) run -> Sorted (in_order key) (binary_insert key run pivot).
Proof.
  intros Hsorted. unfold binary_insert.
  destruct (@bisect_place run pivot (List.length run) 0%nat (List.length run))
    as (Hplace & Hleft & Hright).
  - lia.
  - lia.
  - intros x Hpos. lia.
  - intros y Hy. assert (Hnone : nth_error run (List.length run) = None)
      by (apply nth_error_None; lia). congruence.
  - set (place := bisect _ _ _ _ _ _) in *.
    apply Sorted_insert.
    + now rewrite firstn_skipn.
    + intros l1' x Hx. unfold in_order. apply (Hleft x).
      * assert (Hlen : List.length (firstn place run) = place)
          by (rewrite length_firstn; lia).
        rewrite Hx, length_app in Hlen. cbn in Hlen. lia.
      * assert (Hlen : List.length (firstn place run) = place)
          by (rewrite length_firstn; lia).
        rewrite Hx, length_app in Hlen. cbn in Hlen.
        rewrite <- (firstn_skipn place run), Hx.
        rewrite nth_error_app1 by (rewrite length_app; cbn; lia).
        rewrite nth_error_app2 by lia.
        replace (place - 1 - List.length l1')%nat with 0%nat by lia.
        reflexivity.
    + destruct (skipn place run) as [|y rest] eqn:Hskip; constructor.
      unfold in_order. apply leb_nltb, ltb_leb, Hright.
      rewrite <- (firstn_skipn place run), Hskip.
      rewrite nth_error_app2 by (rewrite length_firstn; lia).
      rewrite length_firstn.
      replace (place - Nat.min place (List.length run))%nat with 0%nat by lia.
      reflexivity.
Qed.

Lemma sorted_permutation (l : list A) : Permutation (sorted key l) l.
Proof.
  unfold sorted. destruct (count_run key l) as [run rest] eqn:Hrun.
  destruct (@count_run_split l run rest Hrun) as [Hperm _]. rewrite <- Hperm. clear Hperm Hrun.
  revert run. induction rest as [|x rest IH]; intros run; cbn [fold_left].
  - now rewrite app_nil_r.
  - rewrite IH, binary_insert_permutation. apply Permutation_middle.
Qed.

(** Whatever the keys, no item of the result is followed by one with a
    smaller key. *)
Lemma sorted_in_order (l : list A) : Sorted (in_order key) (sorted key l).
Proof.
  unfold sorted. destruct (count_run key l) as [run rest] eqn:Hrun.
  destruct (@count_run_split l run rest Hrun) as [_ Hsorted]. clear Hrun.
  revert run Hsorted. induction rest as [|x rest IH]; intros run Hsorted;
    cbn [fold_left]; [exact Hsorted|].
  apply IH. now apply binary_insert_in_order.
Qed.

(** On keys that are numbers the result ascends. *)
Lemma in_order_ascending (l : list A) :
  Forall (fun y => is_num (key y) = true) l ->
  Sorted (in_order key) l -> Sorted (ascending key) l.
Proof.
  intros Hnum Hsorted. induction Hsorted as [|a l Hsorted IH Hhd]; [constructor|].
  inversion Hnum as [|? ? Ha Hl]; subst.
  constructor; [now apply IH|].
  destruct Hhd as [|b l Hab]; constructor.
  inversion Hl; subst. now apply nltb_leb.
Qed.

Lemma sorted_ascending (l : list A) :
  Forall (fun y => is_num (key y) = true) l -> Sorted (ascending key) (sorted key l).
Proof.
  intros Hl. apply in_order_ascending; [|apply sorted_in_order].
  now rewrite (sorted_permutation l).
Qed.
End Sorting.

(** ** The reserve top-up phase *)

Section TopUp.
Context {N : Type} `{NumLaws N}.
Local Open Scope py_scope.
Import IntegratedMantleVaultAgent.

Lemma py_for_cons {A S} (body : A -> S -> M N (ctl * S)) a l s tr :
  py_for body (a :: l) s tr
  = match body a s tr with
    | (Ret (Break, s'), tr') => (Ret s', tr')
    | (Ret (Continue, s'), tr') => py_for body l s' tr'
    | (Raise e, tr') => (Raise e, tr')
    end.
Proof.
  cbn [py_for]. unfold bindM.
  destruct (body a s tr) as [[[[] s']|e] tr']; reflexivity.
Qed.

(** One visit of the loop body to a registered strategy. *)
Lemma topup_body_run (w : World N) (shortfall : N) name apy s remaining tr0 :
  lookup name StrategyManager.strategies = Some s ->
  let withdraw_amount := py_min2 remaining (shortfall * lit 0.5) in
  topup_body w shortfall (name, apy) remaining tr0
  = if remaining <=? lit 0 then (Ret (Break, remaining), tr0)
    else
      (Ret (Continue,
            if raises (settle w (EvWithdraw s withdraw_amount)) then remaining
            else remaining - withdraw_amount),
       tr0 ++ [EvWithdraw s withdraw_amount]).
Proof.
  intros Hs withdraw_amount. unfold topup_body. cbn [fst].
  destruct (remaining <=? lit 0); [reflexivity|].
  unfold bindM, StrategyManager.withdraw_from_strategy. rewrite Hs.
  fold withdraw_amount.
  destruct (withdraw_run w s withdraw_amount tr0) as (result & -> & Hresult).
  rewrite Hresult.
  now destruct (raises (settle w (EvWithdraw s withdraw_amount))).
Qed.

(** The loop of the source requests what the specification's top-up
    requests, strategy by strategy. *)
Lemma topup_loop_run (w : World N) (shortfall : N) (items : list (string * N)) :
  Forall registered items ->
  forall remaining tr0,
    exists tr left,
      topup w shortfall items remaining tr left /\
      py_for (topup_body w shortfall) items remaining tr0 = (Ret left, tr0 ++ tr).
Proof.
  induction 1 as [|[name apy] rest [s Hs] Hrest IH]; intros remaining tr0.
  - exists [], remaining. split; [constructor|].
    simpl. unfold ret. now rewrite app_nil_r.
  - cbn [fst] in Hs.
    rewrite py_for_cons, topup_body_run with (s := s) by exact Hs.
    destruct (remaining <=? lit 0) eqn:Hcovered.
    + exists [], remaining. split; [now constructor|]. now rewrite app_nil_r.
    + set (withdraw_amount := py_min2 remaining (shortfall * lit 0.5)).
      destruct (settle w (EvWithdraw s withdraw_amount)) as [[]|e] eqn:Hsettle;
        cbn [raises].
      * destruct (IH (remaining - withdraw_amount)
                    (tr0 ++ [EvWithdraw s withdraw_amount]))
          as (tr & left & Htopup & ->).
        exists (EvWithdraw s withdraw_amount :: tr), left.
        split; [now apply topup_success|].
        now rewrite <- app_assoc.
      * destruct (IH remaining (tr0 ++ [EvWithdraw s withdraw_amount]))
          as (tr & left & Htopup & ->).
        exists (EvWithdraw s withdraw_amount :: tr), left.
        split; [now apply topup_failure with (e := e)|].
        now rewrite <- app_assoc.
Qed.

Lemma read_strategy_apys_run (w : World N) :
  exists a_init a_circuit a_mnt,
    StrategyManager.get_current_apy w INITLooping = Ret a_init /\
    StrategyManager.get_current_apy w CircuitProtocol = Ret a_circuit /\
    StrategyManager.get_current_apy w MNTStaking = Ret a_mnt /\
    read_strategy_apys w
    = Ret [("init_looping"%string, a_init); ("circuit_vault"%string, a_circuit);
           ("mnt_staking"%string, a_mnt)].
Proof.
  destruct (get_current_apy_returns w INITLooping) as [a Ha].
  destruct (get_current_apy_returns w CircuitProtocol) as [b Hb].
  destruct (get_current_apy_returns w MNTStaking) as [c Hc].
  exists a, b, c. repeat split; try assumption.
  unfold read_strategy_apys, strategy_names. cbn [mapM].
  change (StrategyManager.get_strategy_apy w "init_looping")
    with (StrategyManager.get_current_apy w INITLooping).
  change (StrategyManager.get_strategy_apy w "circuit_vault")
    with (StrategyManager.get_current_apy w CircuitProtocol).
  change (StrategyManager.get_strategy_apy w "mnt_staking")
    with (StrategyManager.get_current_apy w MNTStaking).
  rewrite Ha, Hb, Hc. reflexivity.
Qed.

(** An item of the APY list that names a strategy and carries the APY its
    adapter reports. *)
Lemma current_apys (w : World N) (a b c : N) :
  StrategyManager.get_current_apy w INITLooping = Ret a ->
  StrategyManager.get_current_apy w CircuitProtocol = Ret b ->
  StrategyManager.get_current_apy w MNTStaking = Ret c ->
  Forall (fun item =>
            exists s, lookup (fst item) StrategyManager.strategies = Some s /\
                      StrategyManager.get_current_apy w s = Ret (snd item))
    [("init_looping"%string, a); ("circuit_vault"%string, b);
     ("mnt_staking"%string, c)].
Proof.
  intros Ha Hb Hc. repeat constructor; cbn [fst snd];
    [exists INITLooping | exists CircuitProtocol | exists MNTStaking]; auto.
Qed.

(** What the loop is given: the three strategies, each once, every one
    with the APY its adapter reports, and none followed by one with a
    smaller APY. *)
Lemma strategies_by_apy_run (w : World N) :
  exists apys n1 n2 n3 s1 s2 s3 a1 a2 a3,
    read_strategy_apys w = Ret apys /\
    sorted snd apys = [(n1, a1); (n2, a2); (n3, a3)] /\
    (lookup n1 StrategyManager.strategies = Some s1 /\
     lookup n2 StrategyManager.strategies = Some s2 /\
     lookup n3 StrategyManager.strategies = Some s3) /\
    (StrategyManager.get_current_apy w s1 = Ret a1 /\
     StrategyManager.get_current_apy w s2 = Ret a2 /\
     StrategyManager.get_current_apy w s3 = Ret a3) /\
    Permutation [s1; s2; s3] [INITLooping; CircuitProtocol; MNTStaking] /\
    (a2 <? a1) = false /\ (a3 <? a2) = false.
Proof.
  destruct (read_strategy_apys_run w) as (a & b & c & Ha & Hb & Hc & Hapys).
  set (apys := [("init_looping"%string, a); ("circuit_vault"%string, b);
                ("mnt_staking"%string, c)]) in *.
  pose proof (sorted_permutation snd apys) as Hperm.
  pose proof (sorted_in_order snd apys) as Hord.
  pose proof (current_apys w Ha Hb Hc) as Hcur. fold apys in Hcur.
  apply (Permutation_Forall (Permutation_sym Hperm)) in Hcur.
  pose proof (Permutation_map
                (fun item : string * N => lookup (fst item) StrategyManager.strategies)
                Hperm) as Hadapters.
  pose proof (Permutation_length Hperm) as Hlen.
  destruct (sorted snd apys) as [|[n1 a1] [|[n2 a2] [|[n3 a3] [|]]]] eqn:Hsorted;
    try discriminate Hlen.
  inversion Hcur as [|? ? (s1 & Hs1 & Hc1) Hcur1]; subst.
  inversion Hcur1 as [|? ? (s2 & Hs2 & Hc2) Hcur2]; subst.
  inversion Hcur2 as [|? ? (s3 & Hs3 & Hc3) _]; subst.
  cbn [fst snd] in *.
  exists apys, n1, n2, n3, s1, s2, s3, a1, a2, a3.
  split; [exact Hapys|]. split; [exact Hsorted|].
  split; [auto|]. split; [auto|]. split.
  - cbn [map fst] in Hadapters. rewrite Hs1, Hs2, Hs3 in Hadapters.
    change (map (fun item : string * N => lookup (fst item) StrategyManager.strategies)
              apys)
      with (map Some [INITLooping; CircuitProtocol; MNTStaking]) in Hadapters.
    apply Permutation_map_inv in Hadapters as (l3 & Hl3 & Hperm3).
    destruct l3 as [|x1 [|x2 [|x3 [|]]]]; try discriminate Hl3.
    injection Hl3 as -> -> ->. now symmetry.
  - inversion Hord as [|? ? Hord1 Hhd1]; subst.
    inversion Hord1 as [|? ? _ Hhd2]; subst.
    inversion Hhd1; subst. inversion Hhd2; subst. auto.
Qed.

Lemma read_strategy_apys_registered (w : World N) (apys : list (string * N)) :
  read_strategy_apys w = Ret apys -> Forall registered apys.
Proof.
  destruct (read_strategy_apys_returns w) as (a & b & c & ->).
  intros [= <-]. repeat constructor; eexists; reflexivity.
Qed.

(** The top-up phase, once the balance has been read. *)
Lemma ensure_adequate_reserves_run
    (w : World N) (required_amount current_balance : N) (tr0 : list (Event N)) :
  MantleWeb3Manager.get_balance w "USDC" (FOMO_INSURANCE config) = Ret current_balance ->
  ((current_balance <? required_amount) = false ->
   _ensure_adequate_reserves w required_amount tr0 = (Ret None, tr0)) /\
  ((current_balance <? required_amount) = true ->
   let shortfall := required_amount - current_balance in
   exists a_init a_circuit a_mnt strategies_by_apy tr left,
     StrategyManager.get_current_apy w INITLooping = Ret a_init /\
     StrategyManager.get_current_apy w CircuitProtocol = Ret a_circuit /\
     StrategyManager.get_current_apy w MNTStaking = Ret a_mnt /\
     Permutation strategies_by_apy
       [("init_looping"%string, a_init); ("circuit_vault"%string, a_circuit);
        ("mnt_staking"%string, a_mnt)] /\
     Sorted (in_order snd) strategies_by_apy /\
     (is_num a_init = true -> is_num a_circuit = true -> is_num a_mnt = true ->
      Sorted (ascending snd) strategies_by_apy) /\
     topup w shortfall strategies_by_apy shortfall tr left /\
     _ensure_adequate_reserves w required_amount tr0 = (Ret (Some left), tr0 ++ tr)).
Proof.
  intros Hbalance. unfold _ensure_adequate_reserves, bindM, lift.
  rewrite Hbalance. split; [intros Hcmp; now rewrite Hcmp|].
  intros Hcmp. rewrite Hcmp.
  set (shortfall := required_amount - current_balance).
  destruct (read_strategy_apys_run w) as (a & b & c & Ha & Hb & Hc & Hapys).
  pose proof (read_strategy_apys_registered w Hapys) as Hreg.
  rewrite Hapys.
  set (apys := [("init_looping"%string, a); ("circuit_vault"%string, b);
                ("mnt_staking"%string, c)]) in *.
  assert (Hperm : Permutation (sorted snd apys) apys) by apply sorted_permutation.
  assert (Hreg' : Forall registered (sorted snd apys)).
  { now rewrite Hperm. }
  destruct (topup_loop_run w shortfall Hreg' shortfall tr0)
    as (tr & left & Htopup & Hrun).
  exists a, b, c, (sorted snd apys), tr, left.
  split; [exact Ha|]. split; [exact Hb|]. split; [exact Hc|].
  split; [exact Hperm|]. split; [apply sorted_in_order|].
  split; [|split; [exact Htopup|]].
  - intros Hna Hnb Hnc. apply sorted_ascending. repeat constructor; assumption.
  - rewrite Hrun. reflexivity.
Qed.

(** C5.  When the reserve balance is below the target, the three
    strategies are visited each at most once, in ascending order of the
    APY their adapters report at that moment: no strategy is followed by
    one with a smaller APY, and the order ascends whenever the APYs are
    numbers.  While a shortfall remains, a visit requests a withdrawal of
    [min(remaining_shortfall, shortfall * 0.5)], which is taken off the
    remaining shortfall when it succeeds and leaves it as it is when it
    fails; when the balance meets the target nothing is requested.  With
    a shortfall of 5000 and withdrawals that succeed, 2500 is withdrawn
    from the lowest-yielding strategy, 2500 from the middle one, and the
    highest-yielding one is not called: MNT staking then the circuit vault
    when the APYs are 4.5, 6.8 and 8.5, the circuit vault then the INIT
    loop when the feeds make these two the lowest. *)
Theorem reserve_top_up :
  (forall (w : World N) (required_amount current_balance : N) (tr0 : list (Event N)),
      MantleWeb3Manager.get_balance w "USDC" (FOMO_INSURANCE config)
      = Ret current_balance ->
      ((current_balance <? required_amount) = false ->
       _ensure_adequate_reserves w required_amount tr0 = (Ret None, tr0)) /\
      ((current_balance <? required_amount) = true ->
       let shortfall := required_amount - current_balance in
       exists a_init a_circuit a_mnt strategies_by_apy tr left,
         StrategyManager.get_current_apy w INITLooping = Ret a_init /\
         StrategyManager.get_current_apy w CircuitProtocol = Ret a_circuit /\
         StrategyManager.get_current_apy w MNTStaking = Ret a_mnt /\
         Permutation strategies_by_apy
           [("init_looping"%string, a_init); ("circuit_vault"%string, a_circuit);
            ("mnt_staking"%string, a_mnt)] /\
         Sorted (in_order snd) strategies_by_apy /\
         (is_num a_init = true -> is_num a_circuit = true -> is_num a_mnt = true ->
          Sorted (ascending snd) strategies_by_apy) /\
         topup w shortfall strategies_by_apy shortfall tr left /\
         _ensure_adequate_reserves w required_amount tr0
         = (Ret (Some left), tr0 ++ tr))) /\
  (let w : World float := feeds_down 0 0 in
   StrategyManager.get_current_apy w INITLooping = Ret (lit 8.5) /\
   StrategyManager.get_current_apy w CircuitProtocol = Ret (lit 6.8) /\
   StrategyManager.get_current_apy w MNTStaking = Ret (lit 4.5) /\
   _ensure_adequate_reserves w (lit 5000) []
   = (Ret (Some (lit 0)),
      [EvWithdraw MNTStaking (lit 2500); EvWithdraw CircuitProtocol (lit 2500)])) /\
  (let w : World float := live_yields 0 in
   StrategyManager.get_current_apy w INITLooping = Ret (lit 4.5) /\
   StrategyManager.get_current_apy w CircuitProtocol = Ret (lit 2 * lit 1.15) /\
   StrategyManager.get_current_apy w MNTStaking = Ret (lit 8.5) /\
   _ensure_adequate_reserves w (lit 5000) []
   = (Ret (Some (lit 0)),
      [EvWithdraw CircuitProtocol (lit 2500); EvWithdraw INITLooping (lit 2500)])).
Proof.
  split; [exact ensure_adequate_reserves_run|].
  split; repeat split; vm_compute; reflexivity.
Qed.
End TopUp.

(** A balance of 1000 USDC against a target of 5000, with feeds that
    answer. *)
Lemma reserve_top_up_witness :
  exists strategies_by_apy left tr,
    Sorted (ascending snd) strategies_by_apy /\
    topup (live_yields (10 ^ 9) : World float) (lit 5000 - lit 1000)%py
      strategies_by_apy (lit 5000 - lit 1000)%py tr left /\
    IntegratedMantleVaultAgent._ensure_adequate_reserves
      (live_yields (10 ^ 9) : World float) (lit 5000) []
    = (Ret (Some left), tr).
Proof.
  destruct (@reserve_top_up float _ _) as [Hrun _].
  assert (Hbalance :
            MantleWeb3Manager.get_balance (live_yields (10 ^ 9) : World float)
              "USDC" (FOMO_INSURANCE config) = Ret (lit 1000))
    by (vm_compute; reflexivity).
  destruct (Hrun (live_yields (10 ^ 9)) (lit 5000) (lit 1000) [] Hbalance)
    as [_ Hshort].
  assert (Hbelow : ((lit 1000 : float) <? lit 5000)%py = true)
    by (vm_compute; reflexivity).
  destruct (Hshort Hbelow)
    as (a & b & c & by_apy & tr & left & Ha & Hb & Hc & _ & _ & Hasc & Htopup & Hensure).
  exists by_apy, left, tr. split; [|split; [exact Htopup | exact Hensure]].
  assert (Hia : StrategyManager.get_current_apy (live_yields (10 ^ 9) : World float)
                  INITLooping = Ret (lit 4.5)) by (vm_compute; reflexivity).
  assert (Hib : StrategyManager.get_current_apy (live_yields (10 ^ 9) : World float)
                  CircuitProtocol = Ret (lit 2 * lit 1.15)%py) by (vm_compute; reflexivity).
  assert (Hic : StrategyManager.get_current_apy (live_yields (10 ^ 9) : World float)
                  MNTStaking = Ret (lit 8.5)) by (vm_compute; reflexivity).
  rewrite Ha in Hia. rewrite Hb in Hib. rewrite Hc in Hic.
  injection Hia as ->. injection Hib as ->. injection Hic as ->.
  apply Hasc; vm_compute; reflexivity.
Defined.

(** ** Withdrawn amounts *)

(** *** Doubles *)

Section Doubles.
Local Open Scope py_scope.

Lemma b64_zero : Prim2SF (lit 0 : float) = S754_zero false.
Proof. vm_compute. reflexivity. Qed.

(** A double above 0 is a positive finite number or the positive
    infinity. *)
Lemma b64_positive (x : float) :
  (lit 0 <? x) = true ->
  (exists m e, Prim2SF x = S754_finite false m e) \/ Prim2SF x = S754_infinity false.
Proof.
  cbn [ltb binary64]. rewrite ltb_spec, b64_zero. unfold SFltb.
  destruct (Prim2SF x) as [s|[]| |[] m e]; cbn; try discriminate; eauto.
Qed.

(** A double below another is not the positive infinity. *)
Lemma b64_below (x y : float) :
  (x <? y) = true -> Prim2SF x <> S754_infinity false.
Proof.
  cbn [ltb binary64]. rewrite ltb_spec. unfold SFltb. intros Hlt Hinf.
  rewrite Hinf in Hlt. destruct (Prim2SF y) as [s|[]| |s m e]; discriminate.
Qed.

(** A double that compares equal to a double above 0 is that double. *)
Lemma b64_eqb_eq (x y : float) :
  (lit 0 <? y) = true -> (x =? y) = true -> x = y.
Proof.
  intros Hpos. cbn [eqb binary64]. rewrite eqb_spec. unfold SFeqb. intros Heq.
  apply Prim2SF_inj.
  destruct (b64_positive Hpos) as [(m & e & Hy)|Hy]; rewrite Hy in *.
  - destruct (Prim2SF x) as [s|[]| |[] m' e']; cbn in Heq; try discriminate.
    destruct (Z.compare_spec e' e) as [He|_|_]; try discriminate.
    change (PosDef.Pos.compare_cont Eq m' m) with (Pos.compare m' m) in Heq.
    destruct (Pos.compare_spec m' m) as [Hm|_|_]; try discriminate.
    now subst.
  - destruct (Prim2SF x) as [s|[]| |[] m' e']; cbn in Heq; try discriminate.
    reflexivity.
Qed.


(** A finite double above 0, less itself, is 0. *)
Lemma b64_sub_diag (x y : float) :
  (lit 0 <? x) = true -> (x <? y) = true -> x - x = lit 0.
Proof.
  intros Hpos Hbelow. apply Prim2SF_inj. rewrite b64_zero.
  cbn [sub binary64]. rewrite sub_spec.
  destruct (b64_positive Hpos) as [(m & e & Hx)|Hx];
    [|now apply b64_below in Hbelow].
  rewrite Hx. unfold SF64sub, SFsub. cbn [negb Bool.eqb].
  rewrite Z.sub_diag. reflexivity.
Qed.


(** What is above a double above 0 is above 0. *)
Lemma b64_above_positive (x y : float) :
  (lit 0 <? x) = true -> (x <? y) = true -> (lit 0 <? y) = true.
Proof.
  intros Hpos. cbn [ltb binary64]. rewrite !ltb_spec, b64_zero. unfold SFltb.
  destruct (b64_positive Hpos) as [(m & e & ->)| ->];
    destruct (Prim2SF y) as [s|[]| |[] m' e']; cbn; try discriminate; reflexivity.
Qed.
(** *** Halving in the normal range *)












End Doubles.

(** *** A shortfall that halves exactly (binary64) *)

Section Halves.
Local Open Scope py_scope.
Variable w : World float.
Variable shortfall : float.
Hypothesis Hhalves : halves_exactly shortfall = true.

Lemma half_positive : (lit 0 <? shortfall * lit 0.5) = true.
Proof.
  unfold halves_exactly in Hhalves. cbn zeta in Hhalves.
  now apply andb_prop in Hhalves as [Hhalves _];
    apply andb_prop in Hhalves as [Hhalves _];
    apply andb_prop in Hhalves as [Hhalves _].
Qed.

Lemma half_below : (shortfall * lit 0.5 <? shortfall) = true.
Proof.
  unfold halves_exactly in Hhalves. cbn zeta in Hhalves.
  now apply andb_prop in Hhalves as [Hhalves _];
    apply andb_prop in Hhalves as [Hhalves _];
    apply andb_prop in Hhalves as [_ Hhalves].
Qed.

Lemma other_half : shortfall - shortfall * lit 0.5 = shortfall * lit 0.5.
Proof.
  apply b64_eqb_eq; [exact half_positive|].
  unfold halves_exactly in Hhalves. cbn zeta in Hhalves.
  now apply andb_prop in Hhalves as [Hhalves _];
    apply andb_prop in Hhalves as [_ Hhalves].
Qed.


Lemma shortfall_positive : (lit 0 <? shortfall) = true.
Proof. exact (b64_above_positive half_positive half_below). Qed.

Lemma nothing_left : shortfall * lit 0.5 - shortfall * lit 0.5 = lit 0.
Proof. exact (b64_sub_diag half_positive half_below). Qed.

Lemma shortfall_open : (shortfall <=? lit 0) = false.
Proof.
  destruct (shortfall <=? lit 0) eqn:Hle; [|reflexivity].
  apply leb_nltb in Hle. pose proof shortfall_positive as Hpos. congruence.
Qed.

Lemma half_open : (shortfall * lit 0.5 <=? lit 0) = false.
Proof.
  destruct (shortfall * lit 0.5 <=? lit 0) eqn:Hle; [|reflexivity].
  apply leb_nltb in Hle. pose proof half_positive as Hpos. congruence.
Qed.

Lemma zero_covered : ((lit 0 : float) <=? lit 0) = true.
Proof. vm_compute. reflexivity. Qed.

End Halves.

(** *** Exact rationals *)

Section Withdrawn.
Local Open Scope Q_scope.
Import IntegratedMantleVaultAgent.





End Withdrawn.



(** * Further properties *)

(** ** What the monitor reads *)

Section MonitorReads.
Context {N : Type} `{Num N}.
Import FOMOInsuranceMonitor.

Lemma policy_info_id (w : World N) (id : Z) (p : PolicyInfo N) :
  _get_policy_info w id = Ret (Some p) -> policy_id p = id.
Proof.
  unfold _get_policy_info.
  destruct (getPolicy w id) as [data|e]; cbn [bind try_except]; [|discriminate].
  destruct (itruediv (pd_amount data) _); cbn [bind try_except]; [|discriminate].
  destruct (itruediv (pd_payout_amount data) _); cbn [bind try_except]; [|discriminate].
  destruct (itruediv (pd_entry_price data) _); cbn [bind try_except]; [|discriminate].
  destruct (nth_error states (pd_state data)); cbn [bind try_except]; [|discriminate].
  now intros [= <-].
Qed.

(** A policy built by [_get_policy_info] carries the id it was asked for,
    one of the four state names, a buyer other than the zero address, and
    timestamps that are positive when present, so that its time to expiry
    is defined exactly when it has an expiry. *)
Theorem policy_info_is_well_formed (w : World N) (id : Z) (p : PolicyInfo N) :
  _get_policy_info w id = Ret (Some p) ->
  policy_id p = id /\
  In (state p) states /\
  buyer p <> Some zero_address /\
  (forall t, start_timestamp p = Some t -> (0 < t)%Z) /\
  (forall t, expiry_timestamp p = Some t -> (0 < t)%Z) /\
  (time_to_expiry w p = None <-> expiry_timestamp p = None).
Proof.
  unfold _get_policy_info.
  destruct (getPolicy w id) as [data|e]; cbn [bind try_except]; [|discriminate].
  destruct (itruediv (pd_amount data) _); cbn [bind try_except]; [|discriminate].
  destruct (itruediv (pd_payout_amount data) _); cbn [bind try_except]; [|discriminate].
  destruct (itruediv (pd_entry_price data) _); cbn [bind try_except]; [|discriminate].
  destruct (nth_error states (pd_state data)) as [s|] eqn:Hstate; cbn [bind try_except]; [|discriminate].
  intros [= <-]. unfold time_to_expiry.
  cbn [policy_id state buyer start_timestamp expiry_timestamp].
  repeat split.
  - exact (nth_error_In states (pd_state data) Hstate).
  - destruct (String.eqb_spec (pd_buyer data) zero_address); congruence.
  - intros t. destruct (Z.ltb_spec 0 (pd_start_timestamp data)); congruence.
  - intros t. destruct (Z.ltb_spec 0 (pd_expiry_timestamp data)); congruence.
  - destruct (Z.ltb_spec 0 (pd_expiry_timestamp data)) as [Hpos|]; [|reflexivity].
    destruct (Z.eqb_spec (pd_expiry_timestamp data) 0); [lia | discriminate].
  - destruct (Z.ltb_spec 0 (pd_expiry_timestamp data)) as [Hpos|]; [discriminate|].
    reflexivity.
Qed.

(** A policy whose on-chain state index is none of 0..3 is not built:
    the index error is caught and [None] comes back. *)
Theorem policy_with_unknown_state_is_dropped (w : World N) (id : Z) (data : PolicyData) :
  getPolicy w id = Ret data ->
  (4 <= pd_state data)%nat ->
  _get_policy_info w id = Ret None.
Proof.
  intros Hdata Hstate. unfold _get_policy_info. rewrite Hdata. cbn.
  assert (Hnth : nth_error states (pd_state data) = None)
    by (apply nth_error_None; exact Hstate).
  rewrite Hnth.
  destruct (itruediv (pd_amount data) _); cbn; [|reflexivity].
  destruct (itruediv (pd_payout_amount data) _); cbn; [|reflexivity].
  destruct (itruediv (pd_entry_price data) _); reflexivity.
Qed.

Lemma collect_open_policies_ids (w : World N) (ids : list Z) :
  forall acc policies,
    collect_open_policies w ids acc = Ret policies ->
    map (@policy_id N) policies = map (@policy_id N) acc ++ filter (readable w) ids.
Proof.
  induction ids as [|id ids IH]; intros acc policies; cbn [collect_open_policies filter].
  - intros [= <-]. now rewrite app_nil_r.
  - unfold readable at 1.
    destruct (_get_policy_info w id) as [[p|]|e] eqn:Hinfo; cbn [bind].
    + intros Hrest. rewrite (IH _ _ Hrest), map_app, <- app_assoc. cbn.
      now rewrite (policy_info_id w id Hinfo).
    + apply IH.
    + discriminate.
Qed.

(** The snapshot the monitor returns, whatever the chain does. *)
Lemma get_protocol_snapshot_run (w : World N) :
  exists policies liquidity,
    collect_open_policies w
      (match getOpenPolicyIds w with Ret ids => ids | Raise _ => [] end) []
    = Ret policies /\
    _get_available_liquidity w = Ret liquidity /\
    get_protocol_snapshot w
    = Ret {| total_policies := List.length policies + 0;
             active_policies := [];
             open_policies := policies;
             total_reserves_required := lit 0;
             available_liquidity := liquidity;
             pending_settlements := [];
             timestamp := now w |}.
Proof.
  unfold get_protocol_snapshot, _get_open_policy_ids.
  destruct (collect_open_policies_returns w
              (match getOpenPolicyIds w with Ret ids => ids | Raise _ => [] end) [])
    as [policies Hpolicies].
  destruct (try_except_returns
              (bind (balanceOf w (MOCK_USDC config) (FOMO_INSURANCE config))
                 (fun balance_wei => itruediv balance_wei (10 ^ 6)))
              (lit 0)) as [liquidity Hliquidity].
  exists policies, liquidity. split; [exact Hpolicies|].
  split; [exact Hliquidity|].
  unfold _get_available_liquidity. 
  destruct (getOpenPolicyIds w) as [ids|e]; cbn [try_except bind];
    rewrite Hpolicies; cbn [bind]; unfold _get_available_liquidity in Hliquidity;
    rewrite Hliquidity; reflexivity.
Qed.

(** The monitor's snapshot never reports an active policy, a pending
    settlement or a required reserve; its open policies are those of the
    chain's list that can be read, in the order of the list, and
    [total_policies] counts them. *)
Theorem snapshot_has_open_policies_only (w : World N) :
  exists snapshot,
    get_protocol_snapshot w = Ret snapshot /\
    active_policies snapshot = [] /\
    pending_settlements snapshot = [] /\
    total_reserves_required snapshot = lit 0 /\
    total_policies snapshot = List.length (open_policies snapshot) /\
    (forall ids,
        getOpenPolicyIds w = Ret ids ->
        map (@policy_id N) (open_policies snapshot) = filter (readable w) ids) /\
    (raises (getOpenPolicyIds w) = true -> open_policies snapshot = []).
Proof.
  destruct (get_protocol_snapshot_run w) as (policies & liquidity & Hcollect & _ & ->).
  eexists. split; [reflexivity|]. cbn.
  repeat split.
  - apply Nat.add_0_r.
  - intros ids Hids. rewrite Hids in Hcollect.
    now rewrite (collect_open_policies_ids _ _ _ Hcollect).
  - intros Hraise. destruct (getOpenPolicyIds w); [discriminate|].
    cbn in Hcollect. congruence.
Qed.
End MonitorReads.

Lemma policy_info_is_well_formed_witness :
  exists p : PolicyInfo float,
    FOMOInsuranceMonitor._get_policy_info (two_listed_policies 0) 1 = Ret (Some p) /\
    policy_id p = 1%Z /\
    In (state p) FOMOInsuranceMonitor.states /\
    buyer p <> Some FOMOInsuranceMonitor.zero_address.
Proof.
  destruct (FOMOInsuranceMonitor._get_policy_info
              (two_listed_policies 0 : World float) 1) as [[p|]|e] eqn:Hinfo;
    try (vm_compute in Hinfo; discriminate).
  exists p. split; [reflexivity|].
  destruct (policy_info_is_well_formed (two_listed_policies 0) 1 Hinfo)
    as (Hid & Hstate & Hbuyer & _).
  auto.
Defined.

Lemma policy_with_unknown_state_is_dropped_witness :
  FOMOInsuranceMonitor._get_policy_info (two_listed_policies 0 : World float) 2
  = Ret None.
Proof.
  apply (policy_with_unknown_state_is_dropped (two_listed_policies 0 : World float) 2
           (data := policy_data 7)).
  - reflexivity.
  - cbn. lia.
Defined.


(** ** Plans made from the monitor's snapshot (binary64) *)

Section MonitorPlans.
Local Open Scope py_scope.
Import IntegratedMantleVaultAgent.

(** Zero over a positive liquidity is zero, and below any positive
    target. *)
Lemma zero_ratio_is_below (target liquidity : float) :
  (lit 0 <? target) = true ->
  ((if liquidity >? lit 0 then div (lit 0 + lit 0 * lit 0.2) liquidity else lit 0)
   <? target) = true.
Proof.
  intros Htarget.
  destruct (liquidity >? lit 0) eqn:Hpos; [|exact Htarget].
  cbn [ltb lit div add mul binary64] in *.
  rewrite ltb_spec in *. rewrite div_spec.
  replace (Prim2SF (b64_lit 0 + b64_lit 0 * b64_lit 0.2)%float)
    with (S754_zero false) by (vm_compute; reflexivity).
  replace (Prim2SF (b64_lit 0)) with (S754_zero false) in *
    by (vm_compute; reflexivity).
  destruct (Prim2SF liquidity) as [s|s| |s m e]; try discriminate;
    destruct s; try discriminate; exact Htarget.
Qed.

(** The monitor's snapshot and the plan made from it. *)
Lemma monitor_plan (self : Agent float) (w : World float) :
  (lit 0 <? reserve_ratio self) = true ->
  exists snapshot plan,
    FOMOInsuranceMonitor.get_protocol_snapshot w = Ret snapshot /\
    _calculate_integrated_allocation self w snapshot = Ret plan /\
    (current_reserve_ratio plan <? reserve_ratio self) = true /\
    should_rebalance plan = true /\
    hd_error (reasons plan) = Some InsufficientReserves /\
    required_reserves plan = lit 0 /\
    upcoming_expirations plan = 0%nat.
Proof.
  intros Htarget.
  destruct (get_protocol_snapshot_run w) as (policies & liquidity & _ & _ & Hsnap).
  set (snapshot := Build_ProtocolSnapshot _ _ _ _ _ _ _) in Hsnap.
  destruct (plan_allocation_returns
              (py_max2 (lit 0)
                 (available_liquidity snapshot
                  - (total_reserves_required snapshot
                     + total_reserves_required snapshot * lit 0.2)))
              (List.length (active_policies snapshot))) as (x & y & z & Halloc).
  destruct (calculate_returns self w snapshot Halloc)
    as (apys & hi & lo & _ & _ & _ & Hcalc).
  exists snapshot. eexists. split; [exact Hsnap|]. split; [exact Hcalc|].
  cbn [should_rebalance reasons required_reserves upcoming_expirations
       current_reserve_ratio
       snapshot available_liquidity total_reserves_required active_policies
       filter List.length].
  rewrite (zero_ratio_is_below liquidity Htarget).
  repeat split.
Qed.

(** Every plan the agent makes from the monitor's own snapshot asks for a
    rebalance, and names insufficient reserves first: the snapshot carries
    no required reserve, so the reserve ratio is 0, below any positive
    target. *)
Theorem monitor_plan_always_rebalances (self : Agent float) (w : World float) :
  (lit 0 <? reserve_ratio self) = true ->
  exists snapshot plan,
    FOMOInsuranceMonitor.get_protocol_snapshot w = Ret snapshot /\
    _calculate_integrated_allocation self w snapshot = Ret plan /\
    should_rebalance plan = true /\
    hd_error (reasons plan) = Some InsufficientReserves /\
    required_reserves plan = lit 0 /\
    upcoming_expirations plan = 0%nat.
Proof.
  intros Htarget.
  destruct (monitor_plan self w Htarget)
    as (snapshot & plan & Hsnap & Hplan & _ & Hrest).
  exists snapshot, plan. auto.
Qed.

Lemma monitor_plan_always_rebalances_default :
  exists snapshot (plan : AllocationPlan float),
    FOMOInsuranceMonitor.get_protocol_snapshot (feeds_down (10 ^ 9) 0) = Ret snapshot /\
    _calculate_integrated_allocation init (feeds_down (10 ^ 9) 0) snapshot = Ret plan /\
    should_rebalance plan = true.
Proof.
  destruct (monitor_plan_always_rebalances init (feeds_down (10 ^ 9) 0))
    as (snapshot & plan & Hsnap & Hplan & Hgo & _).
  - vm_compute. reflexivity.
  - exists snapshot, plan. auto.
Defined.
End MonitorPlans.

(** ** Executing a plan *)

Section ExecutingAPlan.
Context {N : Type} `{NumLaws N}.
Local Open Scope py_scope.
Import IntegratedMantleVaultAgent IntegratedAgent.

Lemma deploy_allocation_run (w : World N) (deployable : N) (items : list (string * N)) :
  forall tr,
    deploy_allocation w deployable items tr
    = (Ret tt, tr ++ allocation_deposits deployable items).
Proof.
  induction items as [|[strategy_name allocation_pct] items IH]; intros tr.
  - cbn. unfold ret. now rewrite app_nil_r.
  - cbn [deploy_allocation allocation_deposits flat_map fst snd].
    destruct (allocation_pct >? lit 0); [|apply IH].
    unfold bindM, StrategyManager.deploy_to_strategy.
    destruct (lookup strategy_name StrategyManager.strategies) as [s|].
    + destruct (deposit_run w s (div (deployable * allocation_pct) (lit 100)) tr)
        as [result ->].
      rewrite IH. now rewrite <- app_assoc.
    + unfold ret. apply IH.
Qed.

Lemma allocation_deposits_are_deposits (deployable : N) (items : list (string * N)) :
  Forall is_deposit (allocation_deposits deployable items).
Proof.
  induction items as [|[strategy_name allocation_pct] items IH];
    cbn [allocation_deposits flat_map fst snd]; [constructor|].
  fold (allocation_deposits deployable items).
  destruct (allocation_pct >? lit 0); [|exact IH].
  destruct (lookup strategy_name StrategyManager.strategies); [|exact IH].
  constructor; [exact I | exact IH].
Qed.

Lemma topup_withdraws (w : World N) (shortfall : N) items remaining tr left :
  topup w shortfall items remaining tr left -> Forall is_withdraw tr.
Proof.
  induction 1; repeat constructor; assumption.
Qed.

(** What [_execute_integrated_rebalance] does, by the outcome of the
    balance read that opens its first phase. *)
Lemma execute_integrated_rebalance_run
    (w : World N) (plan : AllocationPlan N) (stamp : Z) (tr0 : list (Event N)) :
  match MantleWeb3Manager.get_balance w "USDC" (FOMO_INSURANCE config) with
  | Raise _ => _execute_integrated_rebalance w plan stamp tr0 = (Ret stamp, tr0)
  | Ret _ =>
      exists withdrawals,
        Forall is_withdraw withdrawals /\
        _execute_integrated_rebalance w plan stamp tr0
        = (Ret (now w),
           tr0 ++ withdrawals
           ++ (if deployable_funds plan >? lit 0
               then allocation_deposits (deployable_funds plan)
                      (optimal_allocation plan)
               else []))
  end.
Proof.
  destruct (MantleWeb3Manager.get_balance w "USDC" (FOMO_INSURANCE config))
    as [balance|e] eqn:Hbalance.
  - destruct (ensure_adequate_reserves_run w
                (required_reserves plan + safety_buffer plan) tr0 Hbalance)
      as [Hmet Hshort].
    unfold _execute_integrated_rebalance, try_exceptM, bindM.
    destruct (balance <? required_reserves plan + safety_buffer plan).
    + destruct (Hshort eq_refl)
        as (a & b & c & by_apy & tr & left & _ & _ & _ & _ & _ & _ & Htopup & ->).
      exists tr. split; [exact (topup_withdraws Htopup)|].
      destruct (deployable_funds plan >? lit 0).
      * rewrite deploy_allocation_run. unfold ret. now rewrite app_assoc.
      * unfold ret. now rewrite app_nil_r.
    + rewrite (Hmet eq_refl). exists []. split; [constructor|].
      destruct (deployable_funds plan >? lit 0).
      * now rewrite deploy_allocation_run.
      * unfold ret. now rewrite app_nil_r.
  - unfold _execute_integrated_rebalance, try_exceptM, bindM,
      _ensure_adequate_reserves, bindM, lift.
    now rewrite Hbalance.
Qed.

Lemma integrated_rebalance_returns
    (w : World N) (plan : AllocationPlan N) (stamp : Z) (tr0 : list (Event N)) :
  exists stamp' tr,
    _execute_integrated_rebalance w plan stamp tr0 = (Ret stamp', tr).
Proof.
  pose proof (execute_integrated_rebalance_run w plan stamp tr0) as Hrun.
  destruct (MantleWeb3Manager.get_balance w "USDC" (FOMO_INSURANCE config)).
  - destruct Hrun as (withdrawals & _ & ->). eauto.
  - rewrite Hrun. eauto.
Qed.

(** [_execute_integrated_rebalance] raises nothing, and every withdrawal
    it requests comes before every deposit it requests. *)
Theorem rebalance_withdraws_before_it_deposits
    (w : World N) (plan : AllocationPlan N) (stamp : Z) (tr0 : list (Event N)) :
  exists stamp' withdrawals deposits,
    _execute_integrated_rebalance w plan stamp tr0
    = (Ret stamp', tr0 ++ withdrawals ++ deposits) /\
    Forall is_withdraw withdrawals /\
    Forall is_deposit deposits.
Proof.
  pose proof (execute_integrated_rebalance_run w plan stamp tr0) as Hrun.
  destruct (MantleWeb3Manager.get_balance w "USDC" (FOMO_INSURANCE config)).
  - destruct Hrun as (withdrawals & Hw & ->).
    eexists _, withdrawals, _. split; [reflexivity|]. split; [exact Hw|].
    destruct (deployable_funds plan >? lit 0);
      [apply allocation_deposits_are_deposits | constructor].
  - exists stamp, [], []. rewrite Hrun, app_nil_r. repeat constructor.
Qed.

(** When the balance cannot be read, the rebalance is given up whole: no
    adapter is called, not even for the deposits, and [last_rebalance]
    keeps its value.  When it can, [last_rebalance] becomes the current
    time and, whatever the outcome of each withdrawal and deposit, a
    deposit of [deployable_funds * pct / 100] is requested for every
    registered strategy with [pct > 0], provided [deployable_funds > 0]. *)
Theorem rebalance_depends_on_the_balance_read
    (w : World N) (plan : AllocationPlan N) (stamp : Z) (tr0 : list (Event N)) :
  (raises (MantleWeb3Manager.get_balance w "USDC" (FOMO_INSURANCE config)) = true ->
   _execute_integrated_rebalance w plan stamp tr0 = (Ret stamp, tr0)) /\
  (raises (MantleWeb3Manager.get_balance w "USDC" (FOMO_INSURANCE config)) = false ->
   exists withdrawals,
     Forall is_withdraw withdrawals /\
     _execute_integrated_rebalance w plan stamp tr0
     = (Ret (now w),
        tr0 ++ withdrawals
        ++ (if deployable_funds plan >? lit 0
            then allocation_deposits (deployable_funds plan) (optimal_allocation plan)
            else []))).
Proof.
  pose proof (execute_integrated_rebalance_run w plan stamp tr0) as Hrun.
  destruct (MantleWeb3Manager.get_balance w "USDC" (FOMO_INSURANCE config));
    split; (discriminate || intros _; exact Hrun).
Qed.
End ExecutingAPlan.

Lemma rebalance_withdraws_before_it_deposits_witness :
  exists stamp' withdrawals deposits,
    IntegratedAgent._execute_integrated_rebalance (feeds_down (10 ^ 9) 7 : World float)
      {| should_rebalance := true; reasons := [];
         total_funds := lit 1000; required_reserves := lit 1500;
         safety_buffer := lit 300; deployable_funds := lit 200;
         current_reserve_ratio := lit 1.8; strategy_apys := [];
         optimal_allocation := [("init_looping"%string, lit 100)];
         upcoming_expirations := 0 |} 3 []
    = (Ret stamp', [] ++ withdrawals ++ deposits) /\
    Forall is_withdraw withdrawals /\
    Forall is_deposit deposits.
Proof.
  apply (@rebalance_withdraws_before_it_deposits float _ _).
Defined.

Lemma rebalance_depends_on_the_balance_read_witness :
  IntegratedAgent._execute_integrated_rebalance (chain_down 7 : World float)
    {| should_rebalance := true; reasons := [];
       total_funds := lit 1000; required_reserves := lit 100;
       safety_buffer := lit 20; deployable_funds := lit 880;
       current_reserve_ratio := lit 0.12; strategy_apys := [];
       optimal_allocation := [("init_looping"%string, lit 100)];
       upcoming_expirations := 0 |} 3 []
  = (Ret 3%Z, []).
Proof.
  apply (rebalance_depends_on_the_balance_read (chain_down 7 : World float)).
  reflexivity.
Defined.

(** ** The top-up phase at its two ends *)

Section AllComplete.
Local Open Scope py_scope.
Import IntegratedMantleVaultAgent.

(** In binary64, when the balance is short by a shortfall that halves
    exactly and every withdrawal completes, the top-up withdraws half the
    shortfall from each of the two strategies whose adapters report the
    lowest APYs, does not call the third, and leaves nothing to cover. *)
Theorem top_up_when_withdrawals_complete
    (w : World float) (required_amount current_balance : float)
    (tr0 : list (Event float)) :
  MantleWeb3Manager.get_balance w "USDC" (FOMO_INSURANCE config)
  = Ret current_balance ->
  (current_balance <? required_amount) = true ->
  halves_exactly (required_amount - current_balance) = true ->
  withdrawals_complete w ->
  exists s1 s2 s3 a1 a2 a3,
    Permutation [s1; s2; s3] [INITLooping; CircuitProtocol; MNTStaking] /\
    StrategyManager.get_current_apy w s1 = Ret a1 /\
    StrategyManager.get_current_apy w s2 = Ret a2 /\
    StrategyManager.get_current_apy w s3 = Ret a3 /\
    (a2 <? a1) = false /\ (a3 <? a2) = false /\
    _ensure_adequate_reserves w required_amount tr0
    = (Ret (Some (lit 0)),
       tr0 ++ [EvWithdraw s1 ((required_amount - current_balance) * lit 0.5);
               EvWithdraw s2 ((required_amount - current_balance) * lit 0.5)]).
Proof.
  intros Hbalance Hbelow Hhalves Hcomplete.
  destruct (strategies_by_apy_run w)
    as (apys & n1 & n2 & n3 & s1 & s2 & s3 & a1 & a2 & a3
        & Hapys & Hsorted & (Hs1 & Hs2 & Hs3) & (Hc1 & Hc2 & Hc3)
        & Hperm & H12 & H23).
  exists s1, s2, s3, a1, a2, a3.
  split; [exact Hperm|]. split; [exact Hc1|]. split; [exact Hc2|].
  split; [exact Hc3|]. split; [exact H12|]. split; [exact H23|].
  unfold _ensure_adequate_reserves, bindM, lift.
  rewrite Hbalance, Hbelow, Hapys, Hsorted.
  set (shortfall := required_amount - current_balance) in *.
  set (half := shortfall * lit 0.5).
  rewrite py_for_cons, topup_body_run with (s := s1) by exact Hs1.
  fold half.
  assert (Hfirst : py_min2 shortfall half = half)
    by (unfold py_min2, half; now rewrite (@half_below shortfall Hhalves)).
  assert (Hsecond : py_min2 half half = half)
    by (unfold py_min2; destruct (half <? half); reflexivity).
  assert (Hother : shortfall - half = half)
    by exact (@other_half shortfall Hhalves).
  assert (Hnone : half - half = lit 0)
    by exact (@nothing_left shortfall Hhalves).
  assert (Hopen : (half <=? lit 0) = false)
    by exact (@half_open shortfall Hhalves).
  rewrite (@shortfall_open shortfall Hhalves), Hfirst, (Hcomplete s1 half).
  cbn [raises]. rewrite Hother.
  rewrite py_for_cons, topup_body_run with (s := s2) by exact Hs2.
  fold half.
  rewrite Hopen, Hsecond, (Hcomplete s2 half).
  cbn [raises]. rewrite Hnone.
  rewrite py_for_cons, topup_body_run with (s := s3) by exact Hs3.
  rewrite zero_covered. unfold ret. now rewrite <- app_assoc.
Qed.
End AllComplete.

Section AllFail.
Context {N : Type} `{NumLaws N}.
Local Open Scope py_scope.
Import IntegratedMantleVaultAgent.

(** When the balance is short and every withdrawal fails, each of the
    three strategies is asked once, in ascending order of the APYs their
    adapters report, for the smaller of the shortfall and its half;
    nothing is withdrawn and the whole shortfall is left. *)
Theorem top_up_when_withdrawals_fail
    (w : World N) (required_amount current_balance : N) (tr0 : list (Event N)) :
  MantleWeb3Manager.get_balance w "USDC" (FOMO_INSURANCE config)
  = Ret current_balance ->
  (current_balance <? required_amount) = true ->
  (required_amount - current_balance <=? lit 0) = false ->
  withdrawals_fail w ->
  exists s1 s2 s3 a1 a2 a3 amount,
    Permutation [s1; s2; s3] [INITLooping; CircuitProtocol; MNTStaking] /\
    StrategyManager.get_current_apy w s1 = Ret a1 /\
    StrategyManager.get_current_apy w s2 = Ret a2 /\
    StrategyManager.get_current_apy w s3 = Ret a3 /\
    (a2 <? a1) = false /\ (a3 <? a2) = false /\
    amount = (if (required_amount - current_balance) * lit 0.5
                 <? required_amount - current_balance
              then (required_amount - current_balance) * lit 0.5
              else required_amount - current_balance) /\
    _ensure_adequate_reserves w required_amount tr0
    = (Ret (Some (required_amount - current_balance)),
       tr0 ++ [EvWithdraw s1 amount; EvWithdraw s2 amount; EvWithdraw s3 amount]) /\
    withdrawn w [EvWithdraw s1 amount; EvWithdraw s2 amount; EvWithdraw s3 amount]
    = [].
Proof.
  intros Hbalance Hbelow Hopen Hfail.
  destruct (strategies_by_apy_run w)
    as (apys & n1 & n2 & n3 & s1 & s2 & s3 & a1 & a2 & a3
        & Hapys & Hsorted & (Hs1 & Hs2 & Hs3) & (Hc1 & Hc2 & Hc3)
        & Hperm & H12 & H23).
  set (shortfall := required_amount - current_balance) in *.
  set (amount := if shortfall * lit 0.5 <? shortfall then shortfall * lit 0.5
                 else shortfall).
  exists s1, s2, s3, a1, a2, a3, amount.
  split; [exact Hperm|]. split; [exact Hc1|]. split; [exact Hc2|].
  split; [exact Hc3|]. split; [exact H12|]. split; [exact H23|].
  split; [reflexivity|]. split.
  - unfold _ensure_adequate_reserves, bindM, lift.
    rewrite Hbalance, Hbelow, Hapys, Hsorted. fold shortfall.
    rewrite py_for_cons, topup_body_run with (s := s1) by exact Hs1.
    change (py_min2 shortfall (shortfall * lit 0.5)) with amount.
    rewrite Hopen, (Hfail s1 amount).
    rewrite py_for_cons, topup_body_run with (s := s2) by exact Hs2.
    change (py_min2 shortfall (shortfall * lit 0.5)) with amount.
    rewrite Hopen, (Hfail s2 amount).
    rewrite py_for_cons, topup_body_run with (s := s3) by exact Hs3.
    change (py_min2 shortfall (shortfall * lit 0.5)) with amount.
    rewrite Hopen, (Hfail s3 amount).
    cbn [py_for]. unfold ret. now rewrite <- !app_assoc.
  - cbn [withdrawn flat_map].
    rewrite (Hfail s1 amount), (Hfail s2 amount), (Hfail s3 amount).
    reflexivity.
Qed.
End AllFail.

Lemma top_up_when_withdrawals_complete_witness :
  exists s1 s2,
    IntegratedMantleVaultAgent._ensure_adequate_reserves
      (live_yields (10 ^ 9) : World float) (lit 5000) []
    = (Ret (Some (lit 0)), [EvWithdraw s1 (lit 2000); EvWithdraw s2 (lit 2000)]).
Proof.
  assert (Hhalf : ((lit 5000 - lit 1000) * lit 0.5)%py = (lit 2000 : float))
    by (vm_compute; reflexivity).
  destruct (@top_up_when_withdrawals_complete (live_yields (10 ^ 9)) (lit 5000)
              (lit 1000) [])
    as (s1 & s2 & s3 & a1 & a2 & a3 & _ & _ & _ & _ & _ & _ & Hrun).
  - vm_compute. reflexivity.
  - vm_compute. reflexivity.
  - vm_compute. reflexivity.
  - intros s amount. reflexivity.
  - exists s1, s2. rewrite Hrun, Hhalf. reflexivity.
Defined.

Lemma top_up_when_withdrawals_fail_witness :
  exists s1 s2 s3,
    IntegratedMantleVaultAgent._ensure_adequate_reserves
      (withdrawals_down (10 ^ 9) : World float) (lit 5000) []
    = (Ret (Some (lit 5000 - lit 1000)%py),
       [EvWithdraw s1 (lit 2000); EvWithdraw s2 (lit 2000);
        EvWithdraw s3 (lit 2000)]).
Proof.
  destruct (@top_up_when_withdrawals_fail float _ _ (withdrawals_down (10 ^ 9))
              (lit 5000) (lit 1000) [])
    as (s1 & s2 & s3 & a1 & a2 & a3 & amount & _ & _ & _ & _ & _ & _
        & Hamount & Hrun & _).
  - vm_compute. reflexivity.
  - vm_compute. reflexivity.
  - vm_compute. reflexivity.
  - intros s amount. reflexivity.
  - exists s1, s2, s3. rewrite Hrun, Hamount.
    assert (Hhalf : (if (lit 5000 - lit 1000) * lit 0.5 <? lit 5000 - lit 1000
                     then (lit 5000 - lit 1000) * lit 0.5
                     else lit 5000 - lit 1000)%py = (lit 2000 : float))
      by (vm_compute; reflexivity).
    rewrite Hhalf. reflexivity.
Defined.

(** ** The monitoring loop and the policy events *)

Section Loop.
Import IntegratedMantleVaultAgent IntegratedAgent.

(** The continuous mode does nothing once the agent is built: a fresh
    agent has [running] unset, and the loop, which never sets it, ends
    before its first cycle, with no read, no adapter call and no sleep. *)
Theorem fresh_agent_never_cycles {N : Type} `{Num N}
    (fuel : nat) (self : Agent N) (outside : nat -> World N) (stops : nat -> bool)
    (tr : list (Event N)) :
  run_continuous fuel self outside stops tr
  = (Ret (Some (init_state (outside O), [])), tr).
Proof. destruct fuel; reflexivity. Qed.

(** On binary64 a cycle never takes the 60 second back-off: it stores a
    snapshot and sleeps the configured period. *)
Lemma monitoring_cycle_run (self : Agent float) (w : World float)
    (st : AgentState float) (tr : list (Event float)) :
  exists st' tr',
    monitoring_cycle self w st tr
    = (Ret (st', (DELTA_T_HOURS (agent_config self) * 3600)%Z), tr') /\
    running st' = running st /\
    last_protocol_snapshot st' <> None.
Proof.
  unfold monitoring_cycle.
  destruct (get_protocol_snapshot_run w) as (policies & liquidity & _ & _ & ->).
  set (snapshot := Build_ProtocolSnapshot _ _ _ _ _ _ _).
  destruct (plan_allocation_returns
              (py_max2 (lit 0)
                 (available_liquidity snapshot
                  - (total_reserves_required snapshot
                     + total_reserves_required snapshot * lit 0.2))%py)
              (List.length (active_policies snapshot))) as (x & y & z & Halloc).
  destruct (calculate_returns self w snapshot Halloc)
    as (apys & hi & lo & _ & _ & _ & ->).
  set (plan := Build_AllocationPlan _ _ _ _ _ _ _ _ _ _).
  destruct (should_rebalance plan).
  - match goal with
    | |- context [_execute_integrated_rebalance w plan ?lr tr] =>
        destruct (integrated_rebalance_returns w plan lr tr)
          as (stamp & tr' & ->)
    end.
    eexists _, _. split; [reflexivity|]. split; [reflexivity | discriminate].
  - eexists _, _. split; [reflexivity|]. split; [reflexivity | discriminate].
Qed.

Lemma loop_from (self : Agent float) (outside : nat -> World float)
    (stops : nat -> bool) (k : nat) :
  forall (fuel c : nat) (st : AgentState float) (sleeps : list Z)
         (tr : list (Event float)),
    running st = true ->
    (forall j, (j < k)%nat -> stops (c + j)%nat = false) ->
    stops (c + k)%nat = true ->
    (k < fuel)%nat ->
    exists st' tr',
      enhanced_monitoring_loop fuel self outside stops c st sleeps tr
      = (Ret (Some (st', sleeps
                         ++ repeat (DELTA_T_HOURS (agent_config self) * 3600)%Z (S k))),
         tr') /\
      running st' = false /\
      last_protocol_snapshot st' <> None.
Proof.
  induction k as [|k IH]; intros fuel c st sleeps tr Hrun Hbefore Hstop Hfuel.
  - destruct fuel as [|fuel]; [lia|].
    cbn [enhanced_monitoring_loop]. rewrite Hrun. unfold bindM.
    destruct (monitoring_cycle_run self (outside c) st tr)
      as (st1 & tr1 & -> & Hrun1 & Hsnap1).
    cbn [fst snd]. rewrite Nat.add_0_r in Hstop. rewrite Hstop.
    destruct fuel; cbn [enhanced_monitoring_loop stop_monitoring running];
      eexists _, _; (split; [reflexivity|]); split; auto.
  - destruct fuel as [|fuel]; [lia|].
    cbn [enhanced_monitoring_loop]. rewrite Hrun. unfold bindM.
    destruct (monitoring_cycle_run self (outside c) st tr)
      as (st1 & tr1 & -> & Hrun1 & Hsnap1).
    cbn [fst snd].
    assert (H0 : stops c = false)
      by (rewrite <- (Nat.add_0_r c); apply Hbefore; lia).
    rewrite H0.
    destruct (IH fuel (S c) st1
                (sleeps ++ [(DELTA_T_HOURS (agent_config self) * 3600)%Z]) tr1)
      as (st' & tr' & Hloop & Hdone).
    + congruence.
    + intros j Hj. replace (S c + j)%nat with (c + S j)%nat by lia.
      apply Hbefore. lia.
    + replace (S c + k)%nat with (c + S k)%nat by lia. exact Hstop.
    + lia.
    + exists st', tr'. split; [|exact Hdone].
      rewrite Hloop, <- app_assoc. reflexivity.
Qed.

Lemma loop_goes_on (self : Agent float) (outside : nat -> World float)
    (stops : nat -> bool) :
  (forall j, stops j = false) ->
  forall (fuel c : nat) (st : AgentState float) (sleeps : list Z)
         (tr : list (Event float)),
    running st = true ->
    exists tr',
      enhanced_monitoring_loop fuel self outside stops c st sleeps tr
      = (Ret None, tr').
Proof.
  intros Hnever. induction fuel as [|fuel IH]; intros c st sleeps tr Hrun.
  - cbn [enhanced_monitoring_loop]. rewrite Hrun. eexists. reflexivity.
  - cbn [enhanced_monitoring_loop]. rewrite Hrun. unfold bindM.
    destruct (monitoring_cycle_run self (outside c) st tr)
      as (st1 & tr1 & -> & Hrun1 & _).
    cbn [fst snd]. rewrite Hnever.
    apply IH. congruence.
Qed.

(** A running agent stops only when it is told to, and then only after the
    cycle in progress: told during cycle [k], the loop ends after exactly
    [k + 1] cycles, each followed by a sleep of [DELTA_T_HOURS * 3600]
    seconds (the 60 second back-off is never taken), and a snapshot is
    stored. *)
Theorem loop_stops_after_the_cycle_in_progress
    (self : Agent float) (outside : nat -> World float) (stops : nat -> bool)
    (st : AgentState float) (k fuel : nat) (tr : list (Event float)) :
  running st = true ->
  (forall j, (j < k)%nat -> stops j = false) ->
  stops k = true ->
  (k < fuel)%nat ->
  exists st' tr',
    enhanced_monitoring_loop fuel self outside stops 0 st [] tr
    = (Ret (Some (st', repeat (DELTA_T_HOURS (agent_config self) * 3600)%Z (S k))),
       tr') /\
    running st' = false /\
    last_protocol_snapshot st' <> None.
Proof.
  intros Hrun Hbefore Hstop Hfuel.
  apply (@loop_from self outside stops k fuel 0%nat st [] tr); auto.
Qed.

(** Left alone, a running agent never leaves the loop: whatever the chain
    and the feeds answer, no number of cycles ends it. *)
Theorem loop_never_stops_on_its_own
    (self : Agent float) (outside : nat -> World float)
    (st : AgentState float) (fuel : nat) (tr : list (Event float)) :
  running st = true ->
  exists tr',
    enhanced_monitoring_loop fuel self outside (fun _ => false) 0 st [] tr
    = (Ret None, tr').
Proof.
  intros Hrun.
  apply (@loop_goes_on self outside (fun _ => false)); auto.
Qed.

Lemma loop_stops_after_the_cycle_in_progress_witness :
  exists (st' : AgentState float) tr',
    enhanced_monitoring_loop 5 init (fun _ => feeds_down (10 ^ 9) 0)
      (fun c => Nat.eqb c 1) 0
      {| running := true; last_protocol_snapshot := None; last_rebalance := 0 |}
      [] []
    = (Ret (Some (st', repeat (DELTA_T_HOURS (agent_config init) * 3600)%Z 2)), tr') /\
    running st' = false.
Proof.
  destruct (@loop_stops_after_the_cycle_in_progress init
              (fun _ => feeds_down (10 ^ 9) 0) (fun c => Nat.eqb c 1)
              {| running := true; last_protocol_snapshot := None;
                 last_rebalance := 0 |} 1%nat 5%nat [])
    as (st' & tr' & Hrun & Hstopped & _).
  - reflexivity.
  - intros j Hj. assert (j = 0%nat) as -> by lia. reflexivity.
  - reflexivity.
  - lia.
  - exists st', tr'. auto.
Defined.

Lemma loop_never_stops_on_its_own_witness :
  exists tr',
    enhanced_monitoring_loop 3 init (fun _ => chain_down 0 : World float)
      (fun _ => false) 0
      {| running := true; last_protocol_snapshot := None; last_rebalance := 0 |}
      [] []
    = (Ret None, tr').
Proof.
  apply loop_never_stops_on_its_own. reflexivity.
Defined.
End Loop.

(** ** Policy events *)

Section QuietEvents.
Context {N : Type} `{Num N}.
Import IntegratedMantleVaultAgent IntegratedAgent.

(** An event that is no purchase and no settlement, and the purchase of a
    policy that cannot be read, change nothing: no adapter is called and
    the time of the last rebalance stays. *)
Theorem quiet_policy_events (self : Agent N) (w : World N)
    (event_type : string) (policy_id : Z) (stamp : Z) (tr : list (Event N)) :
  (event_type <> "PolicyPurchased"%string /\ event_type <> "PolicySettled"%string)
  \/ (event_type = "PolicyPurchased"%string /\ readable w policy_id = false) ->
  handle_policy_event self w event_type policy_id stamp tr = (Ret stamp, tr).
Proof.
  intros [[Hp Hs] | [-> Hunread]]; unfold handle_policy_event.
  - apply String.eqb_neq in Hp, Hs. rewrite Hp, Hs.
    destruct (String.eqb event_type "PolicyCreated"); reflexivity.
  - cbn [String.eqb Ascii.eqb Bool.eqb].
    unfold _on_policy_purchased, bindM, lift, readable in *.
    destruct (FOMOInsuranceMonitor._get_policy_info w policy_id)
      as [[p|]|e] eqn:Hinfo; [discriminate | reflexivity |].
    unfold FOMOInsuranceMonitor._get_policy_info in Hinfo.
    match type of Hinfo with
    | try_except ?body _ = _ => destruct body; discriminate
    end.
Qed.
End QuietEvents.

Lemma quiet_policy_events_witness :
  IntegratedAgent.handle_policy_event (N := float) IntegratedMantleVaultAgent.init
    (chain_down 0) "PolicyPurchased" 7 0 []
  = (Ret 0%Z, []).
Proof.
  apply quiet_policy_events. right. split; reflexivity.
Defined.

Section LoudEvents.
Local Open Scope py_scope.
Import IntegratedMantleVaultAgent IntegratedAgent.

(** The purchase of a readable policy always ends in a rebalance: the
    snapshot read for it carries no required reserve, the reserve ratio of
    its plan is 0, and the test against the target never fails. *)
Theorem purchased_policy_always_rebalances (self : Agent float) (w : World float)
    (policy_id : Z) (stamp : Z) (tr : list (Event float)) :
  readable w policy_id = true ->
  (lit 0 <? reserve_ratio self) = true ->
  exists snapshot plan,
    FOMOInsuranceMonitor.get_protocol_snapshot w = Ret snapshot /\
    _calculate_integrated_allocation self w snapshot = Ret plan /\
    handle_policy_event self w "PolicyPurchased" policy_id stamp tr
    = _execute_integrated_rebalance w plan stamp tr.
Proof.
  intros Hread Htarget.
  destruct (monitor_plan self w Htarget)
    as (snapshot & plan & Hsnap & Hplan & Hbelow & _).
  exists snapshot, plan. split; [exact Hsnap|]. split; [exact Hplan|].
  unfold handle_policy_event. cbn [String.eqb Ascii.eqb Bool.eqb].
  unfold _on_policy_purchased, bindM, lift, readable in *.
  destruct (FOMOInsuranceMonitor._get_policy_info w policy_id) as [[p|]|e];
    try discriminate.
  rewrite Hsnap, Hplan, Hbelow. reflexivity.
Qed.

(** A settlement rebalances exactly when the plan made from a new snapshot
    has more than 1000 of deployable funds; the snapshot and the plan are
    always obtained. *)
Theorem settled_policy_rebalances_above_1000 (self : Agent float) (w : World float)
    (policy_id : Z) (stamp : Z) (tr : list (Event float)) :
  exists snapshot plan,
    FOMOInsuranceMonitor.get_protocol_snapshot w = Ret snapshot /\
    _calculate_integrated_allocation self w snapshot = Ret plan /\
    deployable_funds plan = py_max2 (lit 0) (available_liquidity snapshot
                                             - (lit 0 + lit 0 * lit 0.2))%py /\
    handle_policy_event self w "PolicySettled" policy_id stamp tr
    = if (deployable_funds plan >? lit 1000)%py
      then _execute_integrated_rebalance w plan stamp tr
      else (Ret stamp, tr).
Proof.
  destruct (get_protocol_snapshot_run w) as (policies & liquidity & _ & _ & Hsnap).
  set (snapshot := Build_ProtocolSnapshot _ _ _ _ _ _ _) in Hsnap.
  destruct (plan_allocation_returns
              (py_max2 (lit 0)
                 (available_liquidity snapshot
                  - (total_reserves_required snapshot
                     + total_reserves_required snapshot * lit 0.2))%py)
              (List.length (active_policies snapshot))) as (x & y & z & Halloc).
  destruct (calculate_returns self w snapshot Halloc)
    as (apys & hi & lo & _ & _ & _ & Hcalc).
  exists snapshot. eexists. split; [exact Hsnap|]. split; [exact Hcalc|].
  split; [reflexivity|].
  unfold handle_policy_event. cbn [String.eqb Ascii.eqb Bool.eqb].
  unfold _on_policy_settled, bindM, lift.
  rewrite Hsnap, Hcalc.
  match goal with |- context [if ?c then _ else _] => destruct c end; reflexivity.
Qed.

Lemma purchased_policy_always_rebalances_witness :
  exists (plan : AllocationPlan float),
    handle_policy_event init (two_listed_policies (10 ^ 9)) "PolicyPurchased" 1 0 []
    = _execute_integrated_rebalance (two_listed_policies (10 ^ 9)) plan 0 [].
Proof.
  destruct (@purchased_policy_always_rebalances init (two_listed_policies (10 ^ 9))
              1 0 []) as (snapshot & plan & _ & _ & Hrun).
  - vm_compute. reflexivity.
  - vm_compute. reflexivity.
  - exists plan. exact Hrun.
Defined.
End LoudEvents.

(** ** Connections *)

Section Broadcast.
Import ConnectionManager.
Variable net : Sockets.
Variable message : string.

Lemma remove_first (c : WebSocket) (pre rest : list WebSocket) :
  ~ In c pre -> remove c (pre ++ c :: rest) = Ret (pre ++ rest).
Proof.
  induction pre as [|y pre IH]; intros Hnot; cbn [remove app].
  - now rewrite Nat.eqb_refl.
  - destruct (Nat.eqb_spec c y) as [->|_]; [exfalso; apply Hnot; now left|].
    rewrite IH; [reflexivity|]. intros Hin. apply Hnot. now right.
Qed.

Lemma remove_absent (c : WebSocket) (l : list WebSocket) :
  ~ In c l -> remove c l = Raise ValueError_remove.
Proof.
  induction l as [|y l IH]; intros Hnot; cbn [remove]; [reflexivity|].
  destruct (Nat.eqb_spec c y) as [->|_]; [exfalso; apply Hnot; now left|].
  rewrite IH; [reflexivity|]. intros Hin. apply Hnot. now right.
Qed.

Lemma nth_error_at (pre rest : list WebSocket) :
  nth_error (pre ++ rest) (List.length pre) = nth_error rest 0.
Proof.
  rewrite nth_error_app2 by lia. now rewrite Nat.sub_diag.
Qed.

Lemma broadcast_from_served (fuel : nat) :
  forall pre rest sent,
    NoDup (pre ++ rest) ->
    (List.length rest <= fuel)%nat ->
    broadcast_from fuel net message (List.length pre) (pre ++ rest) sent
    = Some (Ret (pre ++ fst (served net message rest),
                 sent ++ snd (served net message rest))).
Proof.
  induction fuel as [|fuel IH]; intros pre rest sent Hdistinct Hfuel.
  - destruct rest; [|cbn in Hfuel; lia].
    cbn [broadcast_from served fst snd]. rewrite nth_error_at. cbn [nth_error].
    now rewrite !app_nil_r.
  - destruct rest as [|c rest].
    + cbn [broadcast_from served fst snd]. rewrite nth_error_at. cbn [nth_error].
      now rewrite !app_nil_r.
    + cbn [broadcast_from served]. rewrite nth_error_at. cbn [nth_error].
      cbn [List.length] in Hfuel.
      destruct (send_text net c message) as [u|e]; cbn [raises].
      * replace (pre ++ c :: rest) with ((pre ++ [c]) ++ rest)
          by (now rewrite <- app_assoc).
        replace (S (List.length pre)) with (List.length (pre ++ [c]))
          by (rewrite length_app; cbn; lia).
        rewrite IH; [| now rewrite <- app_assoc | lia].
        cbn [fst snd]. now rewrite <- !app_assoc.
      * rewrite remove_first by (apply NoDup_remove_2 in Hdistinct;
                                 intros Hin; apply Hdistinct, in_or_app; now left).
        apply NoDup_remove_1 in Hdistinct.
        destruct rest as [|n rest].
        -- destruct fuel; cbn [broadcast_from fst snd];
             rewrite nth_error_app2 by lia;
             replace (S (List.length pre) - List.length pre)%nat with 1%nat by lia;
             cbn [nth_error]; now rewrite !app_nil_r.
        -- cbn [List.length] in Hfuel.
           replace (pre ++ n :: rest) with ((pre ++ [n]) ++ rest) in *
             by (now rewrite <- app_assoc).
           replace (S (List.length pre)) with (List.length (pre ++ [n]))
             by (rewrite length_app; cbn; lia).
           rewrite IH; [| exact Hdistinct | lia].
           cbn [fst snd]. now rewrite <- !app_assoc.
Qed.

Lemma broadcast_served (connections : list WebSocket) :
  NoDup connections ->
  broadcast net message connections = Some (Ret (served net message connections)).
Proof.
  intros Hdistinct. unfold broadcast.
  pose proof (@broadcast_from_served (List.length connections) [] connections []
                Hdistinct (le_n _)) as Hrun.
  cbn [app List.length] in Hrun. rewrite Hrun.
  now destruct (served net message connections).
Qed.

(** The facts of [served], two items at a time. *)
Lemma served_facts (l : list WebSocket) :
  let P l :=
    incl (snd (served net message l)) (fst (served net message l)) /\
    incl (fst (served net message l)) l /\
    Forall (live net message) (snd (served net message l)) /\
    (forall c, In c l -> ~ In c (fst (served net message l)) ->
               raises (send_text net c message) = true) in
  P l /\ forall c, P (c :: l).
Proof.
  induction l as [|x l [IHl IHx]]; cbn zeta.
  - split; [|intros c]; cbn [served];
      [|destruct (raises (send_text net c message)) eqn:Hc]; cbn [fst snd].
    + split; [|split; [|split]]; auto using incl_nil_l.
    + split; [apply incl_nil_l|]. split; [apply incl_nil_l|].
      split; [constructor|].
      intros c' [<-|[]] _. exact Hc.
    + split; [apply incl_refl|]. split; [apply incl_refl|].
      split; [repeat constructor; exact Hc|].
      intros c' [<-|[]] Hnot. exfalso. apply Hnot. now left.
  - split; [apply IHx|]. intros c.
    cbn zeta in IHl. destruct IHl as (Hsk & Hkl & Hlive & Hgone).
    specialize (IHx x). cbn zeta in IHx.
    destruct IHx as (Hsk' & Hkl' & Hlive' & Hgone').
    cbn [served].
    destruct (raises (send_text net c message)) eqn:Hc; cbn [fst snd].
    + split; [|split; [|split]].
      * intros y Hy. right. now apply Hsk.
      * intros y [<-|Hy]; [right; now left|]. right. right. now apply Hkl.
      * exact Hlive.
      * intros y [<-|[<-|Hy]] Hnot.
        -- exact Hc.
        -- exfalso. apply Hnot. now left.
        -- apply Hgone; [exact Hy|]. intros Hin. apply Hnot. now right.
    + split; [|split; [|split]].
      * intros y [<-|Hy]; [now left|]. right. now apply Hsk'.
      * intros y [<-|Hy]; [now left|]. right. now apply Hkl'.
      * constructor; [exact Hc | exact Hlive'].
      * intros y [<-|Hy] Hnot.
        -- exfalso. apply Hnot. now left.
        -- apply Hgone'; [exact Hy|]. intros Hin. apply Hnot. now right.
Qed.

Lemma served_live (before rest : list WebSocket) :
  Forall (live net message) before ->
  served net message (before ++ rest)
  = (before ++ fst (served net message rest),
     before ++ snd (served net message rest)).
Proof.
  induction 1 as [|c before Hc _ IH]; cbn [app served].
  - now destruct (served net message rest).
  - unfold live in Hc. rewrite Hc, IH. reflexivity.
Qed.

(** A broadcast over distinct connections ends without an error, whatever
    the sockets do.  It removes only connections whose send raised, it
    serves only connections it keeps, and every connection it serves got
    the message. *)
Theorem broadcast_removes_only_failed_connections (connections : list WebSocket) :
  NoDup connections ->
  exists kept sent,
    broadcast net message connections = Some (Ret (kept, sent)) /\
    incl sent kept /\
    incl kept connections /\
    Forall (live net message) sent /\
    (forall c, In c connections -> ~ In c kept ->
               raises (send_text net c message) = true).
Proof.
  intros Hdistinct.
  exists (fst (served net message connections)),
         (snd (served net message connections)).
  split.
  - rewrite (broadcast_served Hdistinct).
    now destruct (served net message connections).
  - exact (proj1 (served_facts connections)).
Qed.

(** When every send returns, the list is left as it is and every
    connection gets the message, in the order of the list. *)
Theorem broadcast_reaches_every_live_connection (connections : list WebSocket) :
  Forall (live net message) connections ->
  broadcast net message connections = Some (Ret (connections, connections)).
Proof.
  intros Hlive. unfold broadcast.
  assert (Hfrom : forall fuel pre rest sent,
             Forall (live net message) rest ->
             (List.length rest <= fuel)%nat ->
             broadcast_from fuel net message (List.length pre) (pre ++ rest) sent
             = Some (Ret (pre ++ rest, sent ++ rest))).
  { induction fuel as [|fuel IH]; intros pre rest sent Hrest Hfuel.
    - destruct rest; [|cbn in Hfuel; lia].
      cbn [broadcast_from]. rewrite nth_error_at. cbn [nth_error].
      now rewrite !app_nil_r.
    - destruct Hrest as [|c rest Hc Hrest].
      + cbn [broadcast_from]. rewrite nth_error_at. cbn [nth_error].
        now rewrite !app_nil_r.
      + cbn [broadcast_from]. rewrite nth_error_at. cbn [nth_error].
        cbn [List.length] in Hfuel. unfold live in Hc.
        destruct (send_text net c message); [|discriminate].
        replace (pre ++ c :: rest) with ((pre ++ [c]) ++ rest)
          by (now rewrite <- app_assoc).
        replace (S (List.length pre)) with (List.length (pre ++ [c]))
          by (rewrite length_app; cbn; lia).
        rewrite IH; [| exact Hrest | lia].
        now rewrite <- !app_assoc. }
  exact (Hfrom _ [] connections [] Hlive (le_n _)).
Qed.

(** The connection that follows a stale one is passed over: the stale
    connection is removed while the list is being iterated, so the next
    one is kept without being sent the message, even if it is stale
    itself.  Disconnecting the removed connection afterwards raises
    [ValueError]. *)
Theorem broadcast_skips_the_connection_after_a_stale_one
    (before after : list WebSocket) (stale next : WebSocket) :
  NoDup (before ++ stale :: next :: after) ->
  Forall (live net message) before ->
  raises (send_text net stale message) = true ->
  exists kept sent,
    broadcast net message (before ++ stale :: next :: after)
    = Some (Ret (kept, sent)) /\
    In next kept /\
    ~ In next sent /\
    ~ In stale kept /\
    disconnect kept stale = Raise ValueError_remove.
Proof.
  intros Hdistinct Hbefore Hstale.
  destruct (served_facts after) as [(Hsk & Hkl & _ & _) _].
  exists (before ++ next :: fst (served net message after)),
         (before ++ snd (served net message after)).
  assert (Hstale_out : ~ In stale (before ++ next :: fst (served net message after))).
  { pose proof (NoDup_remove_2 _ _ _ Hdistinct) as Hnot.
    intros Hin. apply Hnot. apply in_app_or in Hin. apply in_or_app.
    destruct Hin as [Hin|[<-|Hin]]; [now left | right; now left |].
    right. right. now apply Hkl. }
  split; [|split; [|split; [|split]]].
  - rewrite (broadcast_served Hdistinct), (served_live _ Hbefore).
    cbn [served]. rewrite Hstale. reflexivity.
  - apply in_or_app. right. now left.
  - replace (before ++ stale :: next :: after)
      with ((before ++ [stale]) ++ next :: after) in Hdistinct
      by (now rewrite <- app_assoc).
    pose proof (NoDup_remove_2 _ _ _ Hdistinct) as Hnot.
    intros Hin. apply Hnot. apply in_app_or in Hin. apply in_or_app.
    destruct Hin as [Hin|Hin].
    + left. apply in_or_app. now left.
    + right. now apply Hkl, Hsk.
  - exact Hstale_out.
  - unfold disconnect. now apply remove_absent.
Qed.

(** A connection that was accepted and is not yet in the list is in it
    after [connect]; [disconnect] then gives the list back. *)
Theorem connect_then_disconnect (connections : list WebSocket) (websocket : WebSocket) :
  raises (accept net websocket) = false ->
  ~ In websocket connections ->
  exists connected,
    connect net connections websocket = Ret connected /\
    connected = connections ++ [websocket] /\
    disconnect connected websocket = Ret connections.
Proof.
  intros Haccept Hnew. unfold connect, disconnect.
  destruct (accept net websocket); [|discriminate]. cbn [bind].
  eexists. split; [reflexivity|]. split; [reflexivity|].
  rewrite (@remove_first websocket connections [] Hnew). now rewrite app_nil_r.
Qed.
End Broadcast.

Lemma broadcast_removes_only_failed_connections_witness :
  exists kept sent,
    ConnectionManager.broadcast two_closed "tick" [0; 1; 2; 3; 4]%nat
    = Some (Ret (kept, sent)) /\ incl sent kept.
Proof.
  destruct (broadcast_removes_only_failed_connections two_closed "tick"
              (connections := [0; 1; 2; 3; 4]%nat))
    as (kept & sent & Hrun & Hsk & _).
  - repeat constructor; cbn; lia.
  - exists kept, sent. auto.
Defined.

Lemma broadcast_reaches_every_live_connection_witness :
  ConnectionManager.broadcast two_closed "tick" [0; 2; 4]%nat
  = Some (Ret ([0; 2; 4]%nat, [0; 2; 4]%nat)).
Proof.
  apply broadcast_reaches_every_live_connection.
  repeat constructor.
Defined.

Lemma broadcast_skips_the_connection_after_a_stale_one_witness :
  exists kept sent,
    ConnectionManager.broadcast two_closed "tick" ([0] ++ [1; 2; 3; 4])%nat
    = Some (Ret (kept, sent)) /\
    In 2%nat kept /\ ~ In 2%nat sent /\ ~ In 1%nat kept.
Proof.
  destruct (@broadcast_skips_the_connection_after_a_stale_one two_closed "tick"
              [0%nat] [3; 4]%nat 1%nat 2%nat)
    as (kept & sent & Hrun & Hkept & Hmissed & Hgone & _).
  - repeat constructor; cbn; lia.
  - repeat constructor.
  - reflexivity.
  - exists kept, sent. auto.
Defined.

Lemma connect_then_disconnect_witness :
  exists connected,
    ConnectionManager.connect two_closed [0; 2]%nat 4%nat = Ret connected /\
    ConnectionManager.disconnect connected 4%nat = Ret [0; 2]%nat.
Proof.
  destruct (@connect_then_disconnect two_closed [0; 2]%nat 4%nat)
    as (connected & Hconnect & _ & Hback).
  - reflexivity.
  - cbn. lia.
  - exists connected. auto.
Defined.

(** ** The average APY of a strategy *)

Section Windows.
Import StrategyData.

Lemma slice_from_all {A} (start : Z) (l : list A) :
  (start <= - Z.of_nat (List.length l) \/ start = 0)%Z -> slice_from start l = l.
Proof.
  intros Hstart. unfold slice_from.
  destruct (Z.ltb_spec start 0); [|replace start with 0%Z by lia].
  - replace (Z.max 0 (start + Z.of_nat (List.length l))) with 0%Z by lia.
    reflexivity.
  - replace (Z.min 0 (Z.of_nat (List.length l))) with 0%Z by lia. reflexivity.
Qed.

Lemma slice_from_none {A} (start : Z) (l : list A) :
  (Z.of_nat (List.length l) <= start)%Z -> slice_from start l = [].
Proof.
  intros Hstart. unfold slice_from.
  destruct (Z.ltb_spec start 0); [lia|].
  replace (Z.min start (Z.of_nat (List.length l)))
    with (Z.of_nat (List.length l)) by lia.
  rewrite Nat2Z.id. apply skipn_all.
Qed.

(** A window of 0 hours does not average nothing: it averages the whole
    history, as every window that covers the history does. *)
Theorem average_apy_of_window_zero {N : Type} `{Num N}
    (self : StrategyData.t N) (window_hours : Z) :
  (Z.of_nat (List.length (historical_apy self)) <= window_hours)%Z ->
  get_average_apy self 0 = get_average_apy self window_hours /\
  (historical_apy self <> [] ->
   get_average_apy self 0
   = truediv (py_sum (historical_apy self)) (len (historical_apy self))).
Proof.
  intros Hcovers. unfold get_average_apy.
  destruct (historical_apy self) as [|x l] eqn:Hhist; [split; congruence|].
  rewrite !slice_from_all by lia. split; reflexivity.
Qed.

(** A negative window that reaches past the history raises
    [ZeroDivisionError], although there is a history to average. *)
Theorem average_apy_of_a_window_past_the_history
    (self : StrategyData.t float) (window_hours : Z) :
  historical_apy self <> [] ->
  (window_hours <= - Z.of_nat (List.length (historical_apy self)))%Z ->
  get_average_apy self window_hours = Raise ZeroDivisionError.
Proof.
  intros Hhist Hpast. unfold get_average_apy.
  destruct (historical_apy self) as [|x l]; [congruence|].
  rewrite slice_from_none by lia. reflexivity.
Qed.
End Windows.

Section Means.
Import StrategyData.
Local Open Scope Q_scope.

Lemma py_sum_exact_from (l : list Q) (acc : Q) :
  fold_left Qplus l acc == acc + fold_left Qplus l 0.
Proof.
  revert acc. induction l as [|x l IH]; intros acc; cbn [fold_left].
  - ring.
  - rewrite (IH (acc + x)), (IH (0 + x)). ring.
Qed.

(** Over exact rationals, with a window of at least one hour and a
    history, the result is the mean of the newest entries, as many as the
    window asks for or all of them when there are fewer. *)
Theorem average_apy_is_the_mean_of_the_newest_entries
    (self : StrategyData.t Q) (window_hours : Z) :
  historical_apy self <> [] ->
  (1 <= window_hours)%Z ->
  exists average newest older,
    get_average_apy self window_hours = Ret average /\
    historical_apy self = older ++ newest /\
    List.length newest
    = Nat.min (Z.to_nat window_hours) (List.length (historical_apy self)) /\
    average * inject_Z (Z.of_nat (List.length newest)) == py_sum newest.
Proof.
  intros Hhist Hwindow. unfold get_average_apy.
  destruct (historical_apy self) as [|x l] eqn:Hl; [congruence|].
  rewrite <- Hl. clear Hhist.
  assert (Hlen : (1 <= List.length (historical_apy self))%nat)
    by (rewrite Hl; cbn; lia).
  set (hist := historical_apy self) in *.
  unfold slice_from.
  destruct (Z.ltb_spec (- window_hours) 0); [|lia].
  set (first := Z.to_nat (Z.max 0 (- window_hours + Z.of_nat (List.length hist)))).
  assert (Hnewest : List.length (skipn first hist)
                    = Nat.min (Z.to_nat window_hours) (List.length hist))
    by (rewrite length_skipn; subst first; lia).
  unfold truediv, len. cbn [eqb lit exact div].
  destruct (Qeq_bool (inject_Z (Z.of_nat (List.length (skipn first hist)))) 0)
    eqn:Hzero.
  - apply Qeq_bool_eq in Hzero. exfalso.
    assert (Hz : Z.of_nat (List.length (skipn first hist)) = 0%Z).
    { unfold Qeq in Hzero. cbn in Hzero. lia. }
    lia.
  - exists (py_sum (skipn first hist)
            / inject_Z (Z.of_nat (List.length (skipn first hist)))),
           (skipn first hist), (firstn first hist).
    split; [reflexivity|]. split; [now rewrite firstn_skipn|].
    split; [exact Hnewest|].
    field. intros Hzero'. apply Qeq_bool_neq in Hzero. contradiction.
Qed.
End Means.

Lemma average_apy_of_window_zero_witness :
  StrategyData.get_average_apy (N := float)
    {| StrategyData.name := "init_looping"; StrategyData.address := "0x0";
       StrategyData.current_apy := lit 8.5;
       StrategyData.historical_apy := [lit 8; lit 9];
       StrategyData.tvl := lit 0; StrategyData.allocation := lit 0;
       StrategyData.risk_score := lit 0.3; StrategyData.last_updated := 0 |} 0
  = Ret (lit 8.5).
Proof.
  match goal with
  | |- StrategyData.get_average_apy ?self 0 = _ =>
      destruct (@average_apy_of_window_zero float _ self 24) as [Hsame _];
        [cbn; lia | rewrite Hsame]
  end.
  vm_compute. reflexivity.
Defined.

Lemma average_apy_of_a_window_past_the_history_witness :
  StrategyData.get_average_apy (N := float)
    {| StrategyData.name := "init_looping"; StrategyData.address := "0x0";
       StrategyData.current_apy := lit 8.5;
       StrategyData.historical_apy := [lit 8; lit 9];
       StrategyData.tvl := lit 0; StrategyData.allocation := lit 0;
       StrategyData.risk_score := lit 0.3; StrategyData.last_updated := 0 |} (-2)
  = Raise ZeroDivisionError.
Proof.
  apply average_apy_of_a_window_past_the_history.
  - discriminate.
  - cbn. lia.
Defined.

Lemma average_apy_is_the_mean_of_the_newest_entries_witness :
  exists average newest older,
    StrategyData.get_average_apy (N := Q)
      {| StrategyData.name := "init_looping"; StrategyData.address := "0x0";
         StrategyData.current_apy := 8.5;
         StrategyData.historical_apy := [8; 9; 10]%Q;
         StrategyData.tvl := 0; StrategyData.allocation := 0;
         StrategyData.risk_score := 0.3; StrategyData.last_updated := 0 |} 2
    = Ret average /\
    [8; 9; 10]%Q = older ++ newest /\
    List.length newest = 2%nat.
Proof.
  destruct (@average_apy_is_the_mean_of_the_newest_entries
              {| StrategyData.name := "init_looping"; StrategyData.address := "0x0";
                 StrategyData.current_apy := 8.5;
                 StrategyData.historical_apy := [8; 9; 10]%Q;
                 StrategyData.tvl := 0; StrategyData.allocation := 0;
                 StrategyData.risk_score := 0.3; StrategyData.last_updated := 0 |} 2)
    as (average & newest & older & Hrun & Hsplit & Hlen & _).
  - discriminate.
  - lia.
  - exists average, newest, older. auto.
Defined.

(** ** The server's answers *)

Section Answers.
Context {N : Type} `{NumLaws N}.
Local Open Scope py_scope.

(** [set_custom_allocation] answers with the allocation it was given, or
    with the status 500: the 503 of a missing agent and the 400 of an
    allocation off 100 are caught by the endpoint's own handler and never
    reach the client.  It succeeds exactly when the agent is set, the sum
    is within 0.1 of 100 and the broadcast returns. *)
Theorem allocation_errors_are_all_500 (agent : bool) (broadcast : res unit)
    (allocations : list (string * N)) :
  (exists detail,
      set_custom_allocation agent broadcast allocations
      = Raise (HTTPException 500 detail) /\
      (agent = false
       \/ (abs (py_sum (map snd allocations) - lit 100) >? lit 0.1) = true
       \/ raises broadcast = true))
  \/ (set_custom_allocation agent broadcast allocations
      = Ret ("Custom allocation set"%string, allocations) /\
      agent = true /\
      (abs (py_sum (map snd allocations) - lit 100) >? lit 0.1) = false /\
      raises broadcast = false).
Proof.
  unfold set_custom_allocation.
  destruct agent; cbn [bind try_except]; [|left; eexists; split; [reflexivity|auto]].
  destruct (abs (py_sum (map snd allocations) - lit 100) >? lit 0.1);
    cbn [bind try_except]; [left; eexists; split; [reflexivity|auto]|].
  destruct broadcast as [[]|e]; cbn [bind try_except raises].
  - right. auto.
  - left. eexists. split; [reflexivity|auto].
Qed.

(** [get_fomo_status] without an agent answers 500, not 503.  With an
    agent it always answers: the division of the reserve ratio is guarded
    by [available_liquidity > 0], the figures are those of the stored
    snapshot, and before the first snapshot they are the fixed mock
    figures. *)
Theorem fomo_status_answers (agent : option (option (ProtocolSnapshot N)))
    (clock : Z) :
  match agent with
  | None =>
      exists detail, get_fomo_status agent clock = Raise (HTTPException 500 detail)
  | Some last =>
      exists status,
        get_fomo_status agent clock = Ret status /\
        match last with
        | Some snapshot =>
            fs_total_reserves_required status = total_reserves_required snapshot /\
            fs_available_liquidity status = available_liquidity snapshot /\
            fs_reserve_ratio status
            = (if available_liquidity snapshot >? lit 0
               then div (total_reserves_required snapshot)
                      (available_liquidity snapshot)
               else lit 0) /\
            fs_open_policies status = List.length (open_policies snapshot) /\
            fs_last_updated status = timestamp snapshot
        | None =>
            fs_total_reserves_required status = lit 45000 /\
            fs_available_liquidity status = lit 125000 /\
            fs_reserve_ratio status = lit 0.36 /\
            fs_last_updated status = clock
        end
  end.
Proof.
  unfold get_fomo_status.
  destruct agent as [[snapshot|]|]; cbn [bind try_except].
  - destruct (available_liquidity snapshot >? lit 0) eqn:Hpos; cbn [bind try_except].
    + unfold truediv. rewrite (ltb_neq _ _ Hpos). cbn [bind try_except].
      eexists. split; [reflexivity|]. cbn. auto.
    + eexists. split; [reflexivity|]. cbn. auto.
  - eexists. split; [reflexivity|]. cbn. auto.
  - eexists. reflexivity.
Qed.
End Answers.

Lemma allocation_errors_are_all_500_witness :
  exists detail,
    set_custom_allocation (N := float) true (Ret tt)
      [("init_looping"%string, lit 60); ("circuit_vault"%string, lit 30)]
    = Raise (HTTPException 500 detail).
Proof.
  destruct (@allocation_errors_are_all_500 float _ true (Ret tt)
              [("init_looping"%string, lit 60); ("circuit_vault"%string, lit 30)])
    as [(detail & Hrun & _) | (_ & _ & Hsum & _)].
  - exists detail. exact Hrun.
  - vm_compute in Hsum. discriminate.
Defined.

Lemma fomo_status_answers_witness :
  exists status : FomoStatus float,
    get_fomo_status (Some (Some (snapshot_of [] (lit 1000)))) 0 = Ret status /\
    fs_reserve_ratio status = div (lit 0) (lit 1000).
Proof.
  destruct (@fomo_status_answers float _ _
              (Some (Some (snapshot_of [] (lit 1000)))) 0)
    as (status & Hrun & _ & _ & Hratio & _).
  exists status. split; [exact Hrun|]. exact Hratio.
Defined.

(** ** The manual rebalance *)

Section Manual.
Context {N : Type} `{NumRound N}.
Local Open Scope py_scope.

Lemma execute_rebalance_returns (w : World N) (target : list (string * N))
    (tr : list (Event N)) :
  exists reply tr',
    execute_rebalance w target tr = (Ret reply, tr') /\
    (raises (MantleWeb3Manager.get_balance w "USDC" (FOMO_INSURANCE config)) = true ->
     tr' = tr /\ exists e, reply = ErrorExecutingRebalance e).
Proof.
  unfold execute_rebalance, try_exceptM, bindM, lift.
  destruct (MantleWeb3Manager.get_balance w "USDC" (FOMO_INSURANCE config))
    as [balance|e]; cbn [raises].
  - destruct (abs (py_sum (map snd target) - lit 100) >? lit 0.1).
    + eexists _, _. split; [reflexivity | discriminate].
    + destruct (deploy_targets w balance target [] tr) as [[results|e] tr'];
        eexists _, _; (split; [reflexivity | discriminate]).
  - eexists _, _. split; [reflexivity|]. intros _. split; [reflexivity|eauto].
Qed.

(** [manual_rebalance] does not depend on the risk tolerance it is given
    beyond the analysis it quotes: it always runs [execute_rebalance] on
    the fixed allocation 45 / 35 / 20, and it reports success with that
    tool's answer even when the answer is an error, as when the balance
    cannot be read and no adapter is called. *)
Theorem manual_rebalance_ignores_the_risk_tolerance
    (w : World N) (risk_tolerance : string) (tr : list (Event N)) :
  exists analysis reply tr',
    calculate_optimal_allocation w risk_tolerance = Ret analysis /\
    execute_rebalance w optimal_allocations tr = (Ret reply, tr') /\
    manual_rebalance w risk_tolerance tr
    = (Ret (ManualSuccess analysis reply (now w)), tr') /\
    (raises (MantleWeb3Manager.get_balance w "USDC" (FOMO_INSURANCE config)) = true ->
     tr' = tr /\ exists e, reply = ErrorExecutingRebalance e).
Proof.
  destruct (execute_rebalance_returns w optimal_allocations tr)
    as (reply & tr' & Hrun & Hunread).
  unfold manual_rebalance, try_exceptM, bindM, lift.
  unfold calculate_optimal_allocation at 2.
  match goal with
  | |- context [try_except ?body ?handler] =>
      destruct body as [analysis|e] eqn:Hbody
  end; cbn [try_except]; rewrite Hrun;
    eexists _, reply, tr'; (split; [|split; [reflexivity|split; [reflexivity|exact Hunread]]]);
    unfold calculate_optimal_allocation; rewrite Hbody; reflexivity.
Qed.
End Manual.

(** ** The advice at its edges *)

Section AdviceEdges.
Local Open Scope py_scope.

(** A risk tolerance that is none of the three known ones is advised as
    "moderate" is: the same metrics, percentages and blended APY, or the
    same error, under the label that was given. *)
Theorem unknown_risk_tolerance_is_moderate {N : Type} `{NumRound N}
    (w : World N) (risk_tolerance : string) :
  lookup risk_tolerance (@risk_multipliers N _) = None ->
  calculate_optimal_allocation w risk_tolerance
  = match calculate_optimal_allocation w "moderate" with
    | Ret (OptimalAllocation _ metrics allocation blended) =>
        Ret (OptimalAllocation risk_tolerance metrics allocation blended)
    | other => other
    end.
Proof.
  intros Hunknown. unfold calculate_optimal_allocation.
  destruct (mapM (strategy_metrics_of w) IntegratedMantleVaultAgent.strategy_names)
    as [strategies|e]; cbn [bind try_except]; [|reflexivity].
  change (getitem risk_multipliers "moderate") with (Ret (@moderate N _)).
  cbn [bind]. unfold get_default. rewrite Hunknown.
  change (lookup "moderate" risk_multipliers) with (Some (@moderate N _)).
  cbn beta iota.
  match goal with
  | |- context [bind (mapM ?f moderate)] =>
      destruct (mapM f moderate) as [first|e]
  end; cbn [bind try_except]; [|reflexivity].
  match goal with
  | |- context [bind (mapM ?f first)] =>
      destruct (mapM f first) as [second|e]
  end; cbn [bind try_except]; [|reflexivity].
  match goal with
  | |- context [bind (mapM ?f second)] =>
      destruct (mapM f second) as [blended|e]
  end; reflexivity.
Qed.

End AdviceEdges.

Lemma unknown_risk_tolerance_is_moderate_witness :
  calculate_optimal_allocation (feeds_down 0 0 : World float) "balanced"
  = match calculate_optimal_allocation (feeds_down 0 0 : World float) "moderate" with
    | Ret (OptimalAllocation _ metrics allocation blended) =>
        Ret (OptimalAllocation "balanced" metrics allocation blended)
    | other => other
    end.
Proof.
  apply unknown_risk_tolerance_is_moderate. reflexivity.
Defined.


